(** * Reconciliation of Azure virtual networks and virtual machines

    A shallow embedding of the two Ansible modules
    [azure_rm_virtualnetwork.py] and [azure_rm_virtualmachine.py].

    Python dictionaries whose key set matters are [gmap string _], Python
    sets are [gset string], SDK objects are records.  Every remote call goes
    through an abstract client ([Remote]) and is recorded, with its outcome,
    in a trace; [self.results] is part of the threaded state, so that the
    outcome record can be inspected at the point where an invocation
    fails. *)

From Stdlib Require Import Ascii String.
From stdpp Require Import gmap strings list.

Open Scope string_scope.
Open Scope list_scope.

(** ** Python strings *)

Module Py.

Definition code (c : ascii) : N := Ascii.N_of_ascii c.

Definition in_range (lo hi : N) (c : ascii) : bool :=
  ((lo <=? code c) && (code c <=? hi))%N.

(** [a-z], [A-Z], [0-9] *)
Definition is_lower : ascii → bool := in_range 97 122.
Definition is_upper : ascii → bool := in_range 65 90.
Definition is_digit : ascii → bool := in_range 48 57.

Definition newline : ascii := Ascii.ascii_of_N 10.

(** truth value of a string, of [None]-or-string, of [None]-or-list *)
Definition truthy (s : string) : bool :=
  match s with EmptyString => false | _ => true end.

Definition truthy_opt (o : option string) : bool :=
  match o with Some s => truthy s | None => false end.

Definition truthy_list {A} (o : option (list A)) : bool :=
  match o with Some (_ :: _) => true | _ => false end.

Definition startswith (s p : string) : bool := String.prefix p s.

(** [s.replace(old, new)] for a non-empty [old]: every occurrence, left to
    right, without overlap.  [skip] counts the characters of a match that
    are still to be dropped. *)
Fixpoint replace_from (old new : string) (skip : nat) (s : string) : string :=
  match s with
  | EmptyString => EmptyString
  | String c rest =>
      match skip with
      | S k => replace_from old new k rest
      | O =>
          if String.prefix old s
          then new +:+ replace_from old new (String.length old - 1) rest
          else String c (replace_from old new 0 rest)
      end
  end.

Definition replace (s old new : string) : string := replace_from old new 0 s.

(** [s] cut at the first occurrence of the character [c] *)
Fixpoint split_at (c : ascii) (s : string) : option (string * string) :=
  match s with
  | EmptyString => None
  | String d rest =>
      if Ascii.eqb c d then Some (EmptyString, rest)
      else match split_at c rest with
           | Some (l, r) => Some (String d l, r)
           | None => None
           end
  end.

(** the position after a literal prefix *)
Fixpoint strip_prefix (p s : string) : option string :=
  match p, s with
  | EmptyString, _ => Some s
  | String a p', String b s' => if Ascii.eqb a b then strip_prefix p' s' else None
  | String _ _, EmptyString => None
  end.

Fixpoint contains_char (c : ascii) (s : string) : bool :=
  match s with
  | EmptyString => false
  | String d rest => Ascii.eqb c d || contains_char c rest
  end.

End Py.

(** ** Outcomes of fallible code *)

(** [self.fail(msg)] ends the invocation; the three kinds follow the text of
    the message: "Parameter error: ..." is a validation failure, a message
    about a provisioning state a provisioning failure, every other
    "Error ..." wraps a failed remote call.  [PythonException] is an
    exception that no handler of the module catches. *)
Inductive failure : Type :=
| ValidationError (msg : string)
| ProvisioningStateError (msg : string)
| RemoteOperationError (msg : string)
| PythonException (exc : string).

Inductive outcome (A : Type) : Type :=
| Ok (a : A)
| Err (f : failure).
Arguments Ok {A} a.
Arguments Err {A} f.

Definition obind {A B} (x : outcome A) (f : A → outcome B) : outcome B :=
  match x with
  | Ok a => f a
  | Err e => Err e
  end.

Definition is_ok {A} (x : outcome A) : bool :=
  match x with Ok _ => true | Err _ => false end.

(** a loop [for x in l: acc = body(acc, x)] that an exception leaves *)
Fixpoint ofold {A B} (body : B → A → outcome B) (l : list A) (acc : B) : outcome B :=
  match l with
  | [] => Ok acc
  | x :: l' => obind (body acc x) (ofold body l')
  end.

(** ** Values held by the serialized virtual network *)

Inductive value : Type :=
| VNone
| VStr (s : string)
| VList (l : list string)
| VTags (t : gmap string string).

#[global] Instance value_eq_dec : EqDecision value := ltac:(solve_decision).

Definition value_truthy (v : value) : bool :=
  match v with
  | VNone => false
  | VStr s => Py.truthy s
  | VList l => match l with [] => false | _ => true end
  | VTags t => negb (bool_decide (t = ∅))
  end.

(** [d[k]]: a [KeyError] when the key is missing *)
Definition subscript {V} (d : gmap string V) (k : string) : outcome V :=
  match d !! k with
  | Some v => Ok v
  | None => Err (PythonException ("KeyError: " +:+ k))
  end.

(** ** The parts of [azure_rm_common] the modules rely on

    [azure_rm_common] is not among the sources; what the two modules use of
    it is a parameter of the whole development. *)
Record Common : Type := {
  (** [CIDR_PATTERN.match(prefix)] *)
  CIDR_PATTERN_match : string → bool;
  (** [self.update_tags(current)], given the [tags] and [purge_tags]
      parameters: the changed flag and the new tags *)
  update_tags : option (gmap string string) → bool → value → bool * value;
  (** [self.check_provisioning_state(obj, state)]: [true] when the check
      passes; the second argument is the requested state, [None] when the
      call leaves it out *)
  check_provisioning_state : string → option string → bool;
  (** [azure_id_to_dict(id)] *)
  azure_id_to_dict : string → gmap string string;
}.

(** ** SDK objects *)

(** [azure.mgmt.network.models.VirtualNetwork] as the service returns it;
    [dhcp_options] and [address_space] are [None] or hold a list. *)
Record VirtualNetwork : Type := {
  vnet_id : string;
  vnet_name : string;
  vnet_location : string;
  vnet_type : string;
  vnet_tags : option (gmap string string);
  vnet_provisioning_state : string;
  vnet_etag : string;
  vnet_dhcp_options : option (list string);
  vnet_address_space : option (list string);
}.

(** the [VirtualNetwork] object handed to [create_or_update]; its fields are
    whatever Python values the module puts there *)
Record VNetPayload : Type := {
  np_location : value;
  np_address_prefixes : value;
  np_tags : value;
  np_dhcp_options : option value;
}.

Record ImageReference : Type := {
  img_publisher : string;
  img_offer : string;
  img_sku : string;
  img_version : string;
}.

Record OSDisk : Type := {
  disk_name : string;
  disk_vhd_uri : string;
  disk_create_option : string;
  disk_os_type : string;
  disk_caching : string;
}.

Record SshPublicKey : Type := {
  pk_path : string;
  pk_key_data : string;
}.

Record LinuxConfiguration : Type := {
  lc_disable_password_authentication : option bool;
  lc_public_keys : option (list SshPublicKey);
}.

Record OSProfile : Type := {
  os_admin_username : string;
  os_computer_name : string;
  os_admin_password : option string;
  os_linux_configuration : option LinuxConfiguration;
}.

(** [VirtualMachine] fetched with [expand='instanceview']; [vm_statuses]
    are the codes of [instance_view.statuses], [vm_network_interfaces] the
    ids of [network_profile.network_interfaces]. *)
Record VirtualMachine : Type := {
  vm_id : string;
  vm_name : string;
  vm_location : string;
  vm_type : string;
  vm_tags : option (gmap string string);
  vm_provisioning_state : string;
  vm_statuses : list string;
  vm_network_interfaces : list string;
  vm_hardware_size : string;
  vm_image_reference : ImageReference;
  vm_os_disk : OSDisk;
  vm_os_profile : OSProfile;
}.

(** a network interface: id, name, provisioning state and, for each IP
    configuration, the id of its public IP address if it has one *)
Record NetworkInterface : Type := {
  nic_id : string;
  nic_name : string;
  nic_provisioning_state : string;
  nic_ip_configurations : list (option string);
}.

Record PublicIPAddress : Type := {
  pip_id : string;
  pip_name : string;
  pip_ip_address : string;
}.

Record StorageAccount : Type := {
  sa_name : string;
  sa_provisioning_state : string;
}.

(** the [VirtualMachine] object handed to [create_or_update] *)
Record VMPayload : Type := {
  vp_id : option string;
  vp_location : string;
  vp_name : string;
  vp_type : option string;
  vp_tags : option value;
  vp_admin_username : option string;
  vp_computer_name : option string;
  vp_admin_password : option string;
  vp_linux_configuration : option LinuxConfiguration;
  vp_vm_size : option string;
  vp_os_disk_name : string;
  vp_vhd_uri : option string;
  vp_create_option : string;
  vp_os_type : option string;
  vp_caching : option string;
  vp_image : ImageReference;
  vp_network_interfaces : list string;
}.

(** the [NetworkInterface] object built by [create_default_nic] *)
Record NicPayload : Type := {
  ni_location : string;
  ni_name : string;
  ni_subnet : string;
  ni_security_group : string;
  ni_public_ip : string;
}.

(** ** Remote calls *)

(** what a [get] answers: the object, a [CloudError], or another exception *)
Inductive fetch (A : Type) : Type :=
| Found (a : A)
| CloudError
| OtherError.
Arguments Found {A} a.
Arguments CloudError {A}.
Arguments OtherError {A}.

Definition answered {A} (o : option A) : bool :=
  match o with Some _ => true | None => false end.

Definition found {A} (r : fetch A) : bool :=
  match r with Found _ => true | _ => false end.

Inductive call : Type :=
| ResourceGroupsGet (rg : string)
| VirtualNetworksGet (rg name : string)
| VirtualNetworksList (rg : string) (vnet : option string)
| SubnetsGet (rg vnet : string)
| SubnetsList (rg vnet : string)
| VirtualMachinesGet (rg name : string)
| VirtualMachineSizesList (location : string)
| VirtualMachineImagesList (location pub off sk : string)
| NetworkInterfacesGet (rg name : string)
| PublicIPAddressesGet (rg name : string)
| StorageAccountsGetProperties (rg name : string)
| GetBlobClient (rg account : string)
| VirtualNetworksCreateOrUpdate (rg name : string) (payload : VNetPayload)
| VirtualNetworksDelete (rg name : string)
| VirtualMachinesCreateOrUpdate (rg name : string) (payload : VMPayload)
| VirtualMachinesDelete (rg name : string)
| VirtualMachinesStart (rg name : string)
| VirtualMachinesPowerOff (rg name : string)
| NetworkInterfacesCreateOrUpdate (rg name : string) (payload : NicPayload)
| NetworkInterfacesDelete (rg name : string)
| PublicIPAddressesDelete (rg name : string)
| StorageAccountsCreate (rg name location : string)
| DeleteBlob (account container blob : string)
| CreateDefaultPip (rg location name allocation : string)
| CreateDefaultSecurityGroup (rg location name os : string) (ssh_port rdp_port : Z).

(** the calls that change something in the subscription *)
Definition is_mutation (c : call) : bool :=
  match c with
  | VirtualNetworksCreateOrUpdate _ _ _ | VirtualNetworksDelete _ _
  | VirtualMachinesCreateOrUpdate _ _ _ | VirtualMachinesDelete _ _
  | VirtualMachinesStart _ _ | VirtualMachinesPowerOff _ _
  | NetworkInterfacesCreateOrUpdate _ _ _ | NetworkInterfacesDelete _ _
  | PublicIPAddressesDelete _ _ | StorageAccountsCreate _ _ _
  | DeleteBlob _ _ _ | CreateDefaultPip _ _ _ _
  | CreateDefaultSecurityGroup _ _ _ _ _ _ => true
  | _ => false
  end.

Definition is_delete (c : call) : bool :=
  match c with
  | VirtualNetworksDelete _ _ | VirtualMachinesDelete _ _
  | NetworkInterfacesDelete _ _ | PublicIPAddressesDelete _ _
  | DeleteBlob _ _ _ => true
  | _ => false
  end.

Definition is_power (c : call) : bool :=
  match c with
  | VirtualMachinesStart _ _ | VirtualMachinesPowerOff _ _ => true
  | _ => false
  end.

Definition is_power_on (c : call) : bool :=
  match c with VirtualMachinesStart _ _ => true | _ => false end.

Definition is_power_off (c : call) : bool :=
  match c with VirtualMachinesPowerOff _ _ => true | _ => false end.

(** a call and whether it came back without an exception (its poller
    included) *)
Record event : Type := Event {
  ev_call : call;
  ev_ok : bool;
}.

(** The service clients over a state [W] of the subscription.  A read
    answers from the state; a mutation also yields the state it leaves,
    whether it succeeds or not. *)
Record Remote (W : Type) : Type := {
  resource_groups_get : W → string → option string;
  virtual_networks_get : W → string → string → fetch VirtualNetwork;
  virtual_networks_list : W → string → option string → fetch (list string);
  subnets_get : W → string → string → option string;
  subnets_list : W → string → string → fetch (list string);
  virtual_machines_get : W → string → string → fetch VirtualMachine;
  virtual_machine_sizes_list : W → string → option (list string);
  virtual_machine_images_list :
    W → string → string → string → string → option (list string);
  network_interfaces_get : W → string → string → fetch NetworkInterface;
  public_ip_addresses_get : W → string → string → option PublicIPAddress;
  storage_accounts_get_properties : W → string → string → fetch StorageAccount;
  get_blob_client : W → string → string → bool;
  virtual_networks_create_or_update :
    W → string → string → VNetPayload → W * option VirtualNetwork;
  virtual_networks_delete : W → string → string → W * bool;
  virtual_machines_create_or_update : W → string → string → VMPayload → W * bool;
  virtual_machines_delete : W → string → string → W * bool;
  virtual_machines_start : W → string → string → W * bool;
  virtual_machines_power_off : W → string → string → W * bool;
  network_interfaces_create_or_update :
    W → string → string → NicPayload → W * option NetworkInterface;
  network_interfaces_delete : W → string → string → W * bool;
  public_ip_addresses_delete : W → string → string → W * bool;
  storage_accounts_create : W → string → string → string → W * bool;
  delete_blob : W → string → string → string → W * bool;
  create_default_pip :
    W → string → string → string → string → W * option PublicIPAddress;
  create_default_securitygroup :
    W → string → string → string → string → Z → Z → W * option string;
}.
Arguments resource_groups_get {W}.
Arguments virtual_networks_get {W}.
Arguments virtual_networks_list {W}.
Arguments subnets_get {W}.
Arguments subnets_list {W}.
Arguments virtual_machines_get {W}.
Arguments virtual_machine_sizes_list {W}.
Arguments virtual_machine_images_list {W}.
Arguments network_interfaces_get {W}.
Arguments public_ip_addresses_get {W}.
Arguments storage_accounts_get_properties {W}.
Arguments get_blob_client {W}.
Arguments virtual_networks_create_or_update {W}.
Arguments virtual_networks_delete {W}.
Arguments virtual_machines_create_or_update {W}.
Arguments virtual_machines_delete {W}.
Arguments virtual_machines_start {W}.
Arguments virtual_machines_power_off {W}.
Arguments network_interfaces_create_or_update {W}.
Arguments network_interfaces_delete {W}.
Arguments public_ip_addresses_delete {W}.
Arguments storage_accounts_create {W}.
Arguments delete_blob {W}.
Arguments create_default_pip {W}.
Arguments create_default_securitygroup {W}.

(** ** The state threaded through an invocation *)

Record St (W R : Type) : Type := mkSt {
  world : W;
  trace : list event;
  res : R;
}.
Arguments mkSt {W R}.
Arguments world {W R}.
Arguments trace {W R}.
Arguments res {W R}.

Definition M (W R A : Type) : Type := St W R → St W R * outcome A.

Section Monad.
Context {W R : Type}.

Definition ret {A} (a : A) : M W R A := λ st, (st, Ok a).

Definition bind {A B} (m : M W R A) (f : A → M W R B) : M W R B :=
  λ st, match m st with
        | (st', Ok a) => f a st'
        | (st', Err e) => (st', Err e)
        end.

Definition throw {A} (e : failure) : M W R A := λ st, (st, Err e).

Definition lift {A} (x : outcome A) : M W R A := λ st, (st, x).

(** a call that reads *)
Definition query {A} (c : call) (ask : W → A) (ok : A → bool) : M W R A :=
  λ st, let a := ask (world st) in
        (mkSt (world st) (trace st ++ [Event c (ok a)]) (res st), Ok a).

(** a call that mutates *)
Definition command {A} (c : call) (run : W → W * A) (ok : A → bool) : M W R A :=
  λ st, let '(w, a) := run (world st) in
        (mkSt w (trace st ++ [Event c (ok a)]) (res st), Ok a).

Definition get_res : M W R R := λ st, (st, Ok (res st)).

Definition modify_res (f : R → R) : M W R unit :=
  λ st, (mkSt (world st) (trace st) (f (res st)), Ok tt).

Definition when (b : bool) (m : M W R unit) : M W R unit :=
  if b then m else ret tt.

(** [for x in l: body(x)] *)
Fixpoint for_each {A} (l : list A) (body : A → M W R unit) : M W R unit :=
  match l with
  | [] => ret tt
  | x :: l' => bind (body x) (λ _, for_each l' body)
  end.

(** [for x in l: acc.append(body(x))] *)
Fixpoint collect {A B} (l : list A) (body : A → M W R B) : M W R (list B) :=
  match l with
  | [] => ret []
  | x :: l' => bind (body x) (λ b, bind (collect l' body) (λ bs, ret (b :: bs)))
  end.

End Monad.

Declare Scope exec_scope.
Delimit Scope exec_scope with exec.
Notation "x <- m ;; k" := (bind m (λ x, k))
  (at level 100, m at next level, right associativity) : exec_scope.
Notation "m ;;; k" := (bind m (λ _, k))
  (at level 100, right associativity) : exec_scope.

#[global] Instance outcome_ret : MRet outcome := @Ok.
#[global] Instance outcome_bind : MBind outcome := λ A B f x, obind x f.

(** ** What both modules take from their base class *)

Section Base.
Context {W R : Type} (rm : Remote W).
Local Open Scope exec_scope.

(** Modelled from the spec: [get_resource_group] of the base class, which
    is not among the sources; it reads the resource group and any failure
    of that read is fatal. *)
Definition get_resource_group (rg : string) : M W R string :=
  r <- query (ResourceGroupsGet rg) (λ w, resource_groups_get rm w rg) answered ;;
  match r with
  | Some location => ret location
  | None => throw (RemoteOperationError ("Error retrieving resource group " +:+ rg))
  end.

End Base.

(** * azure_rm_virtualnetwork *)

Module VNet.

(** [NAME_PATTERN = re.compile(r"^[a-zA-Z0-9_]{1,61}[a-z0-9_]$")] *)

Definition name_char (c : ascii) : bool :=
  Py.is_lower c || Py.is_upper c || Py.is_digit c || Ascii.eqb c "_".

Definition name_last_char (c : ascii) : bool :=
  Py.is_lower c || Py.is_digit c || Ascii.eqb c "_".

(** [$]: the end of the string, or just before a newline that ends it *)
Definition at_end (s : string) : bool :=
  match s with
  | EmptyString => true
  | String c EmptyString => Ascii.eqb c Py.newline
  | _ => false
  end.

(** [[a-z0-9_]$] at [s] *)
Definition match_last (s : string) : bool :=
  match s with
  | String c rest => name_last_char c && at_end rest
  | EmptyString => false
  end.

(** the rest of the pattern once one character of the repeated class is
    consumed and [more] repetitions are still allowed *)
Fixpoint match_rest (more : nat) (s : string) : bool :=
  match_last s ||
  match more, s with
  | S k, String c rest => name_char c && match_rest k rest
  | _, _ => false
  end.

Definition NAME_PATTERN_match (s : string) : bool :=
  match s with
  | String c rest => name_char c && match_rest 60 rest
  | EmptyString => false
  end.

Inductive state : Type := present | absent.

#[global] Instance state_eq_dec : EqDecision state := ltac:(solve_decision).

Definition state_name (s : state) : string :=
  match s with present => "present" | absent => "absent" end.

(** the module parameters, with [tags], [purge_tags] and the check mode of
    the run *)
Record Params : Type := {
  resource_group : string;
  name : string;
  state_ : state;
  location : option string;
  address_prefixes_cidr : option (list string);
  dns_servers : option (list string);
  purge_address_prefixes : bool;
  purge_dns_servers : bool;
  tags : option (gmap string string);
  purge_tags : bool;
  check_mode : bool;
}.

(** [self.results] *)
Record Results : Type := {
  changed : bool;
  results : gmap string value;
}.

Definition initial_results : Results :=
  {| changed := false; results := ∅ |}.

Definition of_tags (t : option (gmap string string)) : value :=
  match t with Some t => VTags t | None => VNone end.

Definition virtual_network_to_dict (vnet : VirtualNetwork) : gmap string value :=
  let results : gmap string value :=
    <["id" := VStr (vnet_id vnet)]>
    (<["name" := VStr (vnet_name vnet)]>
    (<["location" := VStr (vnet_location vnet)]>
    (<["type" := VStr (vnet_type vnet)]>
    (<["tags" := of_tags (vnet_tags vnet)]>
    (<["provisioning_state" := VStr (vnet_provisioning_state vnet)]>
    (<["etag" := VStr (vnet_etag vnet)]> ∅)))))) in
  let results :=
    match vnet_dhcp_options vnet with
    | Some (server :: servers) => <["dns_servers" := VList (server :: servers)]> results
    | _ => results
    end in
  match vnet_address_space vnet with
  | Some (space :: spaces) => <["address_prefixes" := VList (space :: spaces)]> results
  | _ => results
  end.

(** [results[k].append(x)] *)
Definition append_at (results : gmap string value) (k x : string)
  : outcome (gmap string value) :=
  v ← subscript results k;
  match v with
  | VList l => Ok (<[k := VList (l ++ [x])]> results)
  | _ => Err (PythonException "AttributeError: append")
  end.

Section Diff.
Context (cm : Common) (p : Params).

(** lines 275-285: the parameter checks made before the fetch *)
Definition validate : outcome unit :=
  (if NAME_PATTERN_match (name p) then Ok tt
   else Err (ValidationError
          ("Parameter error: name must begin with a letter or number, end with a letter, number "
           +:+ "or underscore and may contain only letters, numbers, periods, underscores or hyphens.")));;
  if bool_decide (state_ p = present) && purge_address_prefixes p then
    match address_prefixes_cidr p with
    | None => Err (PythonException "TypeError: 'NoneType' object is not iterable")
    | Some prefixes =>
        ofold (λ _ prefix,
                 if CIDR_PATTERN_match cm prefix then Ok tt
                 else Err (ValidationError
                        ("Parameter error: invalid address prefix value " +:+ prefix)))
              prefixes tt
    end;;
    match dns_servers p with
    | Some (s1 :: s2 :: s3 :: _) =>
        Err (ValidationError "Parameter error: You can provide a maximum of 2 DNS servers.")
    | _ => Ok tt
    end
  else Ok tt.

(** lines 300-317: the address prefixes of an existing network *)
Definition reconcile_address_prefixes (vnet : VirtualNetwork)
    (changed : bool) (results : gmap string value)
  : outcome (bool * gmap string value) :=
  match address_prefixes_cidr p with
  | Some (prefix :: prefixes) =>
      let requested := prefix :: prefixes in
      match vnet_address_space vnet with
      | None => Err (PythonException "AttributeError: address_prefixes")
      | Some existing =>
          let existing_address_prefix_set : gset string := list_to_set existing in
          let requested_address_prefix_set : gset string := list_to_set requested in
          let missing_prefixes := requested_address_prefix_set ∖ existing_address_prefix_set in
          let extra_prefixes := existing_address_prefix_set ∖ requested_address_prefix_set in
          '(changed, results) ←
            (if bool_decide (0 < size missing_prefixes) then
               if negb (purge_address_prefixes p) then
                 results ← ofold (λ results prefix, append_at results "address_prefixes" prefix)
                                 (elements missing_prefixes) results;
                 Ok (true, results)
               else Ok (true, results)
             else Ok (changed, results));
          if bool_decide (0 < size extra_prefixes) && purge_address_prefixes p then
            Ok (true, <["address_prefixes" := VList requested]> results)
          else Ok (changed, results)
      end
  | _ => Ok (changed, results)
  end.

(** lines 319-321 *)
Definition reconcile_tags (changed : bool) (results : gmap string value)
  : outcome (bool * gmap string value) :=
  current ← subscript results "tags";
  let '(update_tags, new_tags) := update_tags cm (tags p) (purge_tags p) current in
  Ok (if update_tags then true else changed, <["tags" := new_tags]> results).

(** lines 323-334 *)
Definition reconcile_dns_servers (vnet : VirtualNetwork)
    (changed : bool) (results : gmap string value)
  : outcome (bool * gmap string value) :=
  '(changed, results) ←
    match dns_servers p with
    | Some (server :: servers) =>
        let requested := server :: servers in
        match vnet_dhcp_options vnet with
        | None => Err (PythonException "AttributeError: dns_servers")
        | Some existing =>
            let existing_dns_set : gset string := list_to_set existing in
            let requested_dns_set : gset string := list_to_set requested in
            if bool_decide (existing_dns_set ≠ requested_dns_set)
            then Ok (true, <["dns_servers" := VList requested]> results)
            else Ok (changed, results)
        end
    | _ => Ok (changed, results)
    end;
  match purge_dns_servers p, vnet_dhcp_options vnet with
  | true, Some (_ :: _) => Ok (true, <["dns_servers" := VList []]> results)
  | _, _ => Ok (changed, results)
  end.

(** lines 294-337: what the [try] block computes once the network is
    fetched *)
Definition diff_existing (vnet : VirtualNetwork) : outcome (bool * gmap string value) :=
  let results := virtual_network_to_dict vnet in
  (if check_provisioning_state cm (vnet_provisioning_state vnet)
        (Some (state_name (state_ p)))
   then Ok tt
   else Err (ProvisioningStateError
          ("Error virtual network " +:+ name p +:+ " has a provisioning state of "
           +:+ vnet_provisioning_state vnet)));;
  match state_ p with
  | present =>
      '(changed, results) ← reconcile_address_prefixes vnet false results;
      '(changed, results) ← reconcile_tags changed results;
      reconcile_dns_servers vnet changed results
  | absent => Ok (true, results)
  end.

(** lines 357-368: the object sent when the network is created *)
Definition create_payload (location : string) (prefixes : list string) : VNetPayload :=
  {| np_location := VStr location;
     np_address_prefixes := VList prefixes;
     np_tags := match tags p with
                | Some t => if bool_decide (t = ∅) then VNone else VTags t
                | None => VNone
                end;
     np_dhcp_options := match dns_servers p with
                        | Some (s :: l) => Some (VList (s :: l))
                        | _ => None
                        end |}.

(** lines 373-383: the object sent when the network is updated *)
Definition update_payload (results : gmap string value) : outcome VNetPayload :=
  location ← subscript results "location";
  address_prefixes ← subscript results "address_prefixes";
  tags ← subscript results "tags";
  dns_servers ← subscript results "dns_servers";
  Ok {| np_location := location;
        np_address_prefixes := address_prefixes;
        np_tags := tags;
        np_dhcp_options := if value_truthy dns_servers then Some dns_servers else None |}.

End Diff.

Section Exec.
Context {W : Type} (cm : Common) (rm : Remote W) (p : Params).
Local Open Scope exec_scope.

Local Abbreviation M := (M W Results).

(** lines 390-398 *)
Definition create_or_update_vnet (vnet : VNetPayload) : M (gmap string value) :=
  r <- command (VirtualNetworksCreateOrUpdate (resource_group p) (name p) vnet)
               (λ w, virtual_networks_create_or_update rm w (resource_group p) (name p) vnet)
               answered ;;
  match r with
  | Some new_vnet => ret (virtual_network_to_dict new_vnet)
  | None => throw (RemoteOperationError
              ("Error creating or updating virtual network " +:+ name p))
  end.

Definition set_results (r : gmap string value) : M unit :=
  modify_res (λ o, {| changed := changed o; results := r |}).

(** lines 400-409 *)
Definition delete_virtual_network : M unit :=
  ok <- command (VirtualNetworksDelete (resource_group p) (name p))
                (λ w, virtual_networks_delete rm w (resource_group p) (name p))
                id ;;
  if ok : bool then
    modify_res (λ o, {| changed := changed o;
                        results := <["status" := VStr "Deleted"]> (results o) |})
  else throw (RemoteOperationError ("Error deleting virtual network " +:+ name p)).

(** lines 290-342: fetch and compare *)
Definition fetch_and_diff : M (bool * gmap string value) :=
  r <- query (VirtualNetworksGet (resource_group p) (name p))
             (λ w, virtual_networks_get rm w (resource_group p) (name p)) found ;;
  match r with
  | Found vnet => lift (diff_existing cm p vnet)
  | CloudError => ret (bool_decide (state_ p = present), ∅)
  | OtherError => throw (PythonException "Exception: virtual_networks.get")
  end.

(** lines 350-386: what is done once a change is detected *)
Definition apply (location : string) (results : gmap string value) : M unit :=
  match state_ p with
  | present =>
      if bool_decide (results = ∅) then
        match address_prefixes_cidr p with
        | Some (prefix :: prefixes) =>
            r <- create_or_update_vnet (create_payload p location (prefix :: prefixes)) ;;
            set_results r
        | _ => throw (ValidationError
                 "Parameter error: address_prefixes_cidr required when creating a virtual network")
        end
      else
        vnet <- lift (update_payload results) ;;
        r <- create_or_update_vnet vnet ;;
        set_results r
  | absent => delete_virtual_network
  end.

(** lines 265-342: everything up to the computed [changed] and
    [results]; the location is the one given or that of the group *)
Definition diff_phase : M (string * bool * gmap string value) :=
  group_location <- get_resource_group rm (resource_group p) ;;
  let location := if Py.truthy_opt (location p) then default EmptyString (location p)
                  else group_location in
  lift (validate cm p) ;;;
  d <- fetch_and_diff ;;
  let '(changed, results) := d in
  ret (location, changed, results).

(** lines 265-388 *)
Definition exec_module_impl : M Results :=
  d <- diff_phase ;;
  let '(location, changed, results) := d in
  modify_res (λ _, {| changed := changed; results := results |}) ;;;
  if check_mode p then get_res
  else
    when changed (apply location results) ;;;
    get_res.

End Exec.

End VNet.

(** * azure_rm_virtualmachine *)

Module VM.

(** lines 464-471: [extract_names_from_blob_uri].  Neither the account
    class [[^\.]+] nor the container class [[^/]+] admits the character
    that follows it, so the match is the one cut at the first dot and at
    the first slash; [.+$] is a non-empty run without a newline that
    reaches the end of the string or the newline that ends it. *)
Definition blob_name_of (s : string) : option string :=
  match Py.split_at Py.newline s with
  | None => if Py.truthy s then Some s else None
  | Some (body, EmptyString) => if Py.truthy body then Some body else None
  | Some _ => None
  end.

Definition extract_names_from_blob_uri (blob_uri : string)
  : outcome (string * string * string) :=
  let parsed :=
    rest ← Py.strip_prefix "https://" blob_uri;
    '(accountname, rest) ← Py.split_at "." rest;
    rest ← Py.strip_prefix "blob.core.windows.net/" rest;
    '(containername, rest) ← Py.split_at "/" rest;
    blobname ← blob_name_of rest;
    if Py.truthy accountname && Py.truthy containername
    then Some (accountname, containername, blobname) else None in
  match parsed with
  | Some names => Ok names
  | None => Err (PythonException ("Exception: unable to parse blob uri '" +:+ blob_uri +:+ "'"))
  end.

Inductive state : Type := present | absent | started | stopped.

#[global] Instance state_eq_dec : EqDecision state := ltac:(solve_decision).

Definition state_name (s : state) : string :=
  match s with
  | present => "present" | absent => "absent"
  | started => "started" | stopped => "stopped"
  end.

(** [self.state in ('present', 'started', 'stopped')] *)
Definition wants_vm (s : state) : bool :=
  match s with absent => false | _ => true end.

(** an item of [ssh_public_keys]: something that is not a dict, or a dict
    with its [path] and [key_data] entries *)
Inductive ssh_key_entry : Type :=
| NotADict
| KeyDict (path key_data : option string).

Record Params : Type := {
  resource_group : string;
  name : string;
  state_ : state;
  location : option string;
  short_hostname : option string;
  vm_size : option string;
  admin_username : option string;
  admin_password : option string;
  ssh_password : bool;
  ssh_public_keys : option (list ssh_key_entry);
  image : option (gmap string string);
  storage_account_name : option string;
  storage_container_name : option string;
  storage_blob_name : option string;
  os_disk_caching : option string;
  os_type : option string;
  public_ip_allocation_method : option string;
  ssh_port : Z;
  rdp_port : Z;
  network_interface_names : option (list string);
  delete_network_interfaces : bool;
  delete_virtual_storage : bool;
  delete_public_ips : bool;
  virtual_network_name : option string;
  subnet_name : option string;
  tags : option (gmap string string);
  purge_tags : bool;
  check_mode : bool;
}.

(** ** The serialized virtual machine *)

Record pip_dict : Type := {
  pd_id : string;
  pd_name : option string;
  pd_properties : option string;
}.

(** an entry of [ipConfigurations]: [properties.get('publicIPAddress')] *)
Record ipconfig_dict : Type := {
  ipc_public_ip : option pip_dict;
}.

Record interface_dict : Type := {
  if_id : string;
  if_name : option string;
  if_properties : option (list ipconfig_dict);
}.

(** [vm_dict]: the keys the module reads or writes.  [d_tags] is [None]
    when the dict has no [tags] key. *)
Record vm_dict : Type := {
  d_id : string;
  d_name : string;
  d_location : string;
  d_type : string;
  d_tags : option value;
  d_power_state : option string;
  d_networkInterfaces : list interface_dict;
  d_vmSize : string;
  d_imageReference : ImageReference;
  d_osDisk : OSDisk;
  d_osProfile : OSProfile;
}.

Definition set_networkInterfaces (l : list interface_dict) (d : vm_dict) : vm_dict :=
  {| d_id := d_id d; d_name := d_name d; d_location := d_location d; d_type := d_type d;
     d_tags := d_tags d; d_power_state := d_power_state d;
     d_networkInterfaces := l;
     d_vmSize := d_vmSize d; d_imageReference := d_imageReference d;
     d_osDisk := d_osDisk d; d_osProfile := d_osProfile d |}.

Definition set_vmSize (x : string) (d : vm_dict) : vm_dict :=
  {| d_id := d_id d; d_name := d_name d; d_location := d_location d; d_type := d_type d;
     d_tags := d_tags d; d_power_state := d_power_state d;
     d_networkInterfaces := d_networkInterfaces d;
     d_vmSize := x; d_imageReference := d_imageReference d;
     d_osDisk := d_osDisk d; d_osProfile := d_osProfile d |}.

Definition set_imageReference (x : ImageReference) (d : vm_dict) : vm_dict :=
  {| d_id := d_id d; d_name := d_name d; d_location := d_location d; d_type := d_type d;
     d_tags := d_tags d; d_power_state := d_power_state d;
     d_networkInterfaces := d_networkInterfaces d;
     d_vmSize := d_vmSize d; d_imageReference := x;
     d_osDisk := d_osDisk d; d_osProfile := d_osProfile d |}.

Definition set_caching (x : string) (d : vm_dict) : vm_dict :=
  {| d_id := d_id d; d_name := d_name d; d_location := d_location d; d_type := d_type d;
     d_tags := d_tags d; d_power_state := d_power_state d;
     d_networkInterfaces := d_networkInterfaces d;
     d_vmSize := d_vmSize d; d_imageReference := d_imageReference d;
     d_osDisk := {| disk_name := disk_name (d_osDisk d);
                    disk_vhd_uri := disk_vhd_uri (d_osDisk d);
                    disk_create_option := disk_create_option (d_osDisk d);
                    disk_os_type := disk_os_type (d_osDisk d);
                    disk_caching := x |};
     d_osProfile := d_osProfile d |}.

Definition set_tags (x : value) (d : vm_dict) : vm_dict :=
  {| d_id := d_id d; d_name := d_name d; d_location := d_location d; d_type := d_type d;
     d_tags := Some x; d_power_state := d_power_state d;
     d_networkInterfaces := d_networkInterfaces d;
     d_vmSize := d_vmSize d; d_imageReference := d_imageReference d;
     d_osDisk := d_osDisk d; d_osProfile := d_osProfile d |}.

Definition set_computerName (x : string) (d : vm_dict) : vm_dict :=
  {| d_id := d_id d; d_name := d_name d; d_location := d_location d; d_type := d_type d;
     d_tags := d_tags d; d_power_state := d_power_state d;
     d_networkInterfaces := d_networkInterfaces d;
     d_vmSize := d_vmSize d; d_imageReference := d_imageReference d;
     d_osDisk := d_osDisk d;
     d_osProfile := {| os_admin_username := os_admin_username (d_osProfile d);
                       os_computer_name := x;
                       os_admin_password := os_admin_password (d_osProfile d);
                       os_linux_configuration := os_linux_configuration (d_osProfile d) |} |}.

(** [self.results] *)
Record Results : Type := {
  changed : bool;
  actions : list string;
  differences : option (list string);
  powerstate_change : option string;
  results : option vm_dict;
  deleted_vhd_uris : option (list string);
  deleted_network_interfaces : option (list string);
  deleted_public_ips : option (list string);
}.

Definition initial_results : Results :=
  {| changed := false; actions := []; differences := None; powerstate_change := None;
     results := None; deleted_vhd_uris := None; deleted_network_interfaces := None;
     deleted_public_ips := None |}.

Definition add_action (a : string) (o : Results) : Results :=
  {| changed := changed o; actions := actions o ++ [a]; differences := differences o;
     powerstate_change := powerstate_change o; results := results o;
     deleted_vhd_uris := deleted_vhd_uris o;
     deleted_network_interfaces := deleted_network_interfaces o;
     deleted_public_ips := deleted_public_ips o |}.

Definition set_differences (l : list string) (o : Results) : Results :=
  {| changed := changed o; actions := actions o; differences := Some l;
     powerstate_change := powerstate_change o; results := results o;
     deleted_vhd_uris := deleted_vhd_uris o;
     deleted_network_interfaces := deleted_network_interfaces o;
     deleted_public_ips := deleted_public_ips o |}.

(** lines 721-723 *)
Definition set_outcome (c : bool) (r : option vm_dict) (ps : option string) (o : Results)
  : Results :=
  {| changed := c; actions := actions o; differences := differences o;
     powerstate_change := ps; results := r;
     deleted_vhd_uris := deleted_vhd_uris o;
     deleted_network_interfaces := deleted_network_interfaces o;
     deleted_public_ips := deleted_public_ips o |}.

Definition set_results (r : vm_dict) (o : Results) : Results :=
  {| changed := changed o; actions := actions o; differences := differences o;
     powerstate_change := powerstate_change o; results := Some r;
     deleted_vhd_uris := deleted_vhd_uris o;
     deleted_network_interfaces := deleted_network_interfaces o;
     deleted_public_ips := deleted_public_ips o |}.

Definition set_deleted_vhd_uris (l : list string) (o : Results) : Results :=
  {| changed := changed o; actions := actions o; differences := differences o;
     powerstate_change := powerstate_change o; results := results o;
     deleted_vhd_uris := Some l;
     deleted_network_interfaces := deleted_network_interfaces o;
     deleted_public_ips := deleted_public_ips o |}.

Definition set_deleted_network_interfaces (l : list string) (o : Results) : Results :=
  {| changed := changed o; actions := actions o; differences := differences o;
     powerstate_change := powerstate_change o; results := results o;
     deleted_vhd_uris := deleted_vhd_uris o;
     deleted_network_interfaces := Some l;
     deleted_public_ips := deleted_public_ips o |}.

Definition set_deleted_public_ips (l : list string) (o : Results) : Results :=
  {| changed := changed o; actions := actions o; differences := differences o;
     powerstate_change := powerstate_change o; results := results o;
     deleted_vhd_uris := deleted_vhd_uris o;
     deleted_network_interfaces := deleted_network_interfaces o;
     deleted_public_ips := Some l |}.

(** what the parameter checks of lines 572-613 leave in the locals and in
    the parameters they overwrite *)
Record Normalized : Type := {
  n_location : string;
  n_network_interfaces : list string;
  n_image : option (gmap string string);
  n_storage_blob_name : option string;
  n_requested_vhd_uri : option string;
  n_disable_ssh_password : option bool;
}.

(** [str.format] of a value that may be [None] *)
Definition fmt (o : option string) : string := default "None" o.

Definition vhd_uri_of (account : string) (container blob : option string) : string :=
  "https://" +:+ account +:+ ".blob.core.windows.net/" +:+ fmt container +:+ "/" +:+ fmt blob.

(** a dict is true when it is not empty *)
Definition truthy_dict {V} (o : option (gmap string V)) : bool :=
  match o with
  | Some d => negb (bool_decide (d = ∅))
  | None => false
  end.

(** [not d.get(k)] *)
Definition lacks (d : gmap string string) (k : string) : bool :=
  negb (Py.truthy_opt (d !! k)).

(** Modelled from the spec: [serialize_obj] of the base class, which is
    not among the sources; it converts the SDK object to nested dicts,
    field by field. *)
Definition serialize_obj (vm : VirtualMachine) : vm_dict :=
  {| d_id := vm_id vm; d_name := vm_name vm; d_location := vm_location vm;
     d_type := vm_type vm;
     d_tags := option_map VTags (vm_tags vm);
     d_power_state := None;
     d_networkInterfaces :=
       map (λ i, {| if_id := i; if_name := None; if_properties := None |})
           (vm_network_interfaces vm);
     d_vmSize := vm_hardware_size vm;
     d_imageReference := vm_image_reference vm;
     d_osDisk := vm_os_disk vm;
     d_osProfile := vm_os_profile vm |}.

(** line 922: the first status whose code starts with [PowerState] *)
Definition power_state_of (statuses : list string) : option string :=
  match filter (λ code, Py.startswith code "PowerState" = true) statuses with
  | code :: _ => Some (Py.replace code "PowerState/" EmptyString)
  | [] => None
  end.

Definition set_power_state (x : option string) (d : vm_dict) : vm_dict :=
  {| d_id := d_id d; d_name := d_name d; d_location := d_location d; d_type := d_type d;
     d_tags := d_tags d; d_power_state := x;
     d_networkInterfaces := d_networkInterfaces d;
     d_vmSize := d_vmSize d; d_imageReference := d_imageReference d;
     d_osDisk := d_osDisk d; d_osProfile := d_osProfile d |}.

(** lines 929-933: the interface dicts with the id of the fetched
    interface receive its name and properties *)
Definition expand_interface (id name : string) (nic : NetworkInterface)
    (l : list interface_dict) : list interface_dict :=
  map (λ interface_dict,
         if String.eqb (if_id interface_dict) id
         then {| if_id := if_id interface_dict;
                 if_name := Some name;
                 if_properties :=
                   Some (map (λ pip, {| ipc_public_ip :=
                                          option_map (λ i, {| pd_id := i; pd_name := None;
                                                              pd_properties := None |}) pip |})
                             (nic_ip_configurations nic)) |}
         else interface_dict) l.

Section Diff.
Context (cm : Common) (p : Params) (n : Normalized).

Record Diff : Type := {
  dict : vm_dict;
  diffs : list string;
  diff_changed : bool;
  diff_powerstate_change : option string;
}.

(** lines 627-636 *)
Definition diff_network_interfaces (acc : vm_dict * list string) : vm_dict * list string :=
  let '(vm_dict, differences) := acc in
  if Py.truthy_list (network_interface_names p) then
    let current_nics := map if_id (d_networkInterfaces vm_dict) in
    if bool_decide ((list_to_set current_nics : gset string)
                    ≠ list_to_set (n_network_interfaces n))
    then (set_networkInterfaces
            (map (λ id, {| if_id := id; if_name := None; if_properties := None |})
                 (n_network_interfaces n)) vm_dict,
          differences ++ ["Network Interfaces"])
    else acc
  else acc.

(** lines 638-642 *)
Definition diff_vm_size (acc : vm_dict * list string) : vm_dict * list string :=
  let '(vm_dict, differences) := acc in
  match vm_size p with
  | Some size =>
      if Py.truthy size && negb (String.eqb size (d_vmSize vm_dict))
      then (set_vmSize size vm_dict, differences ++ ["VM Size"])
      else acc
  | None => acc
  end.

(** lines 644-660 *)
Definition diff_image (acc : vm_dict * list string) : outcome (vm_dict * list string) :=
  let '(vm_dict, differences) := acc in
  if truthy_dict (n_image n) then
    let image := default ∅ (n_image n) in
    let current := d_imageReference vm_dict in
    pub ← subscript image "publisher";
    '(vm_dict, differences) ←
      (if negb (String.eqb pub (img_publisher current)) then
         off ← subscript image "offer";
         sk ← subscript image "sku";
         Ok (set_imageReference
               {| img_publisher := pub; img_offer := off; img_sku := sk;
                  img_version := img_version current |} vm_dict,
             differences ++ ["Image"])
       else
         off ← subscript image "offer";
         if negb (String.eqb off (img_offer current)) then
           sk ← subscript image "sku";
           Ok (set_imageReference
                 {| img_publisher := pub; img_offer := off; img_sku := sk;
                    img_version := img_version current |} vm_dict,
               differences ++ ["Image"])
         else
           sk ← subscript image "sku";
           if negb (String.eqb sk (img_sku current)) then
             Ok (set_imageReference
                   {| img_publisher := pub; img_offer := off; img_sku := sk;
                      img_version := img_version current |} vm_dict,
                 differences ++ ["Image"])
           else Ok (vm_dict, differences));
    ver ← subscript image "version";
    if negb (String.eqb ver (img_version (d_imageReference vm_dict))) then
      Ok (set_imageReference
            {| img_publisher := img_publisher (d_imageReference vm_dict);
               img_offer := img_offer (d_imageReference vm_dict);
               img_sku := img_sku (d_imageReference vm_dict);
               img_version := ver |} vm_dict,
          differences ++ ["Image versions"])
    else Ok (vm_dict, differences)
  else Ok acc.

(** lines 662-667 *)
Definition diff_os_disk_caching (acc : vm_dict * list string) : vm_dict * list string :=
  let '(vm_dict, differences) := acc in
  match os_disk_caching p with
  | Some c =>
      if Py.truthy c && negb (String.eqb c (disk_caching (d_osDisk vm_dict)))
      then (set_caching c vm_dict, differences ++ ["OS Disk caching"])
      else acc
  | None => acc
  end.

(** lines 677-680 *)
Definition diff_tags (acc : vm_dict * list string) : vm_dict * list string :=
  let '(vm_dict, differences) := acc in
  let '(update_tags, new_tags) :=
    update_tags cm (tags p) (purge_tags p) (default (VTags ∅) (d_tags vm_dict)) in
  (set_tags new_tags vm_dict,
   if update_tags then differences ++ ["Tags"] else differences).

(** lines 691-695 *)
Definition diff_short_hostname (acc : vm_dict * list string) : vm_dict * list string :=
  let '(vm_dict, differences) := acc in
  match short_hostname p with
  | Some h =>
      if Py.truthy h && negb (String.eqb h (os_computer_name (d_osProfile vm_dict)))
      then (set_computerName h vm_dict, differences ++ ["Short Hostname"])
      else acc
  | None => acc
  end.

(** lines 699-707 *)
Definition diff_power_state (vm_dict : vm_dict) : option string :=
  let running := bool_decide (d_power_state vm_dict = Some "running") in
  match state_ p with
  | started => if negb running then Some "poweron" else None
  | stopped => if running then Some "poweroff" else None
  | _ => None
  end.

(** lines 621-707: the comparison of an existing machine with the
    parameters; every entry of the list of differences sets [changed] *)
Definition diff (vm_dict : vm_dict) : outcome Diff :=
  acc ← diff_image (diff_vm_size (diff_network_interfaces (vm_dict, [])));
  let '(vm_dict, differences) :=
    diff_short_hostname (diff_tags (diff_os_disk_caching acc)) in
  let powerstate_change := diff_power_state vm_dict in
  Ok {| dict := vm_dict;
        diffs := differences;
        diff_changed :=
          match differences, powerstate_change with
          | [], None => false
          | _, _ => true
          end;
        diff_powerstate_change := powerstate_change |}.

(** lines 820-879: the object sent when the machine is updated *)
Definition update_payload (vm_dict : vm_dict) : VMPayload :=
  {| vp_id := Some (d_id vm_dict);
     vp_location := d_location vm_dict;
     vp_name := d_name vm_dict;
     vp_type := Some (d_type vm_dict);
     vp_tags := match d_tags vm_dict with
                | Some t => if value_truthy t then Some t else None
                | None => None
                end;
     vp_admin_username := Some (os_admin_username (d_osProfile vm_dict));
     vp_computer_name := Some (os_computer_name (d_osProfile vm_dict));
     vp_admin_password :=
       match os_admin_password (d_osProfile vm_dict) with
       | Some pw => if Py.truthy pw then Some pw else None
       | None => None
       end;
     vp_linux_configuration :=
       match os_linux_configuration (d_osProfile vm_dict) with
       | Some linux_config =>
           Some {| lc_disable_password_authentication :=
                     Some (default false (lc_disable_password_authentication linux_config));
                   lc_public_keys :=
                     match lc_public_keys linux_config with
                     | Some (k :: ks) => Some (k :: ks)
                     | _ => None
                     end |}
       | None => None
       end;
     vp_vm_size := Some (d_vmSize vm_dict);
     vp_os_disk_name := disk_name (d_osDisk vm_dict);
     vp_vhd_uri := Some (disk_vhd_uri (d_osDisk vm_dict));
     vp_create_option := disk_create_option (d_osDisk vm_dict);
     vp_os_type := Some (disk_os_type (d_osDisk vm_dict));
     vp_caching := Some (disk_caching (d_osDisk vm_dict));
     vp_image := d_imageReference vm_dict;
     vp_network_interfaces := map if_id (d_networkInterfaces vm_dict) |}.

End Diff.

Section Exec.
Context {W : Type} (cm : Common) (rm : Remote W) (p : Params).
Local Open Scope exec_scope.

Local Abbreviation M := (M W Results).

Definition log_action (a : string) : M unit := modify_res (add_action a).

(** lines 1033-1038 *)
Definition get_network_interface (name : string) : M NetworkInterface :=
  r <- query (NetworkInterfacesGet (resource_group p) name)
             (λ w, network_interfaces_get rm w (resource_group p) name) found ;;
  match r with
  | Found nic => ret nic
  | _ => throw (RemoteOperationError ("Error fetching network interface " +:+ name))
  end.

(** lines 1101-1107 *)
Definition get_storage_account (name : string) : M StorageAccount :=
  r <- query (StorageAccountsGetProperties (resource_group p) name)
             (λ w, storage_accounts_get_properties rm w (resource_group p) name) found ;;
  match r with
  | Found account => ret account
  | _ => throw (RemoteOperationError
           ("Error fetching storage account " +:+ fmt (storage_account_name p)))
  end.

(** lines 1119-1132 *)
Definition vm_size_is_valid (location size : string) : M bool :=
  r <- query (VirtualMachineSizesList location)
             (λ w, virtual_machine_sizes_list rm w location) answered ;;
  match r with
  | Some sizes => ret (existsb (String.eqb size) sizes)
  | None => throw (RemoteOperationError "Error retrieving available machine sizes")
  end.

(** lines 1078-1099.  The handler of a failed listing formats its
    message with the index 4 for four arguments, which raises. *)
Definition get_image_version (location : string) (image : gmap string string) : M string :=
  pub <- lift (subscript image "publisher") ;;
  off <- lift (subscript image "offer") ;;
  sk <- lift (subscript image "sku") ;;
  r <- query (VirtualMachineImagesList location pub off sk)
             (λ w, virtual_machine_images_list rm w location pub off sk) answered ;;
  match r with
  | None => throw (PythonException "IndexError: tuple index out of range")
  | Some versions =>
      ver <- lift (subscript image "version") ;;
      let not_found :=
        throw (RemoteOperationError
                 ("Error could not find image " +:+ pub +:+ " " +:+ off +:+ " " +:+ sk
                  +:+ " " +:+ ver)) in
      match versions with
      | [] => not_found
      | _ =>
          if String.eqb ver "latest" then
            match last versions with
            | Some v => ret v
            | None => not_found
            end
          else
            match filter (λ v, v = ver) versions with
            | v :: _ => ret v
            | [] => not_found
            end
      end
  end.

Definition ssh_keys_msg : string :=
  "Parameter error: expecting ssh_public_keys to be a list of type dict where "
  +:+ "each dict contains keys: path, key_data.".

(** lines 588-592 *)
Definition check_ssh_key (key : ssh_key_entry) : outcome unit :=
  match key with
  | NotADict => Err (ValidationError ssh_keys_msg)
  | KeyDict path key_data =>
      if Py.truthy_opt path && Py.truthy_opt key_data then Ok tt
      else Err (ValidationError ssh_keys_msg)
  end.

(** lines 594-601.  The base class as the module uses it has [fail] and
    [log]; an [error] method appears nowhere, so the call raises. *)
Definition normalize_image (location : string) : M (option (gmap string string)) :=
  if truthy_dict (image p) then
    let image := default ∅ (image p) in
    when (lacks image "publisher" || lacks image "offer" || lacks image "sku"
          || lacks image "version")
         (throw (PythonException "AttributeError: error")) ;;;
    image_version <- get_image_version location image ;;
    ver <- lift (subscript image "version") ;;
    ret (Some (if String.eqb ver "latest" then <["version" := image_version]> image
               else image))
  else ret (image p).

(** lines 567-613: defaults and parameter checks *)
Definition normalize : M Normalized :=
  group_location <- get_resource_group rm (resource_group p) ;;
  let location := if Py.truthy_opt (location p) then default EmptyString (location p)
                  else group_location in
  if wants_vm (state_ p) then
    match vm_size p with
    | Some size =>
        if Py.truthy size then
          valid <- vm_size_is_valid location size ;;
          when (negb valid)
               (throw (PythonException "AttributeError: 'str' object has no attribute 'foramt'"))
        else ret tt
    | None => ret tt
    end ;;;
    network_interfaces <-
      match network_interface_names p with
      | Some names => collect names (λ name, nic <- get_network_interface name ;;
                                             ret (nic_id nic))
      | None => ret []
      end ;;
    lift (ofold (λ _ key, check_ssh_key key) (default [] (ssh_public_keys p)) tt) ;;;
    image <- normalize_image location ;;
    let storage_blob_name :=
      if Py.truthy_opt (storage_blob_name p) then storage_blob_name p
      else Some (name p +:+ ".vhd") in
    requested_vhd_uri <-
      match storage_account_name p with
      | Some account =>
          if Py.truthy account then
            get_storage_account account ;;;
            ret (Some (vhd_uri_of account (storage_container_name p) storage_blob_name))
          else ret None
      | None => ret None
      end ;;
    ret {| n_location := location;
           n_network_interfaces := network_interfaces;
           n_image := image;
           n_storage_blob_name := storage_blob_name;
           n_requested_vhd_uri := requested_vhd_uri;
           n_disable_ssh_password := Some (negb (ssh_password p)) |}
  else
    ret {| n_location := location;
           n_network_interfaces := [];
           n_image := image p;
           n_storage_blob_name := storage_blob_name p;
           n_requested_vhd_uri := None;
           n_disable_ssh_password := None |}.

(** lines 926-933 *)
Fixpoint expand_interfaces (ids : list string) (l : list interface_dict)
  : M (list interface_dict) :=
  match ids with
  | [] => ret l
  | id :: ids' =>
      name <- lift (subscript (azure_id_to_dict cm id) "networkInterfaces") ;;
      nic <- get_network_interface name ;;
      expand_interfaces ids' (expand_interface id name nic l)
  end.

(** lines 938-948 *)
Definition expand_public_ip (config : ipconfig_dict) : M ipconfig_dict :=
  match ipc_public_ip config with
  | Some pip =>
      name <- lift (subscript (azure_id_to_dict cm (pd_id pip)) "publicIPAddresses") ;;
      r <- query (PublicIPAddressesGet (resource_group p) name)
                 (λ w, public_ip_addresses_get rm w (resource_group p) name) answered ;;
      match r with
      | Some fetched =>
          ret {| ipc_public_ip := Some {| pd_id := pd_id pip; pd_name := Some name;
                                          pd_properties := Some (pip_ip_address fetched) |} |}
      | None => throw (RemoteOperationError ("Error fetching public ip " +:+ name))
      end
  | None => ret config
  end.

(** lines 936-948 *)
Definition expand_public_ips (l : list interface_dict) : M (list interface_dict) :=
  collect l (λ interface,
    match if_properties interface with
    | Some configs =>
        configs <- collect configs expand_public_ip ;;
        ret {| if_id := if_id interface; if_name := if_name interface;
               if_properties := Some configs |}
    | None => throw (PythonException "KeyError: properties")
    end).

(** lines 914-953 *)
Definition serialize_vm (vm : VirtualMachine) : M vm_dict :=
  let result := set_power_state (power_state_of (vm_statuses vm)) (serialize_obj vm) in
  interfaces <- expand_interfaces (vm_network_interfaces vm) (d_networkInterfaces result) ;;
  interfaces <- expand_public_ips interfaces ;;
  let result := set_networkInterfaces interfaces result in
  if negb (bool_decide (state_ p = absent)) && negb (Py.truthy_opt (d_power_state result))
  then throw (RemoteOperationError
                ("Failed to determine PowerState of virtual machine " +:+ name p))
  else ret result.

(** lines 902-912 *)
Definition get_vm : M VirtualMachine :=
  r <- query (VirtualMachinesGet (resource_group p) (name p))
             (λ w, virtual_machines_get rm w (resource_group p) (name p)) found ;;
  match r with
  | Found vm => ret vm
  | _ => throw (RemoteOperationError ("Error getting virtual machine (0) - " +:+ name p))
  end.

(** lines 1109-1117 *)
Definition create_or_update_vm (params : VMPayload) : M vm_dict :=
  ok <- command (VirtualMachinesCreateOrUpdate (resource_group p) (name p) params)
                (λ w, virtual_machines_create_or_update rm w (resource_group p) (name p) params)
                id ;;
  if ok : bool then
    vm <- get_vm ;;
    serialize_vm vm
  else throw (RemoteOperationError
                ("Error creating or updating virtual machine " +:+ name p)).

(** lines 955-963 *)
Definition power_off_vm : M unit :=
  log_action ("Powered off virtual machine " +:+ name p) ;;;
  ok <- command (VirtualMachinesPowerOff (resource_group p) (name p))
                (λ w, virtual_machines_power_off rm w (resource_group p) (name p)) id ;;
  if ok : bool then ret tt
  else throw (RemoteOperationError ("Error powering off virtual machine " +:+ name p)).

(** lines 965-973 *)
Definition power_on_vm : M unit :=
  log_action ("Powered on virtual machine " +:+ name p) ;;;
  ok <- command (VirtualMachinesStart (resource_group p) (name p))
                (λ w, virtual_machines_start rm w (resource_group p) (name p)) id ;;
  if ok : bool then ret tt
  else throw (RemoteOperationError ("Error powering on virtual machine " +:+ name p)).

(** lines 1040-1049 *)
Definition delete_nic (name : string) : M unit :=
  log_action ("Deleted network interface " +:+ name) ;;;
  ok <- command (NetworkInterfacesDelete (resource_group p) name)
                (λ w, network_interfaces_delete rm w (resource_group p) name) id ;;
  if ok : bool then ret tt
  else throw (RemoteOperationError ("Error deleting network interface " +:+ name)).

(** lines 1051-1059 *)
Definition delete_pip (name : string) : M unit :=
  log_action ("Deleted public IP " +:+ name) ;;;
  ok <- command (PublicIPAddressesDelete (resource_group p) name)
                (λ w, public_ip_addresses_delete rm w (resource_group p) name) id ;;
  if ok : bool then ret tt
  else throw (RemoteOperationError ("Error deleting " +:+ name)).

(** lines 1061-1076.  Modelled from the spec: [get_blob_client] of the
    base class, which is not among the sources; it is a read of the
    storage account whose failure is fatal. *)
Definition delete_vm_storage (vhd_uris : list string) : M unit :=
  for_each vhd_uris (λ uri,
    blob_parts <- lift (extract_names_from_blob_uri uri) ;;
    let '(storage_account_name, container_name, blob_name) := blob_parts in
    client <- query (GetBlobClient (resource_group p) storage_account_name)
                    (λ w, get_blob_client rm w (resource_group p) storage_account_name) id ;;
    if client : bool then
      log_action ("Deleted blob " +:+ container_name +:+ ":" +:+ blob_name) ;;;
      ok <- command (DeleteBlob storage_account_name container_name blob_name)
                    (λ w, delete_blob rm w storage_account_name container_name blob_name) id ;;
      if ok : bool then ret tt
      else throw (RemoteOperationError
                    ("Error deleting blob " +:+ container_name +:+ ":" +:+ blob_name))
    else throw (RemoteOperationError
                  ("Error getting blob client for " +:+ storage_account_name))).

(** lines 976-1004: what is noted before the machine is deleted *)
Definition delete_vm_collect (vm : option VirtualMachine)
  : M (list string * list string * list string) :=
  vhd_uris <-
    (if delete_virtual_storage p then
       match vm with
       | Some vm =>
           let vhd_uris := [disk_vhd_uri (vm_os_disk vm)] in
           modify_res (set_deleted_vhd_uris vhd_uris) ;;;
           ret vhd_uris
       | None => throw (PythonException "AttributeError: storage_profile")
       end
     else ret []) ;;
  if delete_network_interfaces p then
    match vm with
    | Some vm =>
        nic_names <- collect (vm_network_interfaces vm) (λ id,
                       lift (subscript (azure_id_to_dict cm id) "networkInterfaces")) ;;
        modify_res (set_deleted_network_interfaces nic_names) ;;;
        if delete_public_ips p then
          pips <- collect nic_names (λ name,
                    nic <- get_network_interface name ;;
                    collect (omap id (nic_ip_configurations nic)) (λ pip,
                      lift (subscript (azure_id_to_dict cm pip) "publicIPAddresses"))) ;;
          let pip_names := concat pips in
          modify_res (set_deleted_public_ips pip_names) ;;;
          ret (vhd_uris, nic_names, pip_names)
        else ret (vhd_uris, nic_names, [])
    | None => throw (PythonException "AttributeError: network_profile")
    end
  else ret (vhd_uris, [], []).

(** lines 1006-1031: the machine, then what hung on it *)
Definition delete_vm_apply (vhd_uris nic_names pip_names : list string) : M unit :=
  log_action ("Deleted virtual machine " +:+ name p) ;;;
  ok <- command (VirtualMachinesDelete (resource_group p) (name p))
                (λ w, virtual_machines_delete rm w (resource_group p) (name p)) id ;;
  if ok : bool then
    when (delete_virtual_storage p) (delete_vm_storage vhd_uris) ;;;
    when (delete_network_interfaces p) (for_each nic_names delete_nic) ;;;
    when (delete_public_ips p) (for_each pip_names delete_pip)
  else throw (RemoteOperationError ("Error deleting virtual machine " +:+ name p)).

(** lines 975-1031 *)
Definition delete_vm (vm : option VirtualMachine) : M unit :=
  noted <- delete_vm_collect vm ;;
  let '(vhd_uris, nic_names, pip_names) := noted in
  delete_vm_apply vhd_uris nic_names pip_names.

(** lines 1134-1164 *)
Definition create_default_storage_account (location : string) : M StorageAccount :=
  let storage_account_name := name p +:+ "01" in
  r <- query (StorageAccountsGetProperties (resource_group p) storage_account_name)
             (λ w, storage_accounts_get_properties rm w (resource_group p) storage_account_name)
             found ;;
  match r with
  | OtherError => throw (PythonException "Exception: storage_accounts.get_properties")
  | Found account =>
      if check_provisioning_state cm (sa_provisioning_state account) None
      then ret account
      else throw (ProvisioningStateError
                    ("Error storage account " +:+ storage_account_name
                     +:+ " has a provisioning state of " +:+ sa_provisioning_state account))
  | CloudError =>
      log_action ("Created storage account " +:+ storage_account_name) ;;;
      ok <- command (StorageAccountsCreate (resource_group p) storage_account_name location)
                    (λ w, storage_accounts_create rm w (resource_group p)
                            storage_account_name location) id ;;
      if ok : bool then get_storage_account storage_account_name
      else throw (RemoteOperationError
                    ("Failed to create storage account: " +:+ storage_account_name))
  end.

Definition no_vnets_msg : string :=
  "Error: unable to find virtual network in resource group " +:+ resource_group p
  +:+ ". A virtual network with at least one subnet must exist in order to create a NIC for "
  +:+ "the virtual machine.".

Definition no_subnets_msg (virtual_network_name : string) : string :=
  "Error: unable to find a subnet in virtual network " +:+ virtual_network_name
  +:+ ". A virtual network with at least one subnet must exist in order to create a NIC for "
  +:+ "the virtual machine.".

(** lines 1191-1216 *)
Definition find_virtual_network : M string :=
  if Py.truthy_opt (virtual_network_name p) then
    r <- query (VirtualNetworksList (resource_group p) (virtual_network_name p))
               (λ w, virtual_networks_list rm w (resource_group p) (virtual_network_name p))
               found ;;
    match r with
    | Found _ => ret (fmt (virtual_network_name p))
    | _ => throw (RemoteOperationError
             ("Error: fetching virtual network " +:+ fmt (virtual_network_name p)))
    end
  else
    r <- query (VirtualNetworksList (resource_group p) None)
               (λ w, virtual_networks_list rm w (resource_group p) None) found ;;
    match r with
    | Found (vnet :: _) =>
        if Py.truthy vnet then ret vnet else throw (RemoteOperationError no_vnets_msg)
    | Found [] => throw (RemoteOperationError no_vnets_msg)
    | CloudError => throw (RemoteOperationError no_vnets_msg)
    | OtherError => throw (PythonException "Exception: virtual_networks.list")
    end.

(** lines 1218-1241 *)
Definition find_subnet (virtual_network_name : string) : M string :=
  if Py.truthy_opt (subnet_name p) then
    r <- query (SubnetsGet (resource_group p) virtual_network_name)
               (λ w, subnets_get rm w (resource_group p) virtual_network_name) answered ;;
    match r with
    | Some subnet_id => ret subnet_id
    | None => throw (RemoteOperationError ("Error: fetching subnet " +:+ fmt (subnet_name p)))
    end
  else
    r <- query (SubnetsList (resource_group p) virtual_network_name)
               (λ w, subnets_list rm w (resource_group p) virtual_network_name) found ;;
    match r with
    | Found (subnet_id :: _) =>
        if Py.truthy subnet_id then ret subnet_id
        else throw (RemoteOperationError (no_subnets_msg virtual_network_name))
    | Found [] => throw (RemoteOperationError (no_subnets_msg virtual_network_name))
    | CloudError => throw (RemoteOperationError (no_subnets_msg virtual_network_name))
    | OtherError => throw (PythonException "Exception: subnets.list")
    end.

(** lines 1166-1279.  Modelled from the spec: [create_default_pip] and
    [create_default_securitygroup] of the base class, which are not
    among the sources; each locates or creates its resource through the
    network service, and its failure is fatal. *)
Definition create_default_nic (location : string) : M NetworkInterface :=
  let network_interface_name := name p +:+ "01" in
  r <- query (NetworkInterfacesGet (resource_group p) network_interface_name)
             (λ w, network_interfaces_get rm w (resource_group p) network_interface_name)
             found ;;
  match r with
  | OtherError => throw (PythonException "Exception: network_interfaces.get")
  | Found nic =>
      if check_provisioning_state cm (nic_provisioning_state nic) None
      then ret nic
      else throw (ProvisioningStateError
                    ("Error network interface " +:+ network_interface_name
                     +:+ " has a provisioning state of " +:+ nic_provisioning_state nic))
  | CloudError =>
      virtual_network_name <- find_virtual_network ;;
      subnet_id <- find_subnet virtual_network_name ;;
      log_action ("Creating default public IP " +:+ name p +:+ "01") ;;;
      pip <- command (CreateDefaultPip (resource_group p) location (name p)
                        (fmt (public_ip_allocation_method p)))
                     (λ w, create_default_pip rm w (resource_group p) location (name p)
                             (fmt (public_ip_allocation_method p))) answered ;;
      match pip with
      | None => throw (RemoteOperationError
                  ("Error creating public IP " +:+ name p +:+ "01"))
      | Some pip =>
          log_action ("Created default security group " +:+ name p +:+ "01") ;;;
          group <- command (CreateDefaultSecurityGroup (resource_group p) location (name p)
                              (fmt (os_type p)) (ssh_port p) (rdp_port p))
                           (λ w, create_default_securitygroup rm w (resource_group p) location
                                   (name p) (fmt (os_type p)) (ssh_port p) (rdp_port p))
                           answered ;;
          match group with
          | None => throw (RemoteOperationError
                      ("Error creating security group " +:+ name p +:+ "01"))
          | Some group =>
              let parameters :=
                {| ni_location := location; ni_name := network_interface_name;
                   ni_subnet := subnet_id; ni_security_group := group;
                   ni_public_ip := pip_id pip |} in
              log_action ("Created NIC " +:+ network_interface_name) ;;;
              nic <- command (NetworkInterfacesCreateOrUpdate (resource_group p)
                                network_interface_name parameters)
                             (λ w, network_interfaces_create_or_update rm w (resource_group p)
                                     network_interface_name parameters) answered ;;
              match nic with
              | Some nic => ret nic
              | None => throw (RemoteOperationError
                          ("Error creating network interface " +:+ network_interface_name))
              end
          end
      end
  end.

(** lines 736-744: the checks made once the machine is to be created *)
Definition validate_create (n : Normalized) : outcome unit :=
  (if Py.truthy_opt (admin_username p) then Ok tt
   else Err (ValidationError
          "Parameter error: admin_username required when creating a virtual machine."));;
  (if bool_decide (os_type p = Some "Linux")
      && default false (n_disable_ssh_password n)
      && negb (Py.truthy_list (ssh_public_keys p))
   then Err (ValidationError
          "Parameter error: ssh_public_keys required when disabling SSH password.")
   else Ok tt);;
  if truthy_dict (n_image n) then Ok tt
  else Err (ValidationError
         "Parameter error: an image is required when creating a virtual machine.").

(** line 807 *)
Definition ssh_public_key_of (key : ssh_key_entry) : outcome SshPublicKey :=
  match key with
  | KeyDict (Some path) (Some key_data) => Ok {| pk_path := path; pk_key_data := key_data |}
  | KeyDict None _ => Err (PythonException "KeyError: path")
  | KeyDict _ None => Err (PythonException "KeyError: key_data")
  | NotADict => Err (PythonException "TypeError: key")
  end.

(** lines 765-808: the object sent when the machine is created *)
Definition create_payload (n : Normalized) (network_interfaces : list string)
    (requested_vhd_uri : option string) : outcome VMPayload :=
  let image := default ∅ (n_image n) in
  let short_hostname :=
    if Py.truthy_opt (short_hostname p) then short_hostname p else Some (name p) in
  pub ← subscript image "publisher";
  off ← subscript image "offer";
  sk ← subscript image "sku";
  ver ← subscript image "version";
  let linux_configuration :=
    if bool_decide (os_type p = Some "Linux")
    then Some {| lc_disable_password_authentication := n_disable_ssh_password n;
                 lc_public_keys := None |}
    else None in
  linux_configuration ←
    (if Py.truthy_list (ssh_public_keys p) then
       keys ← ofold (λ acc key, k ← ssh_public_key_of key; Ok (acc ++ [k]))
                    (default [] (ssh_public_keys p)) [];
       match linux_configuration with
       | Some c => Ok (Some {| lc_disable_password_authentication :=
                                  lc_disable_password_authentication c;
                                lc_public_keys := Some keys |})
       | None => Err (PythonException "AttributeError: 'NoneType' object has no attribute 'ssh'")
       end
     else Ok linux_configuration);
  Ok {| vp_id := None;
        vp_location := n_location n;
        vp_name := name p;
        vp_type := None;
        vp_tags := option_map VTags (tags p);
        vp_admin_username := admin_username p;
        vp_computer_name := short_hostname;
        vp_admin_password :=
          if Py.truthy_opt (admin_password p) then admin_password p else None;
        vp_linux_configuration := linux_configuration;
        vp_vm_size := vm_size p;
        vp_os_disk_name := fmt (n_storage_blob_name n);
        vp_vhd_uri := requested_vhd_uri;
        vp_create_option := "fromImage";
        vp_os_type := None;
        vp_caching := os_disk_caching p;
        vp_image := {| img_publisher := pub; img_offer := off; img_sku := sk;
                       img_version := ver |};
        vp_network_interfaces := network_interfaces |}.

(** lines 731-812 *)
Definition create_vm (n : Normalized) : M unit :=
  log_action ("Created VM " +:+ name p) ;;;
  lift (validate_create n) ;;;
  network_interfaces <-
    (if Py.truthy_list (network_interface_names p) then ret (n_network_interfaces n)
     else default_nic <- create_default_nic (n_location n) ;;
          ret [nic_id default_nic]) ;;
  requested_vhd_uri <-
    (if Py.truthy_opt (storage_account_name p) then ret (n_requested_vhd_uri n)
     else storage_account <- create_default_storage_account (n_location n) ;;
          ret (Some (vhd_uri_of (sa_name storage_account) (storage_container_name p)
                                (n_storage_blob_name n)))) ;;
  vm_resource <- lift (create_payload n network_interfaces requested_vhd_uri) ;;
  r <- create_or_update_vm vm_resource ;;
  modify_res (set_results r).

(** lines 814-882 *)
Definition update_vm (vm_dict : vm_dict) : M unit :=
  log_action ("Updated VM " +:+ name p) ;;;
  r <- create_or_update_vm (update_payload vm_dict) ;;
  modify_res (set_results r).

(** lines 884-893: leave the machine in the requested power state *)
Definition power_step (powerstate_change : option string) : M unit :=
  o <- get_res ;;
  match results o with
  | None => if bool_decide (powerstate_change = Some "poweron")
               || bool_decide (powerstate_change = Some "poweroff")
            then throw (PythonException "KeyError: power_state") else ret tt
  | Some current =>
      let running := bool_decide (d_power_state current = Some "running") in
      if bool_decide (powerstate_change = Some "poweron") && negb running then
        power_on_vm ;;;
        vm <- get_vm ;;
        r <- serialize_vm vm ;;
        modify_res (set_results r)
      else if bool_decide (powerstate_change = Some "poweroff") && running then
        power_off_vm ;;;
        vm <- get_vm ;;
        r <- serialize_vm vm ;;
        modify_res (set_results r)
      else ret tt
  end.

(** what lines 615-719 hand to the rest of the invocation: the fetched
    machine with its dict as the comparison leaves it, and the locals
    [results], [changed] and [powerstate_change] *)
Record Fetched : Type := {
  f_vm : option (VirtualMachine * vm_dict);
  f_results : option vm_dict;
  f_changed : bool;
  f_powerstate_change : option string;
}.

(** lines 615-719: fetch and compare *)
Definition fetch_and_diff (n : Normalized) : M Fetched :=
  r <- query (VirtualMachinesGet (resource_group p) (name p))
             (λ w, virtual_machines_get rm w (resource_group p) (name p)) found ;;
  match r with
  | OtherError => throw (PythonException "Exception: virtual_machines.get")
  | CloudError =>
      ret {| f_vm := None; f_results := None;
             f_changed := wants_vm (state_ p); f_powerstate_change := None |}
  | Found vm =>
      (if check_provisioning_state cm (vm_provisioning_state vm) (Some (state_name (state_ p)))
       then ret tt
       else throw (ProvisioningStateError
                     ("Error virtual machine " +:+ name p +:+ " has a provisioning state of "
                      +:+ vm_provisioning_state vm))) ;;;
      vm_dict <- serialize_vm vm ;;
      if wants_vm (state_ p) then
        d <- lift (diff cm p n vm_dict) ;;
        modify_res (set_differences (diffs d)) ;;;
        ret {| f_vm := Some (vm, dict d); f_results := Some (dict d);
               f_changed := diff_changed d;
               f_powerstate_change := diff_powerstate_change d |}
      else
        ret {| f_vm := Some (vm, vm_dict); f_results := None;
               f_changed := true; f_powerstate_change := None |}
  end.

(** lines 728-898: what is done once a change is detected *)
Definition apply (n : Normalized) (f : Fetched) : M unit :=
  if wants_vm (state_ p) then
    match f_vm f with
    | None => create_vm n
    | Some (_, vm_dict) =>
        o <- get_res ;;
        match differences o with
        | Some (_ :: _) => update_vm vm_dict
        | _ => ret tt
        end
    end ;;;
    power_step (f_powerstate_change f)
  else delete_vm (option_map fst (f_vm f)).

(** lines 553-719: everything up to the computed difference *)
Definition diff_phase : M (Normalized * Fetched) :=
  n <- normalize ;;
  f <- fetch_and_diff n ;;
  ret (n, f).

(** lines 553-900 *)
Definition exec_module_impl : M Results :=
  d <- diff_phase ;;
  let '(n, f) := d in
  modify_res (set_outcome (f_changed f) (f_results f) (f_powerstate_change f)) ;;;
  if check_mode p then get_res
  else
    when (f_changed f) (apply n f) ;;;
    get_res.

End Exec.

End VM.

(** * A reference instance

    The base class and the Azure services are outside the sources.  The
    theorems below hold for every [Common] and every [Remote]; the instance
    of this module serves to run the modules on concrete inputs. *)

Module Reference.

Fixpoint split_on (c : ascii) (s : string) : list string :=
  match s with
  | EmptyString => [EmptyString]
  | String d rest =>
      if Ascii.eqb c d then EmptyString :: split_on c rest
      else match split_on c rest with
           | piece :: pieces => String d piece :: pieces
           | [] => [String d EmptyString]
           end
  end.

Fixpoint decimal_from (acc : N) (s : string) : option N :=
  match s with
  | EmptyString => Some acc
  | String c rest =>
      if Py.is_digit c then decimal_from (acc * 10 + (Py.code c - 48))%N rest else None
  end.

Definition at_most (bound : N) (s : string) : bool :=
  match s with
  | EmptyString => false
  | _ => match decimal_from 0 s with
         | Some n => (n <=? bound)%N
         | None => false
         end
  end.

(** Modelled from the spec: [CIDR_PATTERN] of [azure_rm_common], which is
    not among the sources; CIDR syntax is an address of four decimal
    octets plus a prefix length. *)
Definition cidr_syntax (s : string) : bool :=
  match split_on "/" s with
  | [address; len] =>
      match split_on "." address with
      | [a; b; c; d] =>
          at_most 255 a && at_most 255 b && at_most 255 c && at_most 255 d && at_most 32 len
      | _ => false
      end
  | _ => false
  end.

(** Modelled from the spec: [update_tags] of the base class, which is not
    among the sources; the requested tags are merged into the current
    ones, or replace them when the purge flag is set, and the flag
    returned tells whether the tags differ from the current ones. *)
Definition update_tags_spec (requested : option (gmap string string)) (purge : bool)
    (current : value) : bool * value :=
  let current_tags := match current with VTags t => t | _ => ∅ end in
  let requested_tags := default ∅ requested in
  let new_tags := if purge then requested_tags else requested_tags ∪ current_tags in
  (negb (bool_decide (new_tags = current_tags)),
   if bool_decide (new_tags = current_tags) then current else VTags new_tags).

(** Modelled from the spec: [check_provisioning_state] of the base class,
    which is not among the sources; a resource that is kept must have
    completed its last mutation. *)
Definition provisioning_succeeded (provisioning_state : string) (requested : option string)
  : bool :=
  bool_decide (requested = Some "absent") || String.eqb provisioning_state "Succeeded".

Fixpoint pair_up (pieces : list string) : gmap string string :=
  match pieces with
  | k :: rest => match rest with
                 | v :: _ => <[k := v]> (pair_up rest)
                 | [] => ∅
                 end
  | [] => ∅
  end.

(** Modelled from the spec: [azure_id_to_dict] of [azure_rm_common], which
    is not among the sources; an identity is a path
    [/subscriptions/{sub}/resourceGroups/{rg}/providers/{provider}/{type}/{name}]
    and every segment is a key for the segment that follows it. *)
Definition id_to_dict (id : string) : gmap string string :=
  pair_up (match split_on "/" id with
           | EmptyString :: pieces => pieces
           | pieces => pieces
           end).

Definition common : Common :=
  {| CIDR_PATTERN_match := cidr_syntax;
     update_tags := update_tags_spec;
     check_provisioning_state := provisioning_succeeded;
     azure_id_to_dict := id_to_dict |}.

(** ** A subscription that stores what it is sent *)

Record World : Type := {
  w_vnets : gmap string VirtualNetwork;
  w_vms : gmap string VirtualMachine;
  w_nics : gmap string NetworkInterface;
  w_pips : gmap string PublicIPAddress;
  w_accounts : gmap string StorageAccount;
  (** names of resources whose deletion the service refuses *)
  w_locked : list string;
}.

Definition resource_id (rg kind name : string) : string :=
  "/subscriptions/sub/resourceGroups/" +:+ rg +:+ "/providers/" +:+ kind +:+ "/" +:+ name.

Definition lookup_by_name {A} (m : gmap string A) (name : string) : fetch A :=
  match m !! name with
  | Some a => Found a
  | None => CloudError
  end.

Definition with_vnets (f : gmap string VirtualNetwork → gmap string VirtualNetwork)
    (w : World) : World :=
  {| w_vnets := f (w_vnets w); w_vms := w_vms w; w_nics := w_nics w; w_pips := w_pips w;
     w_accounts := w_accounts w; w_locked := w_locked w |}.

Definition with_vms (f : gmap string VirtualMachine → gmap string VirtualMachine)
    (w : World) : World :=
  {| w_vnets := w_vnets w; w_vms := f (w_vms w); w_nics := w_nics w; w_pips := w_pips w;
     w_accounts := w_accounts w; w_locked := w_locked w |}.

Definition with_nics (f : gmap string NetworkInterface → gmap string NetworkInterface)
    (w : World) : World :=
  {| w_vnets := w_vnets w; w_vms := w_vms w; w_nics := f (w_nics w); w_pips := w_pips w;
     w_accounts := w_accounts w; w_locked := w_locked w |}.

Definition with_pips (f : gmap string PublicIPAddress → gmap string PublicIPAddress)
    (w : World) : World :=
  {| w_vnets := w_vnets w; w_vms := w_vms w; w_nics := w_nics w; w_pips := f (w_pips w);
     w_accounts := w_accounts w; w_locked := w_locked w |}.

Definition with_accounts (f : gmap string StorageAccount → gmap string StorageAccount)
    (w : World) : World :=
  {| w_vnets := w_vnets w; w_vms := w_vms w; w_nics := w_nics w; w_pips := w_pips w;
     w_accounts := f (w_accounts w); w_locked := w_locked w |}.

Definition locked (w : World) (name : string) : bool :=
  existsb (String.eqb name) (w_locked w).

Definition list_of (v : value) : option (list string) :=
  match v with VList l => Some l | _ => None end.

(** the network the service holds once it accepted [payload] *)
Definition stored_vnet (rg name : string) (payload : VNetPayload) : VirtualNetwork :=
  {| vnet_id := resource_id rg "Microsoft.Network/virtualNetworks" name;
     vnet_name := name;
     vnet_location := match np_location payload with VStr l => l | _ => EmptyString end;
     vnet_type := "Microsoft.Network/virtualNetworks";
     vnet_tags := match np_tags payload with VTags t => Some t | _ => None end;
     vnet_provisioning_state := "Succeeded";
     vnet_etag := "W/1";
     vnet_dhcp_options := match np_dhcp_options payload with
                          | Some v => list_of v
                          | None => None
                          end;
     vnet_address_space := list_of (np_address_prefixes payload) |}.

Definition running_statuses : list string :=
  ["ProvisioningState/succeeded"; "PowerState/running"].

Definition stopped_statuses : list string :=
  ["ProvisioningState/succeeded"; "PowerState/stopped"].

(** the machine the service holds once it accepted [payload]; the module
    documents that an updated machine is left running *)
Definition stored_vm (rg name : string) (payload : VMPayload) : VirtualMachine :=
  {| vm_id := resource_id rg "Microsoft.Compute/virtualMachines" name;
     vm_name := name;
     vm_location := vp_location payload;
     vm_type := "Microsoft.Compute/virtualMachines";
     vm_tags := match vp_tags payload with Some (VTags t) => Some t | _ => None end;
     vm_provisioning_state := "Succeeded";
     vm_statuses := running_statuses;
     vm_network_interfaces := vp_network_interfaces payload;
     vm_hardware_size := default EmptyString (vp_vm_size payload);
     vm_image_reference := vp_image payload;
     vm_os_disk := {| disk_name := vp_os_disk_name payload;
                      disk_vhd_uri := default EmptyString (vp_vhd_uri payload);
                      disk_create_option := vp_create_option payload;
                      disk_os_type := default "Linux" (vp_os_type payload);
                      disk_caching := default EmptyString (vp_caching payload) |};
     vm_os_profile := {| os_admin_username := default EmptyString (vp_admin_username payload);
                         os_computer_name := default EmptyString (vp_computer_name payload);
                         os_admin_password := None;
                         os_linux_configuration := vp_linux_configuration payload |} |}.

Definition with_statuses (statuses : list string) (vm : VirtualMachine) : VirtualMachine :=
  {| vm_id := vm_id vm; vm_name := vm_name vm; vm_location := vm_location vm;
     vm_type := vm_type vm; vm_tags := vm_tags vm;
     vm_provisioning_state := vm_provisioning_state vm;
     vm_statuses := statuses;
     vm_network_interfaces := vm_network_interfaces vm;
     vm_hardware_size := vm_hardware_size vm;
     vm_image_reference := vm_image_reference vm;
     vm_os_disk := vm_os_disk vm; vm_os_profile := vm_os_profile vm |}.

Definition set_power (statuses : list string) (w : World) (name : string) : World * bool :=
  match w_vms w !! name with
  | Some vm => (with_vms (insert name (with_statuses statuses vm)) w, true)
  | None => (w, false)
  end.

Definition remove {A} (field : World → gmap string A)
    (update : (gmap string A → gmap string A) → World → World)
    (w : World) (name : string) : World * bool :=
  if locked w name then (w, false)
  else match field w !! name with
       | Some _ => (update (delete name) w, true)
       | None => (w, false)
       end.

Definition remote : Remote World :=
  {| resource_groups_get := λ _ _, Some "eastus";
     virtual_networks_get := λ w _ name, lookup_by_name (w_vnets w) name;
     virtual_networks_list := λ w _ _, Found (map fst (map_to_list (w_vnets w)));
     subnets_get := λ w rg vnet,
       Some (resource_id rg "Microsoft.Network/virtualNetworks" vnet +:+ "/subnets/default");
     subnets_list := λ w rg vnet,
       Found [resource_id rg "Microsoft.Network/virtualNetworks" vnet +:+ "/subnets/default"];
     virtual_machines_get := λ w _ name, lookup_by_name (w_vms w) name;
     virtual_machine_sizes_list := λ _ _, Some ["Standard_A1"; "Standard_D1"; "Standard_D4"];
     virtual_machine_images_list := λ _ _ _ _ _, Some ["7.1.20160308"];
     network_interfaces_get := λ w _ name, lookup_by_name (w_nics w) name;
     public_ip_addresses_get := λ w _ name, w_pips w !! name;
     storage_accounts_get_properties := λ w _ name, lookup_by_name (w_accounts w) name;
     get_blob_client := λ w _ account, bool_decide (is_Some (w_accounts w !! account));
     virtual_networks_create_or_update := λ w rg name payload,
       let vnet := stored_vnet rg name payload in
       (with_vnets (insert name vnet) w, Some vnet);
     virtual_networks_delete := λ w _ name, remove w_vnets with_vnets w name;
     virtual_machines_create_or_update := λ w rg name payload,
       (with_vms (insert name (stored_vm rg name payload)) w, true);
     virtual_machines_delete := λ w _ name, remove w_vms with_vms w name;
     virtual_machines_start := λ w _ name, set_power running_statuses w name;
     virtual_machines_power_off := λ w _ name, set_power stopped_statuses w name;
     network_interfaces_create_or_update := λ w rg name payload,
       let nic := {| nic_id := resource_id rg "Microsoft.Network/networkInterfaces" name;
                     nic_name := name;
                     nic_provisioning_state := "Succeeded";
                     nic_ip_configurations := [Some (ni_public_ip payload)] |} in
       (with_nics (insert name nic) w, Some nic);
     network_interfaces_delete := λ w _ name, remove w_nics with_nics w name;
     public_ip_addresses_delete := λ w _ name, remove w_pips with_pips w name;
     storage_accounts_create := λ w _ name _,
       (with_accounts (insert name {| sa_name := name; sa_provisioning_state := "Succeeded" |}) w,
        true);
     delete_blob := λ w account _ blob, (w, negb (locked w blob));
     create_default_pip := λ w rg _ name _,
       let pip := {| pip_id := resource_id rg "Microsoft.Network/publicIPAddresses" (name +:+ "01");
                     pip_name := name +:+ "01"; pip_ip_address := "13.92.246.197" |} in
       (with_pips (insert (name +:+ "01") pip) w, Some pip);
     create_default_securitygroup := λ w rg _ name _ _ _,
       (w, Some (resource_id rg "Microsoft.Network/networkSecurityGroups" (name +:+ "01"))) |}.

Definition empty_world : World :=
  {| w_vnets := ∅; w_vms := ∅; w_nics := ∅; w_pips := ∅; w_accounts := ∅; w_locked := [] |}.

Definition start {R} (w : World) (r : R) : St World R :=
  {| world := w; trace := []; res := r |}.

End Reference.

(** * Reasoning about invocations *)

Definition read_only (e : event) : Prop := is_mutation (ev_call e) = false.

Definition no_power (e : event) : Prop := is_power (ev_call e) = false.

Definition validation (e : failure) : Prop :=
  match e with ValidationError _ => True | _ => False end.

Section Judgements.
Context {W R : Type}.
Implicit Types (st : St W R) (P : event → Prop) (S : failure → Prop).

(** [st'] continues [st] with events that satisfy [P]; when none of them
    is a mutation the subscription is as before *)
Definition extends P st st' : Prop :=
  ∃ t, trace st' = trace st ++ t ∧ Forall P t ∧ (Forall read_only t → world st' = world st).

(** every event of [m] satisfies [P] *)
Definition emits P {A} (m : M W R A) : Prop := ∀ st, extends P st (m st).1.

(** every failure of [m] satisfies [S] *)
Definition raises S {A} (m : M W R A) : Prop := ∀ st e, (m st).2 = Err e → S e.

(** [m] leaves [self.results] alone *)
Definition keeps {A} (m : M W R A) : Prop := ∀ st, res (m st).1 = res st.

(** the same for code without effects *)
Definition oraises S {A} (x : outcome A) : Prop := ∀ e, x = Err e → S e.

End Judgements.

Abbreviation quiet := (raises (λ e, ¬ validation e)).
Abbreviation oquiet := (oraises (λ e, ¬ validation e)).

Definition no_update (e : event) : Prop :=
  match ev_call e with VirtualMachinesCreateOrUpdate _ _ _ => False | _ => True end.

Definition succeeded (e : event) : Prop := ev_ok e = true.

Definition mutations (t : list event) : list call :=
  map ev_call (filter (λ e, is_mutation (ev_call e) = true) t).

Definition power_calls (t : list event) : list call :=
  map ev_call (filter (λ e, is_power (ev_call e) = true) t).

Section Guards.
Context {W R : Type}.

(** a validation failure of [m] comes before any mutation by [m] *)
Definition guarded {A} (m : M W R A) : Prop :=
  ∀ st e, (m st).2 = Err e → validation e → extends read_only st (m st).1.

(** a validation failure of [m] comes before any change of [self.results]
    by [m] *)
Definition untouched {A} (m : M W R A) : Prop :=
  ∀ st e, (m st).2 = Err e → validation e → res (m st).1 = res st.

End Guards.

(** ** Validation failures *)

(** the three messages of lines 736-744 *)
Definition vm_create_messages : list string :=
  [ "Parameter error: admin_username required when creating a virtual machine.";
    "Parameter error: ssh_public_keys required when disabling SSH password.";
    "Parameter error: an image is required when creating a virtual machine." ].

(** the message of line 356 *)
Definition vnet_create_message : string :=
  "Parameter error: address_prefixes_cidr required when creating a virtual network".

(** the validation failures among the failures are those of [msgs] *)
Definition validation_among (msgs : list string) (e : failure) : Prop :=
  match e with ValidationError msg => msg ∈ msgs | _ => True end.

(** ** Cascade deletion *)

(** the blob deletions for the noted VHD URIs *)
Definition blob_calls (vhd_uris : list string) : list call :=
  flat_map (λ uri, match VM.extract_names_from_blob_uri uri with
                   | Ok (account, container, blob) => [DeleteBlob account container blob]
                   | Err _ => []
                   end) vhd_uris.

(** the deletions of a cascade, in order *)
Definition cascade (p : VM.Params) (vhd_uris nic_names pip_names : list string) : list call :=
  VirtualMachinesDelete (VM.resource_group p) (VM.name p)
  :: blob_calls vhd_uris
  ++ map (NetworkInterfacesDelete (VM.resource_group p)) nic_names
  ++ map (PublicIPAddressesDelete (VM.resource_group p)) pip_names.

(** The trace [t] and the result [r] of a run that was to issue the
    mutations [cs]: on success all of them, every call having succeeded; on
    failure an initial segment of them, and a call that failed is the last
    event of the trace. *)
Definition fail_stop {A} (cs : list call) (t : list event) (r : outcome A) : Prop :=
  match r with
  | Ok _ => Forall succeeded t ∧ mutations t = cs
  | Err _ =>
      mutations t `prefix_of` cs ∧
      (Forall succeeded t ∨ ∃ t0 e, t = t0 ++ [e] ∧ Forall succeeded t0 ∧ ev_ok e = false)
  end.

Definition cascades {W R A} (cs : list call) (m : M W R A) : Prop :=
  ∀ st, ∃ t, trace (m st).1 = trace st ++ t ∧ fail_stop cs t (m st).2.

(** ** The comparison of an existing machine *)

Definition known_differences : list string :=
  ["Network Interfaces"; "VM Size"; "Image"; "Image versions"; "OS Disk caching"; "Tags";
   "Short Hostname"].

(** [d'] has the power state, the admin credentials and the VHD URI of [d] *)
Definition same_immutables (d d' : VM.vm_dict) : Prop :=
  VM.d_power_state d' = VM.d_power_state d ∧
  os_admin_username (VM.d_osProfile d') = os_admin_username (VM.d_osProfile d) ∧
  os_admin_password (VM.d_osProfile d') = os_admin_password (VM.d_osProfile d) ∧
  disk_vhd_uri (VM.d_osDisk d') = disk_vhd_uri (VM.d_osDisk d).

(** a step of the comparison keeps the immutable fields and adds known
    names only *)
Definition diff_step_ok (acc acc' : VM.vm_dict * list string) : Prop :=
  same_immutables acc.1 acc'.1 ∧
  (Forall (λ x, x ∈ known_differences) acc.2 → Forall (λ x, x ∈ known_differences) acc'.2).

(** what an update object says of the admin credentials and of the VHD: the
    user name and the URI of the fetched machine, and its password when the
    serialized machine has one *)
Definition carries (profile : OSProfile) (disk : OSDisk) (payload : VMPayload) : Prop :=
  vp_admin_username payload = Some (os_admin_username profile) ∧
  vp_admin_password payload =
    (match os_admin_password profile with
     | Some pw => if Py.truthy pw then Some pw else None
     | None => None
     end) ∧
  vp_vhd_uri payload = Some (disk_vhd_uri disk).

(** the parameters with other admin credentials and another storage
    location *)
Definition with_immutables (u pw account container blob : option string) (p : VM.Params)
  : VM.Params :=
  {| VM.resource_group := VM.resource_group p; VM.name := VM.name p;
     VM.state_ := VM.state_ p; VM.location := VM.location p;
     VM.short_hostname := VM.short_hostname p; VM.vm_size := VM.vm_size p;
     VM.admin_username := u; VM.admin_password := pw;
     VM.ssh_password := VM.ssh_password p; VM.ssh_public_keys := VM.ssh_public_keys p;
     VM.image := VM.image p;
     VM.storage_account_name := account; VM.storage_container_name := container;
     VM.storage_blob_name := blob;
     VM.os_disk_caching := VM.os_disk_caching p; VM.os_type := VM.os_type p;
     VM.public_ip_allocation_method := VM.public_ip_allocation_method p;
     VM.ssh_port := VM.ssh_port p; VM.rdp_port := VM.rdp_port p;
     VM.network_interface_names := VM.network_interface_names p;
     VM.delete_network_interfaces := VM.delete_network_interfaces p;
     VM.delete_virtual_storage := VM.delete_virtual_storage p;
     VM.delete_public_ips := VM.delete_public_ips p;
     VM.virtual_network_name := VM.virtual_network_name p;
     VM.subnet_name := VM.subnet_name p;
     VM.tags := VM.tags p; VM.purge_tags := VM.purge_tags p;
     VM.check_mode := VM.check_mode p |}.

(** the locals with another requested VHD URI *)
Definition with_requested_vhd_uri (uri blob : option string) (n : VM.Normalized)
  : VM.Normalized :=
  {| VM.n_location := VM.n_location n;
     VM.n_network_interfaces := VM.n_network_interfaces n;
     VM.n_image := VM.n_image n;
     VM.n_storage_blob_name := blob;
     VM.n_requested_vhd_uri := uri;
     VM.n_disable_ssh_password := VM.n_disable_ssh_password n |}.

(** ** Power state *)

(** the power call that the intent and the power state of the machine ask
    for *)
Definition expected_power_calls (p : VM.Params) (current : option string) : list call :=
  let running := bool_decide (current = Some "running") in
  match VM.state_ p with
  | VM.started =>
      if running then [] else [VirtualMachinesStart (VM.resource_group p) (VM.name p)]
  | VM.stopped =>
      if running then [VirtualMachinesPowerOff (VM.resource_group p) (VM.name p)] else []
  | _ => []
  end.

(** the power call of lines 884-893, given the change [psc] that the
    comparison asked for and the results [cur] found at that point *)
Definition power_calls_for (p : VM.Params) (psc : option string) (cur : option VM.vm_dict)
  : list call :=
  match cur with
  | None => []
  | Some cur =>
      let running := bool_decide (VM.d_power_state cur = Some "running") in
      if bool_decide (psc = Some "poweron") && negb running
      then [VirtualMachinesStart (VM.resource_group p) (VM.name p)]
      else if bool_decide (psc = Some "poweroff") && running
           then [VirtualMachinesPowerOff (VM.resource_group p) (VM.name p)]
           else []
  end.

(** ** Proof steps *)

Create HintDb reads.
Create HintDb quiet.
Create HintDb keeps.
Create HintDb mono.

Ltac head_of t :=
  lazymatch t with
  | ?f _ => head_of f
  | _ => t
  end.

Ltac side :=
  try solve [ done
            | intros; simpl; done
            | intros; simpl; intros; discriminate
            | intros; simpl; tauto ].

(** an update object of the invocation carries the values of [vm] *)
Definition update_carries (vm : VirtualMachine) (e : event) : Prop :=
  ∀ g nm payload,
    ev_call e = VirtualMachinesCreateOrUpdate g nm payload →
    carries (vm_os_profile vm) (vm_os_disk vm) payload.


(** * Concrete inputs *)

Module Examples.
Import Reference.

(** ** Virtual networks *)

Definition network (prefixes : list string) (dns : option (list string)) : VirtualNetwork :=
  {| vnet_id := resource_id "Testing" "Microsoft.Network/virtualNetworks" "foobar";
     vnet_name := "foobar";
     vnet_location := "eastus";
     vnet_type := "Microsoft.Network/virtualNetworks";
     vnet_tags := None;
     vnet_provisioning_state := "Succeeded";
     vnet_etag := "W/0";
     vnet_dhcp_options := dns;
     vnet_address_space := Some prefixes |}.

Definition world_with (vnet : VirtualNetwork) : World :=
  with_vnets (insert "foobar" vnet) empty_world.

(** the parameters of the first playbook example, with the given
    prefixes and purge flag *)
Definition vnet_params (prefixes : option (list string)) (purge : bool) : VNet.Params :=
  {| VNet.resource_group := "Testing"; VNet.name := "foobar"; VNet.state_ := VNet.present;
     VNet.location := None; VNet.address_prefixes_cidr := prefixes;
     VNet.dns_servers := None; VNet.purge_address_prefixes := purge;
     VNet.purge_dns_servers := false; VNet.tags := None; VNet.purge_tags := false;
     VNet.check_mode := false |}.

Definition vnet_run (p : VNet.Params) (w : World)
  : St World VNet.Results * outcome VNet.Results :=
  VNet.exec_module_impl common remote p (start w VNet.initial_results).

(** the network has one prefix, the request names it and one more, and
    the purge flag is set *)
Definition one_prefix : VirtualNetwork := network ["10.0.0.0/16"] (Some ["10.0.0.4"]).

Definition purge_with_missing : VNet.Params :=
  vnet_params (Some ["10.0.0.0/16"; "10.1.0.0/16"]) true.

(** the two cases of the specification *)
Definition add_without_purge : VNet.Params :=
  vnet_params (Some ["10.0.0.0/16"; "10.1.0.0/16"]) false.

Definition two_prefixes : VirtualNetwork :=
  network ["10.0.0.0/16"; "10.1.0.0/16"] (Some ["10.0.0.4"]).

Definition purge_extra : VNet.Params := vnet_params (Some ["10.1.0.0/16"]) true.

(** a prefix that is no CIDR, with and without the purge flag *)
Definition bad_prefix (purge : bool) : VNet.Params := vnet_params (Some ["10.0.0.0/33"]) purge.

(** a network without DNS servers, and a request that only sets a tag *)
Definition no_dns : VirtualNetwork := network ["10.0.0.0/16"] None.

Definition only_tags : VNet.Params :=
  {| VNet.resource_group := "Testing"; VNet.name := "foobar"; VNet.state_ := VNet.present;
     VNet.location := None; VNet.address_prefixes_cidr := None;
     VNet.dns_servers := None; VNet.purge_address_prefixes := false;
     VNet.purge_dns_servers := false; VNet.tags := Some {["delete" := "on-exit"]};
     VNet.purge_tags := false; VNet.check_mode := false |}.

(** the prefixes of the serialized network after the comparison *)
Definition target_prefixes (p : VNet.Params) (vnet : VirtualNetwork) : outcome (option value) :=
  d ← VNet.diff_existing common p vnet;
  Ok (d.2 !! "address_prefixes").

(** the [changed] flag after the comparison *)
Definition flagged (p : VNet.Params) (vnet : VirtualNetwork) : outcome bool :=
  d ← VNet.diff_existing common p vnet;
  Ok d.1.

(** the update object built from the serialized network after the
    comparison *)
Definition update_of (p : VNet.Params) (vnet : VirtualNetwork) : outcome VNetPayload :=
  d ← VNet.diff_existing common p vnet;
  VNet.update_payload d.2.

(** the address prefixes that an update sent *)
Definition sent_prefixes (t : list event) : list value :=
  omap (λ e, match ev_call e with
             | VirtualNetworksCreateOrUpdate _ _ payload => Some (np_address_prefixes payload)
             | _ => None
             end) t.

(** ** Virtual machines *)

Definition testvm (statuses : list string) : VirtualMachine :=
  {| vm_id := resource_id "Testing" "Microsoft.Compute/virtualMachines" "testvm";
     vm_name := "testvm";
     vm_location := "eastus";
     vm_type := "Microsoft.Compute/virtualMachines";
     vm_tags := None;
     vm_provisioning_state := "Succeeded";
     vm_statuses := statuses;
     vm_network_interfaces :=
       [resource_id "Testing" "Microsoft.Network/networkInterfaces" "testvm01"];
     vm_hardware_size := "Standard_D1";
     vm_image_reference := {| img_publisher := "OpenLogic"; img_offer := "CentOS";
                              img_sku := "7.1"; img_version := "7.1.20160308" |};
     vm_os_disk := {| disk_name := "testvm.vhd";
                      disk_vhd_uri := "https://testvm01.blob.core.windows.net/vhds/testvm.vhd";
                      disk_create_option := "fromImage";
                      disk_os_type := "Linux";
                      disk_caching := "ReadOnly" |};
     vm_os_profile := {| os_admin_username := "chouseknecht";
                         os_computer_name := "testvm";
                         os_admin_password := None;
                         os_linux_configuration :=
                           Some {| lc_disable_password_authentication := Some false;
                                   lc_public_keys := None |} |} |}.

Definition testvm_nic : NetworkInterface :=
  {| nic_id := resource_id "Testing" "Microsoft.Network/networkInterfaces" "testvm01";
     nic_name := "testvm01";
     nic_provisioning_state := "Succeeded";
     nic_ip_configurations :=
       [Some (resource_id "Testing" "Microsoft.Network/publicIPAddresses" "testvm01")] |}.

Definition testvm_pip : PublicIPAddress :=
  {| pip_id := resource_id "Testing" "Microsoft.Network/publicIPAddresses" "testvm01";
     pip_name := "testvm01";
     pip_ip_address := "13.92.246.197" |}.

(** a subscription that holds the machine with its interface, public IP
    and storage account *)
Definition world_of (vm : VirtualMachine) (locked : list string) : World :=
  {| w_vnets := ∅;
     w_vms := {["testvm" := vm]};
     w_nics := {["testvm01" := testvm_nic]};
     w_pips := {["testvm01" := testvm_pip]};
     w_accounts := {["testvm01" := {| sa_name := "testvm01";
                                      sa_provisioning_state := "Succeeded" |}]};
     w_locked := locked |}.

(** the parameters of a bare [state: ...] task on [testvm] *)
Definition vm_params (s : VM.state) (check : bool) : VM.Params :=
  {| VM.resource_group := "Testing"; VM.name := "testvm"; VM.state_ := s;
     VM.location := None; VM.short_hostname := None; VM.vm_size := Some "Standard_D1";
     VM.admin_username := None; VM.admin_password := None;
     VM.ssh_password := true; VM.ssh_public_keys := None; VM.image := None;
     VM.storage_account_name := None; VM.storage_container_name := Some "vhds";
     VM.storage_blob_name := None;
     VM.os_disk_caching := Some "ReadOnly"; VM.os_type := Some "Linux";
     VM.public_ip_allocation_method := Some "Static";
     VM.ssh_port := 22; VM.rdp_port := 3389;
     VM.network_interface_names := None;
     VM.delete_network_interfaces := true; VM.delete_virtual_storage := true;
     VM.delete_public_ips := true;
     VM.virtual_network_name := None; VM.subnet_name := None;
     VM.tags := None; VM.purge_tags := false; VM.check_mode := check |}.

Definition vm_run (p : VM.Params) (w : World) : St World VM.Results * outcome VM.Results :=
  VM.exec_module_impl common remote p (start w VM.initial_results).

(** a request whose [ssh_public_keys] holds something that is no dict *)
Definition malformed_key : VM.Params :=
  with_immutables (Some "chouseknecht") None None (Some "vhds") None
    {| VM.resource_group := "Testing"; VM.name := "testvm"; VM.state_ := VM.present;
       VM.location := None; VM.short_hostname := None; VM.vm_size := Some "Standard_D1";
       VM.admin_username := None; VM.admin_password := None;
       VM.ssh_password := true; VM.ssh_public_keys := Some [VM.NotADict]; VM.image := None;
       VM.storage_account_name := None; VM.storage_container_name := None;
       VM.storage_blob_name := None;
       VM.os_disk_caching := Some "ReadOnly"; VM.os_type := Some "Linux";
       VM.public_ip_allocation_method := Some "Static";
       VM.ssh_port := 22; VM.rdp_port := 3389;
       VM.network_interface_names := None;
       VM.delete_network_interfaces := false; VM.delete_virtual_storage := false;
       VM.delete_public_ips := false;
       VM.virtual_network_name := None; VM.subnet_name := None;
       VM.tags := None; VM.purge_tags := false; VM.check_mode := false |}.

(** a request that wants a larger machine, started *)
Definition resize_and_start : VM.Params :=
  {| VM.resource_group := "Testing"; VM.name := "testvm"; VM.state_ := VM.started;
     VM.location := None; VM.short_hostname := None; VM.vm_size := Some "Standard_D4";
     VM.admin_username := Some "root"; VM.admin_password := Some "secret";
     VM.ssh_password := true; VM.ssh_public_keys := None; VM.image := None;
     VM.storage_account_name := None; VM.storage_container_name := Some "vhds";
     VM.storage_blob_name := None;
     VM.os_disk_caching := Some "ReadOnly"; VM.os_type := Some "Linux";
     VM.public_ip_allocation_method := Some "Static";
     VM.ssh_port := 22; VM.rdp_port := 3389;
     VM.network_interface_names := None;
     VM.delete_network_interfaces := false; VM.delete_virtual_storage := false;
     VM.delete_public_ips := false;
     VM.virtual_network_name := None; VM.subnet_name := None;
     VM.tags := None; VM.purge_tags := false; VM.check_mode := false |}.

Definition changed_of (r : outcome VNet.Results) : option bool :=
  match r with Ok o => Some (VNet.changed o) | Err _ => None end.

(** the same request against whatever the first invocation left *)
Definition vnet_rerun (p : VNet.Params) (w : World)
  : St World VNet.Results * outcome VNet.Results :=
  vnet_run p (world (vnet_run p w).1).

Definition named (name : string) : VNet.Params :=
  {| VNet.resource_group := "rm_demo"; VNet.name := name; VNet.state_ := VNet.present;
     VNet.location := Some "West US"; VNet.address_prefixes_cidr := Some ["10.0.1.0/24"];
     VNet.dns_servers := None; VNet.purge_address_prefixes := false;
     VNet.purge_dns_servers := false; VNet.tags := None; VNet.purge_tags := false;
     VNet.check_mode := false |}.

End Examples.

(** * Further definitions: languages, judgements and sample requests *)

(** the value of a computation that completed *)
Definition value_of {A} (d : A) (o : outcome A) : A :=
  match o with
  | Ok a => a
  | Err _ => d
  end.

(** every character of [s] is of the class [C] *)
Fixpoint all_chars (C : ascii → bool) (s : string) : bool :=
  match s with
  | EmptyString => true
  | String c rest => C c && all_chars C rest
  end.

(** [s] is [body] followed by the character [c], or by [c] and one
    newline *)
Definition ends_with (body : string) (c : ascii) (s : string) : Prop :=
  s = body +:+ String c EmptyString ∨ s = body +:+ String c (String Py.newline EmptyString).

(** the failure of line 282 for [prefix] *)
Definition invalid_prefix (prefix : string) : failure :=
  ValidationError ("Parameter error: invalid address prefix value " +:+ prefix).

(** [m] leaves the part [f] of [self.results] alone *)
Definition preserves {W R X : Type} (f : R → X) {A} (m : M W R A) : Prop :=
  ∀ st, f (res (m st).1) = f (res st).

Create HintDb preserves.

(** what the comparison decided: the change flag, the list of differences
    and the power change *)
Definition decided (o : VM.Results) : bool * option (list string) * option string :=
  (VM.changed o, VM.differences o, VM.powerstate_change o).

(** the one mutating call a request for [state] may issue *)
Definition vnet_mutation_of (p : VNet.Params) (c : call) : Prop :=
  match VNet.state_ p with
  | VNet.present =>
      ∃ payload, c = VirtualNetworksCreateOrUpdate (VNet.resource_group p) (VNet.name p) payload
  | VNet.absent => c = VirtualNetworksDelete (VNet.resource_group p) (VNet.name p)
  end.

(** the same request as a dry run *)
Definition vnet_dry_run (p : VNet.Params) : VNet.Params :=
  {| VNet.resource_group := VNet.resource_group p; VNet.name := VNet.name p;
     VNet.state_ := VNet.state_ p; VNet.location := VNet.location p;
     VNet.address_prefixes_cidr := VNet.address_prefixes_cidr p;
     VNet.dns_servers := VNet.dns_servers p;
     VNet.purge_address_prefixes := VNet.purge_address_prefixes p;
     VNet.purge_dns_servers := VNet.purge_dns_servers p;
     VNet.tags := VNet.tags p; VNet.purge_tags := VNet.purge_tags p;
     VNet.check_mode := true |}.

(** the location of an invocation: the one given, or that of the resource
    group (lines 270-273) *)
Definition location_or (given : option string) (group_location : string) : string :=
  if Py.truthy_opt given then default EmptyString given else group_location.

(** the two reads every invocation of the network module starts with, as
    they appear in the trace when the resource group is found *)
Definition vnet_reads {W} (rm : Remote W) (p : VNet.Params) (w : W) : list event :=
  [ Event (ResourceGroupsGet (VNet.resource_group p)) true;
    Event (VirtualNetworksGet (VNet.resource_group p) (VNet.name p))
          (found (virtual_networks_get rm w (VNet.resource_group p) (VNet.name p))) ].

(** [st'] has the subscription and the outcome record of [st] *)
Definition same {W R} (st st' : St W R) : Prop :=
  world st' = world st ∧ res st' = res st.

(** an entry of [ssh_public_keys] that passes the check of lines 588-592,
    and the key it stands for *)
Definition key_entry_of (k : SshPublicKey) : VM.ssh_key_entry :=
  VM.KeyDict (Some (pk_path k)) (Some (pk_key_data k)).

Definition usable_key (k : SshPublicKey) : Prop :=
  pk_path k ≠ EmptyString ∧ pk_key_data k ≠ EmptyString.

(** the version that [latest] or an explicit version stands for among the
    listed ones *)
Definition resolves (requested : string) (versions : list string) (v : string) : Prop :=
  v ∈ versions ∧
  if String.eqb requested "latest" then last versions = Some v else v = requested.

(** an image dict with its four entries, none of them empty *)
Definition image_of (image : gmap string string) (pub off sk ver : string) : Prop :=
  image !! "publisher" = Some pub ∧ image !! "offer" = Some off ∧
  image !! "sku" = Some sk ∧ image !! "version" = Some ver ∧
  pub ≠ EmptyString ∧ off ≠ EmptyString ∧ sk ≠ EmptyString ∧ ver ≠ EmptyString.

(** the Linux configuration of a create request (lines 800-808) *)
Definition linux_configuration_of (p : VM.Params) (pks : list SshPublicKey)
  : option LinuxConfiguration :=
  if bool_decide (VM.os_type p = Some "Linux")
  then Some {| lc_disable_password_authentication := Some (negb (VM.ssh_password p));
               lc_public_keys := if Py.truthy_list (VM.ssh_public_keys p) then Some pks
                                 else None |}
  else None.

(** ** The playbook examples of the machine module *)

Module Samples.
Import Reference.

Definition centos : gmap string string :=
  {[ "offer" := "CentOS"; "publisher" := "OpenLogic"; "sku" := "7.1"; "version" := "latest" ]}.

(** "Create VM with defaults", the other parameters at their defaults *)
Definition create_with_defaults : VM.Params :=
  {| VM.resource_group := "Testing"; VM.name := "testvm10"; VM.state_ := VM.started;
     VM.location := None; VM.short_hostname := None; VM.vm_size := Some "Standard_D1";
     VM.admin_username := Some "chouseknecht"; VM.admin_password := Some "secret";
     VM.ssh_password := true; VM.ssh_public_keys := None; VM.image := Some centos;
     VM.storage_account_name := None; VM.storage_container_name := Some "vhds";
     VM.storage_blob_name := None;
     VM.os_disk_caching := Some "ReadOnly"; VM.os_type := Some "Linux";
     VM.public_ip_allocation_method := Some "Static";
     VM.ssh_port := 22; VM.rdp_port := 3389;
     VM.network_interface_names := None;
     VM.delete_network_interfaces := false; VM.delete_virtual_storage := false;
     VM.delete_public_ips := false;
     VM.virtual_network_name := None; VM.subnet_name := None;
     VM.tags := None; VM.purge_tags := false; VM.check_mode := false |}.

(** "Create a VM with exiting storage account and NIC" *)
Definition create_with_existing : VM.Params :=
  {| VM.resource_group := "Testing"; VM.name := "testvm002"; VM.state_ := VM.started;
     VM.location := None; VM.short_hostname := None; VM.vm_size := Some "Standard_D4";
     VM.admin_username := Some "adminUser"; VM.admin_password := None;
     VM.ssh_password := true;
     VM.ssh_public_keys :=
       Some [VM.KeyDict (Some "/home/adminUser/.ssh/authorized_keys") (Some "ssh-rsa AAAA")];
     VM.image := Some centos;
     VM.storage_account_name := Some "testaccount001";
     VM.storage_container_name := Some "vhds";
     VM.storage_blob_name := None;
     VM.os_disk_caching := Some "ReadOnly"; VM.os_type := Some "Linux";
     VM.public_ip_allocation_method := Some "Static";
     VM.ssh_port := 22; VM.rdp_port := 3389;
     VM.network_interface_names := Some ["testvm001"];
     VM.delete_network_interfaces := false; VM.delete_virtual_storage := false;
     VM.delete_public_ips := false;
     VM.virtual_network_name := None; VM.subnet_name := None;
     VM.tags := None; VM.purge_tags := false; VM.check_mode := false |}.

(** a subscription with the interface and the storage account that the
    second example names, and one virtual network *)
Definition prepared : World :=
  {| w_vnets := {["vnet1" := Examples.network ["10.0.0.0/16"] None]};
     w_vms := ∅;
     w_nics := {["testvm001" :=
                   {| nic_id := resource_id "Testing" "Microsoft.Network/networkInterfaces"
                                  "testvm001";
                      nic_name := "testvm001";
                      nic_provisioning_state := "Succeeded";
                      nic_ip_configurations := [None] |}]};
     w_pips := ∅;
     w_accounts := {["testaccount001" := {| sa_name := "testaccount001";
                                            sa_provisioning_state := "Succeeded" |}]};
     w_locked := [] |}.

Definition vm_start (w : World) : St World VM.Results := start w VM.initial_results.

(** the same request with another size *)
Definition with_vm_size (size : string) (p : VM.Params) : VM.Params :=
  {| VM.resource_group := VM.resource_group p; VM.name := VM.name p;
     VM.state_ := VM.state_ p; VM.location := VM.location p;
     VM.short_hostname := VM.short_hostname p; VM.vm_size := Some size;
     VM.admin_username := VM.admin_username p; VM.admin_password := VM.admin_password p;
     VM.ssh_password := VM.ssh_password p; VM.ssh_public_keys := VM.ssh_public_keys p;
     VM.image := VM.image p;
     VM.storage_account_name := VM.storage_account_name p;
     VM.storage_container_name := VM.storage_container_name p;
     VM.storage_blob_name := VM.storage_blob_name p;
     VM.os_disk_caching := VM.os_disk_caching p; VM.os_type := VM.os_type p;
     VM.public_ip_allocation_method := VM.public_ip_allocation_method p;
     VM.ssh_port := VM.ssh_port p; VM.rdp_port := VM.rdp_port p;
     VM.network_interface_names := VM.network_interface_names p;
     VM.delete_network_interfaces := VM.delete_network_interfaces p;
     VM.delete_virtual_storage := VM.delete_virtual_storage p;
     VM.delete_public_ips := VM.delete_public_ips p;
     VM.virtual_network_name := VM.virtual_network_name p;
     VM.subnet_name := VM.subnet_name p;
     VM.tags := VM.tags p; VM.purge_tags := VM.purge_tags p;
     VM.check_mode := VM.check_mode p |}.

End Samples.

(** the same request as a dry run *)
Definition vm_dry_run (p : VM.Params) : VM.Params :=
  {| VM.resource_group := VM.resource_group p; VM.name := VM.name p;
     VM.state_ := VM.state_ p; VM.location := VM.location p;
     VM.short_hostname := VM.short_hostname p; VM.vm_size := VM.vm_size p;
     VM.admin_username := VM.admin_username p; VM.admin_password := VM.admin_password p;
     VM.ssh_password := VM.ssh_password p; VM.ssh_public_keys := VM.ssh_public_keys p;
     VM.image := VM.image p;
     VM.storage_account_name := VM.storage_account_name p;
     VM.storage_container_name := VM.storage_container_name p;
     VM.storage_blob_name := VM.storage_blob_name p;
     VM.os_disk_caching := VM.os_disk_caching p; VM.os_type := VM.os_type p;
     VM.public_ip_allocation_method := VM.public_ip_allocation_method p;
     VM.ssh_port := VM.ssh_port p; VM.rdp_port := VM.rdp_port p;
     VM.network_interface_names := VM.network_interface_names p;
     VM.delete_network_interfaces := VM.delete_network_interfaces p;
     VM.delete_virtual_storage := VM.delete_virtual_storage p;
     VM.delete_public_ips := VM.delete_public_ips p;
     VM.virtual_network_name := VM.virtual_network_name p;
     VM.subnet_name := VM.subnet_name p;
     VM.tags := VM.tags p; VM.purge_tags := VM.purge_tags p;
     VM.check_mode := true |}.

(** the stage of a create that a mutating call belongs to *)
Definition creation_stage (c : call) : string :=
  match c with
  | CreateDefaultPip _ _ _ _ => "public ip"
  | CreateDefaultSecurityGroup _ _ _ _ _ _ => "security group"
  | NetworkInterfacesCreateOrUpdate _ _ _ => "network interface"
  | StorageAccountsCreate _ _ _ => "storage account"
  | VirtualMachinesCreateOrUpdate _ _ _ => "virtual machine"
  | _ => "none"
  end.

(** a run of [m] that completes has issued a mutating call of the kind
    [Q] *)
Definition issues {W R A} (Q : call → Prop) (m : M W R A) : Prop :=
  ∀ st st' a, m st = (st', Ok a) → ∃ t, trace st' = trace st ++ t ∧ Exists Q (mutations t).

(** the request for the machine *)
Definition machine_request (c : call) : Prop := creation_stage c = "virtual machine".

(** what a run added to the trace and to the action log *)
Definition added {W A} (m : M W VM.Results A) (st : St W VM.Results)
    (t : list event) (a : list string) : Prop :=
  trace (m st).1 = trace st ++ t ∧ VM.actions (res (m st).1) = VM.actions (res st) ++ a.

(** [m] logs one action for each mutating call it issues, whether the
    call succeeds or not *)
Definition balanced {W A} (m : M W VM.Results A) : Prop :=
  ∀ st, ∃ t a, added m st t a ∧ length a = length (mutations t).

(** [m] issues one mutating call more than it logs actions: the call
    that an action logged before [m] stands for *)
Definition settles {W A} (m : M W VM.Results A) : Prop :=
  ∀ st, ∃ t a, added m st t a ∧ length (mutations t) = S (length a).

(** [m] settles, unless it fails before the call *)
Definition owing {W A} (m : M W VM.Results A) : Prop :=
  ∀ st, ∃ t a, added m st t a ∧
    (length (mutations t) = S (length a) ∨
     (∃ e, (m st).2 = Err e) ∧ length (mutations t) = length a).

Create HintDb balanced.

(** the same request without [delete_public_ips] *)
Definition keeping_public_ips (p : VM.Params) : VM.Params :=
  {| VM.resource_group := VM.resource_group p; VM.name := VM.name p;
     VM.state_ := VM.state_ p; VM.location := VM.location p;
     VM.short_hostname := VM.short_hostname p; VM.vm_size := VM.vm_size p;
     VM.admin_username := VM.admin_username p; VM.admin_password := VM.admin_password p;
     VM.ssh_password := VM.ssh_password p; VM.ssh_public_keys := VM.ssh_public_keys p;
     VM.image := VM.image p;
     VM.storage_account_name := VM.storage_account_name p;
     VM.storage_container_name := VM.storage_container_name p;
     VM.storage_blob_name := VM.storage_blob_name p;
     VM.os_disk_caching := VM.os_disk_caching p; VM.os_type := VM.os_type p;
     VM.public_ip_allocation_method := VM.public_ip_allocation_method p;
     VM.ssh_port := VM.ssh_port p; VM.rdp_port := VM.rdp_port p;
     VM.network_interface_names := VM.network_interface_names p;
     VM.delete_network_interfaces := VM.delete_network_interfaces p;
     VM.delete_virtual_storage := VM.delete_virtual_storage p;
     VM.delete_public_ips := false;
     VM.virtual_network_name := VM.virtual_network_name p;
     VM.subnet_name := VM.subnet_name p;
     VM.tags := VM.tags p; VM.purge_tags := VM.purge_tags p;
     VM.check_mode := VM.check_mode p |}.

(** the stages of the create of [p], in order: the default interface with
    its public IP and security group unless interfaces are named, the
    default storage account unless one is named, the machine *)
Definition creation_stages (p : VM.Params) : list string :=
  (if Py.truthy_list (VM.network_interface_names p) then []
   else ["public ip"; "security group"; "network interface"])
  ++ (if Py.truthy_opt (VM.storage_account_name p) then [] else ["storage account"])
  ++ ["virtual machine"].

(** the mutating calls of [m] are of the stages [ks], in that order, each
    at most once *)
Definition staged {W R A} (ks : list string) (m : M W R A) : Prop :=
  ∀ st, ∃ t, trace (m st).1 = trace st ++ t ∧
             map creation_stage (mutations t) `sublist_of` ks.

(** no interface and no public IP is deleted *)
Definition spares_network (e : event) : Prop :=
  ∀ g n, ev_call e ≠ NetworkInterfacesDelete g n ∧ ev_call e ≠ PublicIPAddressesDelete g n.

(** the value that an update asks for: the one requested when it is given
    and not empty, the current one otherwise *)
Definition requested_or (requested : option string) (current : string) : string :=
  if Py.truthy_opt requested then default EmptyString requested else current.

(** the parts of the serialized machine that the comparison may adjust *)
Record adjustable : Type := {
  a_interfaces : list string;
  a_size : string;
  a_image : ImageReference;
  a_caching : string;
  a_hostname : string;
}.

Definition adjustable_of (d : VM.vm_dict) : adjustable :=
  {| a_interfaces := map VM.if_id (VM.d_networkInterfaces d);
     a_size := VM.d_vmSize d;
     a_image := VM.d_imageReference d;
     a_caching := disk_caching (VM.d_osDisk d);
     a_hostname := os_computer_name (VM.d_osProfile d) |}.

(** the image reference that the request names *)
Definition names_image (image : gmap string string) (r : ImageReference) : Prop :=
  image !! "publisher" = Some (img_publisher r) ∧ image !! "offer" = Some (img_offer r) ∧
  image !! "sku" = Some (img_sku r) ∧ image !! "version" = Some (img_version r).

(** an entry of [ipConfigurations] as the serialized machine holds it: the
    public IP of the configuration, if it has one, with the name taken
    from its id and the address that the service holds for it *)
Definition expanded_config {W} (cm : Common) (rm : Remote W) (p : VM.Params) (w : W)
    (pip : option string) (config : VM.ipconfig_dict) : Prop :=
  match pip with
  | None => VM.ipc_public_ip config = None
  | Some id =>
      ∃ name fetched,
        subscript (azure_id_to_dict cm id) "publicIPAddresses" = Ok name ∧
        public_ip_addresses_get rm w (VM.resource_group p) name = Some fetched ∧
        VM.ipc_public_ip config
          = Some {| VM.pd_id := id; VM.pd_name := Some name;
                    VM.pd_properties := Some (pip_ip_address fetched) |}
  end.

(** an entry of [networkInterfaces] as the serialized machine holds it:
    the interface [id] with the name taken from the id and the IP
    configurations of the interface that the service holds under that
    name *)
Definition expanded_interface {W} (cm : Common) (rm : Remote W) (p : VM.Params) (w : W)
    (id : string) (i : VM.interface_dict) : Prop :=
  VM.if_id i = id ∧
  ∃ name nic configs,
    subscript (azure_id_to_dict cm id) "networkInterfaces" = Ok name ∧
    network_interfaces_get rm w (VM.resource_group p) name = Found nic ∧
    VM.if_name i = Some name ∧ VM.if_properties i = Some configs ∧
    Forall2 (expanded_config cm rm p w) (nic_ip_configurations nic) configs.

(** the entry of an interface before its public IPs are looked up *)
Definition noted_interface {W} (cm : Common) (rm : Remote W) (p : VM.Params) (w : W)
    (id : string) (i : VM.interface_dict) : Prop :=
  ∃ name nic,
    subscript (azure_id_to_dict cm id) "networkInterfaces" = Ok name ∧
    network_interfaces_get rm w (VM.resource_group p) name = Found nic ∧
    i = {| VM.if_id := id; VM.if_name := Some name;
           VM.if_properties :=
             Some (map (λ pip, {| VM.ipc_public_ip :=
                                    option_map (λ i, {| VM.pd_id := i; VM.pd_name := None;
                                                        VM.pd_properties := None |}) pip |})
                       (nic_ip_configurations nic)) |}.

(** an entry while the interfaces [ids] are being looked up *)
Definition pending {W} (cm : Common) (rm : Remote W) (p : VM.Params) (w : W)
    (ids : list string) (i i' : VM.interface_dict) : Prop :=
  if bool_decide (VM.if_id i ∈ ids) then noted_interface cm rm p w (VM.if_id i) i'
  else i' = i.

(** the request for the default interface of [p] *)
Definition default_nic_parameters (p : VM.Params) (location subnet group : string)
    (pip : PublicIPAddress) : NicPayload :=
  {| ni_location := location; ni_name := VM.name p +:+ "01"; ni_subnet := subnet;
     ni_security_group := group; ni_public_ip := pip_id pip |}.

Module VNetSamples.
Import Reference Examples.

(** the prefixes and DNS servers of [two_prefixes], in another order and
    named twice *)
Definition reordered : VNet.Params :=
  {| VNet.resource_group := "Testing"; VNet.name := "foobar"; VNet.state_ := VNet.present;
     VNet.location := None;
     VNet.address_prefixes_cidr := Some ["10.1.0.0/16"; "10.0.0.0/16"; "10.1.0.0/16"];
     VNet.dns_servers := Some ["10.0.0.4"; "10.0.0.4"]; VNet.purge_address_prefixes := false;
     VNet.purge_dns_servers := false; VNet.tags := None; VNet.purge_tags := false;
     VNet.check_mode := false |}.

(** a request that purges the DNS servers *)
Definition purge_dns : VNet.Params :=
  {| VNet.resource_group := "Testing"; VNet.name := "foobar"; VNet.state_ := VNet.present;
     VNet.location := None; VNet.address_prefixes_cidr := None;
     VNet.dns_servers := None; VNet.purge_address_prefixes := false;
     VNet.purge_dns_servers := true; VNet.tags := None; VNet.purge_tags := false;
     VNet.check_mode := false |}.

(** the removal of the network *)
Definition remove_network : VNet.Params :=
  {| VNet.resource_group := "Testing"; VNet.name := "foobar"; VNet.state_ := VNet.absent;
     VNet.location := None; VNet.address_prefixes_cidr := None;
     VNet.dns_servers := None; VNet.purge_address_prefixes := false;
     VNet.purge_dns_servers := false; VNet.tags := None; VNet.purge_tags := false;
     VNet.check_mode := false |}.

Definition vnet_start (w : World) : St World VNet.Results := start w VNet.initial_results.

End VNetSamples.

Module VMSamples.
Import Reference Examples Samples.

(** the result of parameter checks that did not pass *)
Definition unchecked : VM.Normalized :=
  {| VM.n_location := EmptyString; VM.n_network_interfaces := []; VM.n_image := None;
     VM.n_storage_blob_name := None; VM.n_requested_vhd_uri := None;
     VM.n_disable_ssh_password := None |}.

(** what the parameter checks make of a request *)
Definition checked (p : VM.Params) (w : World) : VM.Normalized :=
  value_of unchecked (VM.normalize remote p (vm_start w)).2.

(** the removal of [testvm] that keeps its interfaces and its disk but
    asks for the deletion of the public IPs *)
Definition remove_keeping_interfaces : VM.Params :=
  {| VM.resource_group := "Testing"; VM.name := "testvm"; VM.state_ := VM.absent;
     VM.location := None; VM.short_hostname := None; VM.vm_size := Some "Standard_D1";
     VM.admin_username := None; VM.admin_password := None;
     VM.ssh_password := true; VM.ssh_public_keys := None; VM.image := None;
     VM.storage_account_name := None; VM.storage_container_name := Some "vhds";
     VM.storage_blob_name := None;
     VM.os_disk_caching := Some "ReadOnly"; VM.os_type := Some "Linux";
     VM.public_ip_allocation_method := Some "Static";
     VM.ssh_port := 22; VM.rdp_port := 3389;
     VM.network_interface_names := None;
     VM.delete_network_interfaces := false; VM.delete_virtual_storage := false;
     VM.delete_public_ips := true;
     VM.virtual_network_name := None; VM.subnet_name := None;
     VM.tags := None; VM.purge_tags := false; VM.check_mode := false |}.

(** [testvm] as the comparison takes it *)
Definition serialized_testvm : VM.vm_dict :=
  VM.set_power_state (VM.power_state_of stopped_statuses)
    (VM.serialize_obj (testvm stopped_statuses)).

Definition no_difference : VM.Diff :=
  {| VM.dict := serialized_testvm; VM.diffs := []; VM.diff_changed := false;
     VM.diff_powerstate_change := None |}.

End VMSamples.

Section Rules.
Context {W R : Type}.
Implicit Types (st : St W R) (P : event → Prop) (S : failure → Prop).

Lemma extends_refl P st : extends P st st.
Proof. exists []. rewrite app_nil_r. auto. Qed.

Lemma extends_trans P st1 st2 st3 :
  extends P st1 st2 → extends P st2 st3 → extends P st1 st3.
Proof.
  intros (t1 & E1 & F1 & K1) (t2 & E2 & F2 & K2).
  exists (t1 ++ t2). rewrite E2, E1, app_assoc. split; [done|]. split.
  - by apply Forall_app.
  - intros [H1 H2]%Forall_app. rewrite K2, K1; auto.
Qed.

Lemma extends_mono P Q st st' :
  (∀ e, P e → Q e) → extends P st st' → extends Q st st'.
Proof.
  intros H (t & E & F & K). exists t. split; [done|]. split; [|done].
  eapply Forall_impl; eauto.
Qed.

Lemma bind_run {A B} (m : M W R A) (f : A → M W R B) st :
  bind m f st = match m st with
                | (st', Ok a) => f a st'
                | (st', Err e) => (st', Err e)
                end.
Proof. reflexivity. Qed.

Lemma bind_ok {A B} (m : M W R A) (f : A → M W R B) st st' b :
  bind m f st = (st', Ok b) →
  ∃ st1 a, m st = (st1, Ok a) ∧ f a st1 = (st', Ok b).
Proof.
  rewrite bind_run. destruct (m st) as [st1 [a|e]]; [eauto | discriminate].
Qed.

Lemma bind_err {A B} (m : M W R A) (f : A → M W R B) st st' e :
  bind m f st = (st', Err e) →
  m st = (st', Err e) ∨ ∃ st1 a, m st = (st1, Ok a) ∧ f a st1 = (st', Err e).
Proof.
  rewrite bind_run. destruct (m st) as [st1 [a|e']]; [eauto | left; congruence].
Qed.

(** ** [emits] *)

Lemma emits_mono P Q {A} (m : M W R A) :
  (∀ e, P e → Q e) → emits P m → emits Q m.
Proof. intros H Hm st. eapply extends_mono; eauto. Qed.

Lemma emits_ret P {A} (a : A) : emits P (ret a : M W R A).
Proof. intros st. apply extends_refl. Qed.

Lemma emits_throw P {A} e : emits P (throw e : M W R A).
Proof. intros st. apply extends_refl. Qed.

Lemma emits_lift P {A} (x : outcome A) : emits P (lift x : M W R A).
Proof. intros st. apply extends_refl. Qed.

Lemma emits_get_res P : emits P (get_res : M W R R).
Proof. intros st. apply extends_refl. Qed.

Lemma emits_modify_res P f : emits P (modify_res f : M W R unit).
Proof. intros st. exists []. simpl. rewrite app_nil_r. auto. Qed.

Lemma emits_query P {A} c (ask : W → A) ok :
  (∀ b, P (Event c b)) → emits P (query c ask ok : M W R A).
Proof.
  intros H st. eexists [_]. simpl. split; [done|]. split; [|done].
  constructor; [apply H | constructor].
Qed.

Lemma emits_command P {A} c (run : W → W * A) ok :
  is_mutation c = true → (∀ b, P (Event c b)) → emits P (command c run ok : M W R A).
Proof.
  intros Hc H st. unfold command. destruct (run (world st)) as [w a].
  eexists [_]. simpl. split; [done|]. split.
  - constructor; [apply H | constructor].
  - intros F. inversion F as [|? ? F1 _]; subst. unfold read_only in F1. simpl in F1.
    congruence.
Qed.

Lemma emits_bind P {A B} (m : M W R A) (f : A → M W R B) :
  emits P m → (∀ a, emits P (f a)) → emits P (bind m f).
Proof.
  intros Hm Hf st. rewrite bind_run. specialize (Hm st).
  destruct (m st) as [st1 [a|e]]; [|done].
  eapply extends_trans; [exact Hm | apply Hf].
Qed.

Lemma emits_when P b (m : M W R unit) : emits P m → emits P (when b m).
Proof. destruct b; [done | intros; apply emits_ret]. Qed.

Lemma emits_for_each P {A} (l : list A) (body : A → M W R unit) :
  (∀ x, emits P (body x)) → emits P (for_each l body).
Proof.
  intros H. induction l as [|x l IH]; simpl; [apply emits_ret|].
  apply emits_bind; auto.
Qed.

Lemma emits_collect P {A B} (l : list A) (body : A → M W R B) :
  (∀ x, emits P (body x)) → emits P (collect l body).
Proof.
  intros H. induction l as [|x l IH]; simpl; [apply emits_ret|].
  apply emits_bind; [auto|]. intros b. apply emits_bind; [auto|].
  intros bs. apply emits_ret.
Qed.

(** ** [raises] *)

Lemma raises_mono S T {A} (m : M W R A) :
  (∀ e, S e → T e) → raises S m → raises T m.
Proof. intros H Hm st e He. eauto. Qed.

Lemma raises_ret S {A} (a : A) : raises S (ret a : M W R A).
Proof. intros st e He. discriminate. Qed.

Lemma raises_throw S {A} e : S e → raises S (throw e : M W R A).
Proof. intros H st e' He. simpl in He. congruence. Qed.

Lemma raises_lift S {A} (x : outcome A) : oraises S x → raises S (lift x : M W R A).
Proof. intros H st e He. auto. Qed.

Lemma raises_get_res S : raises S (get_res : M W R R).
Proof. intros st e He. discriminate. Qed.

Lemma raises_modify_res S f : raises S (modify_res f : M W R unit).
Proof. intros st e He. discriminate. Qed.

Lemma raises_query S {A} c (ask : W → A) ok : raises S (query c ask ok : M W R A).
Proof. intros st e He. discriminate. Qed.

Lemma raises_command S {A} c (run : W → W * A) ok : raises S (command c run ok : M W R A).
Proof.
  intros st e He. unfold command in He. destruct (run (world st)). discriminate.
Qed.

Lemma raises_bind S {A B} (m : M W R A) (f : A → M W R B) :
  raises S m → (∀ a, raises S (f a)) → raises S (bind m f).
Proof.
  intros Hm Hf st e. rewrite bind_run. specialize (Hm st).
  destruct (m st) as [st1 [a|e']]; simpl in *.
  - apply Hf.
  - intros [= ->]. auto.
Qed.

Lemma raises_when S b (m : M W R unit) : raises S m → raises S (when b m).
Proof. destruct b; [done | intros; apply raises_ret]. Qed.

Lemma raises_for_each S {A} (l : list A) (body : A → M W R unit) :
  (∀ x, raises S (body x)) → raises S (for_each l body).
Proof.
  intros H. induction l as [|x l IH]; simpl; [apply raises_ret|].
  apply raises_bind; auto.
Qed.

Lemma raises_collect S {A B} (l : list A) (body : A → M W R B) :
  (∀ x, raises S (body x)) → raises S (collect l body).
Proof.
  intros H. induction l as [|x l IH]; simpl; [apply raises_ret|].
  apply raises_bind; [auto|]. intros b. apply raises_bind; [auto|].
  intros bs. apply raises_ret.
Qed.

(** ** [keeps] *)

Lemma keeps_ret {A} (a : A) : keeps (ret a : M W R A).
Proof. done. Qed.

Lemma keeps_throw {A} e : keeps (throw e : M W R A).
Proof. done. Qed.

Lemma keeps_lift {A} (x : outcome A) : keeps (lift x : M W R A).
Proof. done. Qed.

Lemma keeps_get_res : keeps (get_res : M W R R).
Proof. done. Qed.

Lemma keeps_query {A} c (ask : W → A) ok : keeps (query c ask ok : M W R A).
Proof. done. Qed.

Lemma keeps_command {A} c (run : W → W * A) ok : keeps (command c run ok : M W R A).
Proof. intros st. unfold command. by destruct (run (world st)). Qed.

Lemma keeps_bind {A B} (m : M W R A) (f : A → M W R B) :
  keeps m → (∀ a, keeps (f a)) → keeps (bind m f).
Proof.
  intros Hm Hf st. rewrite bind_run. specialize (Hm st).
  destruct (m st) as [st1 [a|e]]; simpl in *; [|done].
  by rewrite Hf.
Qed.

Lemma keeps_when b (m : M W R unit) : keeps m → keeps (when b m).
Proof. by destruct b. Qed.

Lemma keeps_for_each {A} (l : list A) (body : A → M W R unit) :
  (∀ x, keeps (body x)) → keeps (for_each l body).
Proof.
  intros H. induction l as [|x l IH]; simpl; [done|]. apply keeps_bind; auto.
Qed.

Lemma keeps_collect {A B} (l : list A) (body : A → M W R B) :
  (∀ x, keeps (body x)) → keeps (collect l body).
Proof.
  intros H. induction l as [|x l IH]; simpl; [done|].
  apply keeps_bind; [auto|]. intros b. apply keeps_bind; [auto|]. done.
Qed.

(** ** code without effects *)

Lemma oraises_ok S {A} (a : A) : oraises S (Ok a).
Proof. intros e He. discriminate. Qed.

Lemma oraises_err S {A} e : S e → oraises S (Err e : outcome A).
Proof. intros H e' [= <-]. done. Qed.

Lemma oraises_bind S {A B} (x : outcome A) (f : A → outcome B) :
  oraises S x → (∀ a, oraises S (f a)) → oraises S (x ≫= f).
Proof.
  intros Hx Hf e. unfold mbind, outcome_bind, obind.
  destruct x as [a|e']; [apply Hf | intros [= <-]; by apply Hx].
Qed.

Lemma oraises_ofold S {A B} (body : B → A → outcome B) l acc :
  (∀ b a, oraises S (body b a)) → oraises S (ofold body l acc).
Proof.
  intros H. revert acc. induction l as [|x l IH]; intros acc; simpl.
  - apply oraises_ok.
  - apply (oraises_bind S (body acc x) (ofold body l)); auto.
Qed.

Lemma oraises_subscript S {V} (d : gmap string V) k :
  (∀ s, S (PythonException s)) → oraises S (subscript d k).
Proof.
  intros H e. unfold subscript. destruct (d !! k); [discriminate|]. intros [= <-]. apply H.
Qed.

End Rules.


Ltac from_quiet :=
  eapply raises_mono; [| solve [auto with quiet]];
  let e := fresh in intros e; destruct e; simpl; side.

Ltac pure_step :=
  cbv beta;
  lazymatch goal with
  | |- oraises _ (Ok _) => apply oraises_ok
  | |- oraises _ (Err _) => apply oraises_err; side
  | |- oraises _ (mret _) => apply oraises_ok
  | |- oraises _ (mbind _ _) => apply oraises_bind; [|intros ?]
  | |- oraises _ (ofold _ _ _) => apply oraises_ofold; intros ? ?
  | |- oraises _ (subscript _ _) => apply oraises_subscript; side
  | |- oraises _ (match ?x with _ => _ end) => destruct x
  | |- oraises _ ?x => let h := head_of x in unfold h
  end.

Ltac step :=
  cbv beta;
  lazymatch goal with
  | |- emits _ (bind _ _) => apply emits_bind; [|intros ?]
  | |- emits _ (ret _) => apply emits_ret
  | |- emits _ (throw _) => apply emits_throw
  | |- emits _ (lift _) => apply emits_lift
  | |- emits _ get_res => apply emits_get_res
  | |- emits _ (modify_res _) => apply emits_modify_res
  | |- emits _ (query _ _ _) => apply emits_query; side
  | |- emits _ (command _ _ _) => apply emits_command; [reflexivity | side]
  | |- emits _ (when _ _) => apply emits_when
  | |- emits _ (for_each _ _) => apply emits_for_each; intros ?
  | |- emits _ (collect _ _) => apply emits_collect; intros ?
  | |- emits _ (match ?x with _ => _ end) => destruct x
  | |- emits _ ?m =>
      first [ solve [auto with reads]
            | eapply emits_mono; [| solve [auto with reads]]; solve [auto with mono]
            | let h := head_of m in unfold h ]
  | |- raises _ (bind _ _) => apply raises_bind; [|intros ?]
  | |- raises _ (ret _) => apply raises_ret
  | |- raises _ (throw _) => apply raises_throw; side
  | |- raises _ (lift _) => apply raises_lift; repeat pure_step
  | |- raises _ get_res => apply raises_get_res
  | |- raises _ (modify_res _) => apply raises_modify_res
  | |- raises _ (query _ _ _) => apply raises_query
  | |- raises _ (command _ _ _) => apply raises_command
  | |- raises _ (when _ _) => apply raises_when
  | |- raises _ (for_each _ _) => apply raises_for_each; intros ?
  | |- raises _ (collect _ _) => apply raises_collect; intros ?
  | |- raises _ (match ?x with _ => _ end) => destruct x
  | |- raises _ ?m =>
      first [ solve [auto with quiet]
            | from_quiet
            | let h := head_of m in unfold h ]
  | |- keeps (bind _ _) => apply keeps_bind; [|intros ?]
  | |- keeps (ret _) => apply keeps_ret
  | |- keeps (throw _) => apply keeps_throw
  | |- keeps (lift _) => apply keeps_lift
  | |- keeps get_res => apply keeps_get_res
  | |- keeps (query _ _ _) => apply keeps_query
  | |- keeps (command _ _ _) => apply keeps_command
  | |- keeps (when _ _) => apply keeps_when
  | |- keeps (for_each _ _) => apply keeps_for_each; intros ?
  | |- keeps (collect _ _) => apply keeps_collect; intros ?
  | |- keeps (match ?x with _ => _ end) => destruct x
  | |- keeps ?m =>
      first [ solve [auto with keeps]
            | let h := head_of m in unfold h ]
  end.

Ltac steps := repeat step.

Lemma read_only_no_power e : read_only e → no_power e.
Proof. unfold read_only, no_power. by destruct (ev_call e). Qed.

Lemma read_only_no_update e : read_only e → no_update e.
Proof. unfold read_only, no_update. by destruct (ev_call e). Qed.

#[global] Hint Resolve read_only_no_power read_only_no_update : mono.

Section Pieces.
Context {W : Type} (cm : Common) (rm : Remote W).

Lemma reads_get_resource_group {R} rg : emits read_only (get_resource_group (R:=R) rm rg).
Proof. steps. Qed.

Lemma quiet_get_resource_group {R} rg : quiet (get_resource_group (R:=R) rm rg).
Proof. steps. Qed.

Lemma keeps_get_resource_group {R} rg : keeps (get_resource_group (R:=R) rm rg).
Proof. steps. Qed.

(** the virtual network module *)

Lemma reads_vnet_fetch_and_diff p : emits read_only (VNet.fetch_and_diff cm rm p).
Proof. steps. Qed.

Lemma quiet_vnet_diff_existing p vnet :
  oquiet (VNet.diff_existing cm p vnet).
Proof. repeat pure_step. Qed.

Lemma quiet_vnet_fetch_and_diff p : quiet (VNet.fetch_and_diff cm rm p).
Proof. steps. Qed.

(** the virtual machine module *)

Lemma reads_normalize p : emits read_only (VM.normalize rm p).
Proof. steps. Qed.

Lemma keeps_normalize p : keeps (VM.normalize rm p).
Proof. steps. Qed.

Lemma reads_get_network_interface p name :
  emits read_only (VM.get_network_interface rm p name).
Proof. steps. Qed.

Lemma quiet_get_network_interface p name : quiet (VM.get_network_interface rm p name).
Proof. steps. Qed.

Lemma reads_expand_interfaces p ids l :
  emits read_only (VM.expand_interfaces cm rm p ids l).
Proof.
  revert l. induction ids as [|i ids IH]; intros l; simpl; steps.
Qed.

Lemma quiet_expand_interfaces p ids l : quiet (VM.expand_interfaces cm rm p ids l).
Proof.
  revert l. induction ids as [|i ids IH]; intros l; simpl; steps.
Qed.

Hint Resolve reads_expand_interfaces : reads.
Hint Resolve quiet_expand_interfaces : quiet.

Lemma reads_serialize_vm p vm : emits read_only (VM.serialize_vm cm rm p vm).
Proof. steps. Qed.

Lemma quiet_serialize_vm p vm : quiet (VM.serialize_vm cm rm p vm).
Proof. steps. Qed.

Lemma quiet_diff p n d : oquiet (VM.diff cm p n d).
Proof. repeat pure_step. Qed.

Hint Resolve reads_serialize_vm : reads.
Hint Resolve quiet_serialize_vm : quiet.

Lemma reads_fetch_and_diff p n : emits read_only (VM.fetch_and_diff cm rm p n).
Proof. steps. Qed.

Lemma quiet_fetch_and_diff p n : quiet (VM.fetch_and_diff cm rm p n).
Proof. steps. Qed.

Hint Resolve reads_get_resource_group reads_normalize reads_fetch_and_diff
  reads_vnet_fetch_and_diff : reads.
Hint Resolve quiet_fetch_and_diff quiet_vnet_fetch_and_diff : quiet.

Lemma reads_diff_phase p : emits read_only (VM.diff_phase cm rm p).
Proof. steps. Qed.

Lemma reads_vnet_diff_phase p : emits read_only (VNet.diff_phase cm rm p).
Proof. steps. Qed.

End Pieces.

#[global] Hint Resolve reads_get_resource_group reads_vnet_fetch_and_diff reads_normalize
  reads_get_network_interface reads_expand_interfaces reads_serialize_vm
  reads_fetch_and_diff reads_diff_phase reads_vnet_diff_phase : reads.
#[global] Hint Resolve quiet_get_resource_group quiet_vnet_fetch_and_diff
  quiet_get_network_interface quiet_expand_interfaces quiet_serialize_vm
  quiet_fetch_and_diff : quiet.
#[global] Hint Resolve keeps_get_resource_group keeps_normalize : keeps.


Lemma extends_read_only {W R} (st st' : St W R) :
  extends read_only st st' →
  world st' = world st ∧ ∃ t, trace st' = trace st ++ t ∧ Forall read_only t.
Proof. intros (t & E & F & K). split; [auto | eauto]. Qed.

Section CheckMode.
Context {W : Type} (cm : Common) (rm : Remote W).

Lemma vm_check_mode_reads p :
  VM.check_mode p = true → emits read_only (VM.exec_module_impl cm rm p).
Proof. intros Hc. unfold VM.exec_module_impl. rewrite Hc. steps. Qed.

Lemma vnet_check_mode_reads p :
  VNet.check_mode p = true → emits read_only (VNet.exec_module_impl cm rm p).
Proof. intros Hc. unfold VNet.exec_module_impl. rewrite Hc. steps. Qed.

End CheckMode.

Section Guarded.
Context {W R : Type}.

Lemma guarded_of_reads {A} (m : M W R A) : emits read_only m → guarded m.
Proof. intros H st e _ _. apply H. Qed.

Lemma guarded_of_quiet {A} (m : M W R A) : quiet m → guarded m.
Proof. intros H st e He Hv. by apply H in He. Qed.

Lemma guarded_bind_reads {A B} (m : M W R A) (f : A → M W R B) :
  emits read_only m → (∀ a, guarded (f a)) → guarded (bind m f).
Proof.
  intros Hm Hf st e. rewrite bind_run. specialize (Hm st).
  destruct (m st) as [st1 [a|e']]; simpl in *; [|done].
  intros He Hv. eapply extends_trans; [exact Hm | by eapply Hf].
Qed.

Lemma guarded_bind_quiet {A B} (m : M W R A) (f : A → M W R B) :
  guarded m → (∀ a, quiet (f a)) → guarded (bind m f).
Proof.
  intros Hm Hf st e. rewrite bind_run. specialize (Hm st).
  destruct (m st) as [st1 [a|e']]; simpl in *.
  - intros He Hv. by apply Hf in He.
  - intros [= ->] Hv. by eapply Hm.
Qed.

Lemma guarded_when b (m : M W R unit) : guarded m → guarded (when b m).
Proof. destruct b; [done|]. intros _. apply guarded_of_reads, emits_ret. Qed.

Lemma untouched_of_keeps {A} (m : M W R A) : keeps m → untouched m.
Proof. intros H st e _ _. apply H. Qed.

Lemma untouched_of_quiet {A} (m : M W R A) : quiet m → untouched m.
Proof. intros H st e He Hv. by apply H in He. Qed.

Lemma untouched_bind {A B} (m : M W R A) (f : A → M W R B) :
  keeps m → (∀ a, untouched (f a)) → untouched (bind m f).
Proof.
  intros Hm Hf st e. rewrite bind_run. specialize (Hm st).
  destruct (m st) as [st1 [a|e']]; simpl in *; [|done].
  intros He Hv. rewrite <- Hm. by eapply Hf.
Qed.

End Guarded.

Section Apply.
Context {W : Type} (cm : Common) (rm : Remote W).

Lemma quiet_create_or_update_vnet p vnet : quiet (VNet.create_or_update_vnet rm p vnet).
Proof. steps. Qed.

Lemma quiet_delete_virtual_network p : quiet (VNet.delete_virtual_network rm p).
Proof. steps. Qed.

Lemma raises_vnet_apply p location results :
  raises (validation_among [vnet_create_message]) (VNet.apply rm p location results).
Proof.
  pose proof (quiet_create_or_update_vnet p). pose proof (quiet_delete_virtual_network p).
  unfold VNet.apply. steps; simpl; set_solver.
Qed.

Lemma guarded_vnet_apply p location results : guarded (VNet.apply rm p location results).
Proof.
  unfold VNet.apply. destruct (VNet.state_ p).
  - destruct (bool_decide _).
    + destruct (VNet.address_prefixes_cidr p) as [[|]|];
        try (apply guarded_of_reads; solve [steps]).
      apply guarded_of_quiet. steps.
    + apply guarded_of_quiet. steps.
  - apply guarded_of_quiet. steps.
Qed.

Lemma guarded_vnet_exec p : guarded (VNet.exec_module_impl cm rm p).
Proof.
  unfold VNet.exec_module_impl.
  apply guarded_bind_reads; [steps|intros [[location changed] results]].
  apply guarded_bind_reads; [steps|intros _].
  destruct (VNet.check_mode p); [apply guarded_of_reads; steps|].
  apply guarded_bind_quiet; [|intros; steps].
  apply guarded_when, guarded_vnet_apply.
Qed.

(** the virtual machine module *)

Lemma quiet_get_vm p : quiet (VM.get_vm rm p).
Proof. steps. Qed.

Lemma quiet_create_or_update_vm p params : quiet (VM.create_or_update_vm cm rm p params).
Proof. steps. Qed.

Lemma quiet_get_storage_account p name : quiet (VM.get_storage_account rm p name).
Proof. steps. Qed.

Lemma quiet_create_default_storage_account p location :
  quiet (VM.create_default_storage_account cm rm p location).
Proof. steps. Qed.

Lemma quiet_create_default_nic p location : quiet (VM.create_default_nic cm rm p location).
Proof. steps. Qed.

Lemma quiet_create_payload p n nis uri : oquiet (VM.create_payload p n nis uri).
Proof. repeat pure_step. Qed.

Lemma quiet_update_vm p d : quiet (VM.update_vm cm rm p d).
Proof. pose proof (quiet_create_or_update_vm p). steps. Qed.

Lemma quiet_power_step p psc : quiet (VM.power_step cm rm p psc).
Proof. pose proof (quiet_get_vm p). steps. Qed.

Lemma quiet_delete_vm p vm : quiet (VM.delete_vm cm rm p vm).
Proof. steps. Qed.

Lemma raises_validate_create p n :
  oraises (validation_among vm_create_messages) (VM.validate_create p n).
Proof. repeat pure_step; simpl; set_solver. Qed.

Lemma quiet_create_vm_rest p n :
  quiet (network_interfaces <-
           (if Py.truthy_list (VM.network_interface_names p) then ret (VM.n_network_interfaces n)
            else default_nic <- VM.create_default_nic cm rm p (VM.n_location n) ;;
                 ret [nic_id default_nic]) ;;
         requested_vhd_uri <-
           (if Py.truthy_opt (VM.storage_account_name p) then ret (VM.n_requested_vhd_uri n)
            else storage_account <- VM.create_default_storage_account cm rm p (VM.n_location n) ;;
                 ret (Some (VM.vhd_uri_of (sa_name storage_account)
                              (VM.storage_container_name p) (VM.n_storage_blob_name n)))) ;;
         vm_resource <- lift (VM.create_payload p n network_interfaces requested_vhd_uri) ;;
         r <- VM.create_or_update_vm cm rm p vm_resource ;;
         modify_res (VM.set_results r))%exec.
Proof.
  pose proof (quiet_create_default_nic p). pose proof (quiet_create_default_storage_account p).
  pose proof (quiet_create_or_update_vm p). pose proof (quiet_create_payload p n).
  apply raises_bind; [steps|intros nis].
  apply raises_bind; [steps|intros uri].
  apply raises_bind; [apply raises_lift; auto|intros v]. steps.
Qed.

Lemma raises_create_vm p n :
  raises (validation_among vm_create_messages) (VM.create_vm cm rm p n).
Proof.
  unfold VM.create_vm. apply raises_bind; [steps|intros _].
  apply raises_bind; [apply raises_lift, raises_validate_create|intros _].
  eapply raises_mono; [|apply quiet_create_vm_rest]. by intros [].
Qed.

Lemma guarded_create_vm p n : guarded (VM.create_vm cm rm p n).
Proof.
  unfold VM.create_vm. apply guarded_bind_reads; [steps|intros _].
  apply guarded_bind_reads; [steps|intros _].
  apply guarded_of_quiet, quiet_create_vm_rest.
Qed.

Lemma raises_vm_apply p n f :
  raises (validation_among vm_create_messages) (VM.apply cm rm p n f).
Proof.
  pose proof (quiet_update_vm p). pose proof (quiet_power_step p).
  pose proof (quiet_delete_vm p). pose proof (raises_create_vm p n).
  unfold VM.apply. destruct (VM.wants_vm _).
  - apply raises_bind.
    + destruct (VM.f_vm f) as [[]|]; [|done]. steps.
    + intros _. eapply raises_mono; [|auto]. by intros [].
  - eapply raises_mono; [|auto]. by intros [].
Qed.

Lemma guarded_vm_apply p n f : guarded (VM.apply cm rm p n f).
Proof.
  pose proof (quiet_update_vm p).
  unfold VM.apply. destruct (VM.wants_vm _).
  - apply guarded_bind_quiet; [|intros; apply quiet_power_step].
    destruct (VM.f_vm f) as [[]|]; [|apply guarded_create_vm].
    apply guarded_of_quiet. steps.
  - apply guarded_of_quiet, quiet_delete_vm.
Qed.

Lemma guarded_vm_exec p : guarded (VM.exec_module_impl cm rm p).
Proof.
  unfold VM.exec_module_impl.
  apply guarded_bind_reads; [steps|intros [n f]].
  apply guarded_bind_reads; [steps|intros _].
  destruct (VM.check_mode p); [apply guarded_of_reads; steps|].
  apply guarded_bind_quiet; [|intros; steps].
  apply guarded_when, guarded_vm_apply.
Qed.

Lemma untouched_diff_phase p : untouched (VM.diff_phase cm rm p).
Proof.
  unfold VM.diff_phase. apply untouched_bind; [apply keeps_normalize|intros n].
  apply untouched_of_quiet. steps.
Qed.

Lemma untouched_vnet_diff_phase p : untouched (VNet.diff_phase cm rm p).
Proof.
  unfold VNet.diff_phase. apply untouched_bind; [steps|intros loc].
  apply untouched_bind; [steps|intros _].
  apply untouched_of_quiet. steps.
Qed.

End Apply.


#[global] Hint Resolve quiet_create_or_update_vnet quiet_delete_virtual_network quiet_get_vm
  quiet_create_or_update_vm quiet_get_storage_account quiet_create_default_storage_account
  quiet_create_default_nic quiet_update_vm quiet_power_step quiet_delete_vm : quiet.

Section Validation.
Context {W : Type} (cm : Common) (rm : Remote W).

Lemma raises_run {R A} S (m : M W R A) st st' e : raises S m → m st = (st', Err e) → S e.
Proof. intros H E. apply (H st). by rewrite E. Qed.

Lemma keeps_run {R A} (m : M W R A) st st' r : keeps m → m st = (st', r) → res st' = res st.
Proof. intros H E. specialize (H st). by rewrite E in H. Qed.

Lemma guarded_run {R A} (m : M W R A) st st' msg :
  guarded m → m st = (st', Err (ValidationError msg)) →
  world st' = world st ∧ ∃ t, trace st' = trace st ++ t ∧ Forall read_only t.
Proof.
  intros H E. apply extends_read_only. specialize (H st (ValidationError msg)).
  rewrite E in H. apply H; done.
Qed.

Lemma vm_late_validation p n f :
  raises (validation_among vm_create_messages)
    (modify_res (VM.set_outcome (VM.f_changed f) (VM.f_results f)
                   (VM.f_powerstate_change f)) ;;;
     if VM.check_mode p then get_res
     else when (VM.f_changed f) (VM.apply cm rm p n f) ;;; get_res)%exec.
Proof.
  apply raises_bind; [steps|intros _].
  destruct (VM.check_mode p); [steps|].
  apply raises_bind; [|intros; steps].
  apply raises_when, raises_vm_apply.
Qed.

Lemma vnet_late_validation p location changed results :
  raises (validation_among [vnet_create_message])
    (modify_res (λ _, {| VNet.changed := changed; VNet.results := results |}) ;;;
     if VNet.check_mode p then get_res
     else when changed (VNet.apply rm p location results) ;;; get_res)%exec.
Proof.
  apply raises_bind; [steps|intros _].
  destruct (VNet.check_mode p); [steps|].
  apply raises_bind; [|intros; steps].
  apply raises_when, raises_vnet_apply.
Qed.

Lemma untouched_run {R A} (m : M W R A) st st' msg :
  untouched m → m st = (st', Err (ValidationError msg)) → res st' = res st.
Proof.
  intros H E. specialize (H st (ValidationError msg)). rewrite E in H. apply H; done.
Qed.

(** C3 (amended): an invocation of either module that ends in a validation
    failure has issued no mutating call and leaves the subscription as it
    found it.  When the failure is not the lack of a field required to
    create the resource (bad name, bad CIDR, too many DNS servers,
    malformed SSH key entry), the outcome at that point is the initial one:
    [changed] is false and the action log is empty. *)
Theorem validation_failures_precede_mutations :
  (∀ p st st' msg,
      VM.exec_module_impl cm rm p st = (st', Err (ValidationError msg)) →
      (world st' = world st ∧ ∃ t, trace st' = trace st ++ t ∧ Forall read_only t) ∧
      (res st = VM.initial_results → msg ∉ vm_create_messages →
       VM.changed (res st') = false ∧ VM.actions (res st') = [])) ∧
  (∀ p st st' msg,
      VNet.exec_module_impl cm rm p st = (st', Err (ValidationError msg)) →
      (world st' = world st ∧ ∃ t, trace st' = trace st ++ t ∧ Forall read_only t) ∧
      (res st = VNet.initial_results → msg ≠ vnet_create_message →
       VNet.changed (res st') = false)).
Proof.
  split; intros p st st' msg E.
  - split; [eapply guarded_run; [apply guarded_vm_exec | exact E]|].
    intros Hinit Hmsg. unfold VM.exec_module_impl in E.
    apply bind_err in E as [E|(st1 & [n f] & _ & E)].
    + apply untouched_run in E; [|apply untouched_diff_phase]. by rewrite E, Hinit.
    + apply (raises_run _ _ _ _ _ (vm_late_validation p n f)) in E. done.
  - split; [eapply guarded_run; [apply guarded_vnet_exec | exact E]|].
    intros Hinit Hmsg. unfold VNet.exec_module_impl in E.
    apply bind_err in E as [E|(st1 & [[location changed] results] & _ & E)].
    + apply untouched_run in E; [|apply untouched_vnet_diff_phase]. by rewrite E, Hinit.
    + apply (raises_run _ _ _ _ _ (vnet_late_validation p location changed results)) in E.
      simpl in E. by apply list_elem_of_singleton in E.
Qed.

(** C5: with check mode enabled an invocation of either module issues reads
    only and leaves the subscription as it found it; when it returns, what
    it returns is the outcome computed by the phase that fetches and
    compares, and nothing is done after that phase. *)
Theorem check_mode_never_mutates :
  (∀ p st,
      VM.check_mode p = true →
      let run := VM.exec_module_impl cm rm p st in
      (world run.1 = world st ∧ ∃ t, trace run.1 = trace st ++ t ∧ Forall read_only t) ∧
      ∀ out, run.2 = Ok out →
        ∃ st1 n f,
          VM.diff_phase cm rm p st = (st1, Ok (n, f)) ∧
          out = VM.set_outcome (VM.f_changed f) (VM.f_results f)
                  (VM.f_powerstate_change f) (res st1) ∧
          run.1 = mkSt (world st1) (trace st1) out) ∧
  (∀ p st,
      VNet.check_mode p = true →
      let run := VNet.exec_module_impl cm rm p st in
      (world run.1 = world st ∧ ∃ t, trace run.1 = trace st ++ t ∧ Forall read_only t) ∧
      ∀ out, run.2 = Ok out →
        ∃ st1 location changed results,
          VNet.diff_phase cm rm p st = (st1, Ok (location, changed, results)) ∧
          out = {| VNet.changed := changed; VNet.results := results |} ∧
          run.1 = mkSt (world st1) (trace st1) out).
Proof.
  split; intros p st Hc run.
  - split; [apply extends_read_only, vm_check_mode_reads, Hc|].
    intros out. subst run. unfold VM.exec_module_impl. rewrite Hc, bind_run.
    destruct (VM.diff_phase cm rm p st) as [st1 [[n f]|e]] eqn:E1; [|done].
    simpl. intros [= <-]. by exists st1, n, f.
  - split; [apply extends_read_only, vnet_check_mode_reads, Hc|].
    intros out. subst run. unfold VNet.exec_module_impl. rewrite Hc, bind_run.
    destruct (VNet.diff_phase cm rm p st) as [st1 [[[location changed] results]|e]] eqn:E1;
      [|done].
    simpl. intros [= <-]. by exists st1, location, changed, results.
Qed.

End Validation.

Section Cascades.
Context {W R : Type}.

Lemma mutations_app t1 t2 : mutations (t1 ++ t2) = mutations t1 ++ mutations t2.
Proof. unfold mutations. by rewrite filter_app, map_app. Qed.

Lemma cascades_ret {A} (a : A) : cascades [] (ret a : M W R A).
Proof. intros st. exists []. simpl. rewrite app_nil_r. repeat split; constructor. Qed.

Lemma cascades_modify_res f : cascades [] (modify_res f : M W R unit).
Proof. intros st. exists []. simpl. rewrite app_nil_r. repeat split; constructor. Qed.

Lemma cascades_throw cs {A} e : cascades cs (throw e : M W R A).
Proof.
  intros st. exists []. simpl. rewrite app_nil_r. split; [done|]. split.
  - apply prefix_nil.
  - left. constructor.
Qed.

Lemma cascades_bind cs1 cs2 {A B} (m : M W R A) (f : A → M W R B) :
  cascades cs1 m → (∀ a, cascades cs2 (f a)) → cascades (cs1 ++ cs2) (bind m f).
Proof.
  intros Hm Hf st. rewrite bind_run. destruct (Hm st) as (t1 & E1 & F1).
  destruct (m st) as [st1 [a|e]]; simpl in *.
  - destruct F1 as [S1 M1]. destruct (Hf a st1) as (t2 & E2 & F2).
    exists (t1 ++ t2). rewrite E2, E1, app_assoc. split; [done|].
    destruct ((f a st1).2) as [b|e]; simpl in *.
    + destruct F2 as [S2 M2]. split; [by apply Forall_app|].
      by rewrite mutations_app, M1, M2.
    + destruct F2 as [P2 L2]. split.
      * rewrite mutations_app, M1. by apply prefix_app.
      * destruct L2 as [S2|(t0 & e0 & -> & S0 & B0)].
        -- left. by apply Forall_app.
        -- right. exists (t1 ++ t0), e0. rewrite app_assoc. split; [done|].
           split; [by apply Forall_app|done].
  - exists t1. split; [done|]. destruct F1 as [P1 L1]. split; [|done].
    by apply prefix_app_r.
Qed.

Lemma cascades_bind_lift cs {A B} (x : outcome A) (f : A → M W R B) :
  (∀ a, x = Ok a → cascades cs (f a)) → cascades cs (bind (lift x) f).
Proof.
  intros Hf st. rewrite bind_run. unfold lift. destruct x as [a|e].
  - by apply Hf.
  - exists []. simpl. rewrite app_nil_r. split; [done|]. split; [apply prefix_nil|].
    left. constructor.
Qed.

(** a mutation whose failure is fatal *)
Lemma cascades_command c (run : W → W * bool) e :
  is_mutation c = true →
  cascades [c] (bind (command c run id) (λ ok : bool, if ok then ret tt else throw e)
                : M W R unit).
Proof.
  intros Hc st. rewrite bind_run. unfold command. destruct (run (world st)) as [w [|]].
  - eexists [_]. simpl. split; [done|]. split.
    + by repeat constructor.
    + unfold mutations. rewrite filter_cons_True by done. done.
  - eexists [_]. simpl. split; [done|]. split.
    + unfold mutations. rewrite filter_cons_True by done. done.
    + right. exists [], (Event c false). by repeat constructor.
Qed.

(** a read whose failure is fatal *)
Lemma cascades_query cs c (ask : W → bool) e (k : M W R unit) :
  is_mutation c = false →
  cascades cs k →
  cascades cs (bind (query c ask id) (λ ok : bool, if ok then k else throw e)).
Proof.
  intros Hc Hk st. rewrite bind_run. unfold query. simpl.
  assert (Hm : ∀ b, mutations [Event c b] = []).
  { intros b. unfold mutations. rewrite filter_cons_False; [done|]. simpl. congruence. }
  destruct (ask (world st)).
  - match goal with |- context [k ?s] => destruct (Hk s) as (t & E & F) end.
    exists ([Event c true] ++ t). split; [rewrite E; simpl; by rewrite <- app_assoc|].
    destruct ((k _).2).
    + destruct F as [S1 M1]. split; [by constructor|]. by rewrite mutations_app, Hm.
    + destruct F as [P1 L1]. split; [by rewrite mutations_app, Hm|].
      destruct L1 as [S1|(t0 & e0 & -> & S0 & B0)].
      * left. by constructor.
      * right. exists (Event c true :: t0), e0. split; [done|]. split; [by constructor|done].
  - eexists [_]. simpl. split; [done|]. split.
    + rewrite Hm. apply prefix_nil.
    + right. exists [], (Event c false). by repeat constructor.
Qed.

Lemma cascades_when (cs : list call) (b : bool) (m : M W R unit) :
  cascades cs m → cascades (if b then cs else []) (when b m).
Proof. destruct b; [done|]. intros _. apply cascades_ret. Qed.

Lemma cascades_for_each {A} (g : A → list call) (l : list A) (body : A → M W R unit) :
  (∀ x, cascades (g x) (body x)) → cascades (flat_map g l) (for_each l body).
Proof.
  intros H. induction l as [|x l IH]; simpl; [apply cascades_ret|].
  apply cascades_bind; auto.
Qed.

End Cascades.

Section DeleteVM.
Context {W : Type} (cm : Common) (rm : Remote W) (p : VM.Params).

Lemma cascades_log_action a : cascades [] (VM.log_action (W:=W) a).
Proof. apply cascades_modify_res. Qed.

Lemma cascades_delete_nic name :
  cascades [NetworkInterfacesDelete (VM.resource_group p) name] (VM.delete_nic rm p name).
Proof.
  unfold VM.delete_nic. apply (cascades_bind [] [_]); [apply cascades_log_action|intros _].
  by apply cascades_command.
Qed.

Lemma cascades_delete_pip name :
  cascades [PublicIPAddressesDelete (VM.resource_group p) name] (VM.delete_pip rm p name).
Proof.
  unfold VM.delete_pip. apply (cascades_bind [] [_]); [apply cascades_log_action|intros _].
  by apply cascades_command.
Qed.

Lemma cascades_delete_vm_storage vhd_uris :
  cascades (blob_calls vhd_uris) (VM.delete_vm_storage rm p vhd_uris).
Proof.
  unfold VM.delete_vm_storage, blob_calls. apply cascades_for_each. intros uri.
  apply cascades_bind_lift. intros [[account container] blob] ->.
  apply cascades_query; [done|].
  apply (cascades_bind [] [_]); [apply cascades_log_action|intros _].
  by apply cascades_command.
Qed.

Lemma flat_map_singleton {A B} (f : A → B) (l : list A) : flat_map (λ x, [f x]) l = map f l.
Proof. induction l; simpl; congruence. Qed.

Lemma cascades_delete_vm_apply vhd_uris nic_names pip_names :
  VM.delete_virtual_storage p = true →
  VM.delete_network_interfaces p = true →
  VM.delete_public_ips p = true →
  cascades (cascade p vhd_uris nic_names pip_names)
           (VM.delete_vm_apply rm p vhd_uris nic_names pip_names).
Proof.
  intros H1 H2 H3. unfold VM.delete_vm_apply, cascade. rewrite H1, H2, H3.
  apply (cascades_bind [] (_ :: _)); [apply cascades_log_action|intros _].
  intros st. rewrite bind_run. unfold command.
  destruct (virtual_machines_delete rm (world st) _ _) as [w [|]].
  - match goal with |- context [bind ?m ?f ?s] =>
      assert (Hk : cascades (blob_calls vhd_uris
                     ++ map (NetworkInterfacesDelete (VM.resource_group p)) nic_names
                     ++ map (PublicIPAddressesDelete (VM.resource_group p)) pip_names)
                    (bind m f))
    end.
    { apply cascades_bind; [apply (cascades_when _ true), cascades_delete_vm_storage|intros _].
      apply cascades_bind; [|intros _].
      - apply (cascades_when _ true). rewrite <- flat_map_singleton.
        apply cascades_for_each, cascades_delete_nic.
      - apply (cascades_when _ true). rewrite <- flat_map_singleton.
        apply cascades_for_each, cascades_delete_pip. }
    match goal with |- context [bind ?m ?f ?s] => destruct (Hk s) as (t & E & F) end.
    exists (Event (VirtualMachinesDelete (VM.resource_group p) (VM.name p)) true :: t).
    rewrite E. simpl. rewrite <- app_assoc. split; [done|].
    assert (Hm : ∀ t', mutations (Event (VirtualMachinesDelete (VM.resource_group p)
                                           (VM.name p)) true :: t')
                       = VirtualMachinesDelete (VM.resource_group p) (VM.name p)
                         :: mutations t').
    { intros t'. unfold mutations. by rewrite filter_cons_True. }
    destruct ((bind _ _ _).2); simpl in *.
    + destruct F as [S1 M1]. split; [by constructor|]. by rewrite Hm, M1.
    + destruct F as [P1 L1]. split; [rewrite Hm; by apply prefix_cons|].
      destruct L1 as [S1|(t0 & e0 & -> & S0 & B0)].
      * left. by constructor.
      * right. eexists (_ :: t0), e0. split; [done|]. split; [by constructor|done].
  - eexists [_]. simpl. split; [done|]. split.
    + unfold mutations. rewrite filter_cons_True by done. simpl.
      apply prefix_cons, prefix_nil.
    + right. eexists [], _. by repeat constructor.
Qed.

End DeleteVM.


Section CascadeTheorem.
Context {W : Type} (cm : Common) (rm : Remote W).

Lemma reads_delete_vm_collect p vm : emits read_only (VM.delete_vm_collect cm rm p vm).
Proof. steps. Qed.

Lemma collect_lift {R A B} (f : A → outcome B) (l : list A) (st st' : St W R) bs :
  collect l (λ x, lift (f x)) st = (st', Ok bs) → Forall2 (λ x b, f x = Ok b) l bs.
Proof.
  revert st st' bs. induction l as [|x l IH]; intros st st' bs; simpl.
  - intros [= _ <-]. constructor.
  - intros (st1 & b & E1 & E)%bind_ok. apply bind_ok in E as (st2 & bs' & E2 & E).
    injection E as _ <-. unfold lift in E1. injection E1 as -> E1.
    constructor; [done | by eapply IH].
Qed.

Lemma subscript_ok {V} (d : gmap string V) k v : subscript d k = Ok v → d !! k = Some v.
Proof. unfold subscript. destruct (d !! k); [congruence | discriminate]. Qed.

Lemma delete_vm_collect_noted p vm st st1 vhd_uris nic_names pip_names :
  VM.delete_virtual_storage p = true →
  VM.delete_network_interfaces p = true →
  VM.delete_vm_collect cm rm p (Some vm) st = (st1, Ok (vhd_uris, nic_names, pip_names)) →
  vhd_uris = [disk_vhd_uri (vm_os_disk vm)] ∧
  Forall2 (λ id name, azure_id_to_dict cm id !! "networkInterfaces" = Some name)
          (vm_network_interfaces vm) nic_names.
Proof.
  intros H1 H2. unfold VM.delete_vm_collect. rewrite H1, H2.
  intros (st2 & v & E1 & E)%bind_ok.
  apply bind_ok in E1 as (st3 & [] & _ & E1). injection E1 as _ <-.
  apply bind_ok in E as (st4 & names & En & E).
  apply collect_lift in En.
  assert (nic_names = names ∧ vhd_uris = [disk_vhd_uri (vm_os_disk vm)]) as [-> ->].
  { apply bind_ok in E as (st5 & [] & _ & E). destruct (VM.delete_public_ips p).
    - apply bind_ok in E as (st6 & pips & _ & E).
      apply bind_ok in E as (st7 & [] & _ & E). by injection E as _ <- <- _.
    - by injection E as _ <- <- _. }
  split; [done|]. eapply Forall2_impl; [exact En|]. intros id name. apply subscript_ok.
Qed.


End CascadeTheorem.

Section DiffFacts.
Context (cm : Common) (p : VM.Params) (n : VM.Normalized).

Lemma same_immutables_refl d : same_immutables d d.
Proof. by repeat split. Qed.

Lemma same_immutables_trans d1 d2 d3 :
  same_immutables d1 d2 → same_immutables d2 d3 → same_immutables d1 d3.
Proof. unfold same_immutables. intros (?&?&?&?) (?&?&?&?). repeat split; congruence. Qed.

Lemma diff_step_ok_refl acc : diff_step_ok acc acc.
Proof. split; [apply same_immutables_refl | done]. Qed.

Lemma diff_step_ok_trans a b c : diff_step_ok a b → diff_step_ok b c → diff_step_ok a c.
Proof.
  intros [H1 K1] [H2 K2]. split; [by eapply same_immutables_trans | auto].
Qed.

Lemma known_snoc l x :
  x ∈ known_differences →
  Forall (λ x, x ∈ known_differences) l → Forall (λ x, x ∈ known_differences) (l ++ [x]).
Proof. intros Hx Hl. apply Forall_app. split; [done | by constructor]. Qed.

Ltac known_step :=
  split;
  [ by repeat split
  | simpl; let H := fresh in
    intros H;
    first [ exact H
          | apply known_snoc; [unfold known_differences; set_solver | exact H] ] ].

Ltac diff_step :=
  repeat match goal with
         | |- context [match ?x with _ => _ end] => destruct x
         end;
  known_step.

Lemma diff_network_interfaces_ok acc : diff_step_ok acc (VM.diff_network_interfaces p n acc).
Proof. unfold VM.diff_network_interfaces. destruct acc as [d l]. diff_step. Qed.

Lemma diff_vm_size_ok acc : diff_step_ok acc (VM.diff_vm_size p acc).
Proof. unfold VM.diff_vm_size. destruct acc as [d l]. diff_step. Qed.

Lemma diff_os_disk_caching_ok acc : diff_step_ok acc (VM.diff_os_disk_caching p acc).
Proof. unfold VM.diff_os_disk_caching. destruct acc as [d l]. diff_step. Qed.

Lemma diff_tags_ok acc : diff_step_ok acc (VM.diff_tags cm p acc).
Proof. unfold VM.diff_tags. destruct acc as [d l]. diff_step. Qed.

Lemma diff_short_hostname_ok acc : diff_step_ok acc (VM.diff_short_hostname p acc).
Proof. unfold VM.diff_short_hostname. destruct acc as [d l]. diff_step. Qed.

Lemma obind_ok {A B} (x : outcome A) (f : A → outcome B) b :
  x ≫= f = Ok b → ∃ a, x = Ok a ∧ f a = Ok b.
Proof. destruct x as [a|e]; [eauto | discriminate]. Qed.

Lemma diff_image_ok acc acc' : VM.diff_image n acc = Ok acc' → diff_step_ok acc acc'.
Proof.
  unfold VM.diff_image. destruct acc as [d l].
  destruct (VM.truthy_dict _); [|intros [= <-]; apply diff_step_ok_refl].
  intros (pub & _ & E)%obind_ok.
  apply obind_ok in E as ([d1 l1] & E1 & E).
  assert (diff_step_ok (d, l) (d1, l1)) as H1.
  { repeat match type of E1 with
           | (if ?b then _ else _) = _ => destruct b
           | _ ≫= _ = Ok _ => apply obind_ok in E1 as (? & _ & E1)
           end;
      injection E1 as <- <-; known_step. }
  eapply diff_step_ok_trans; [exact H1|].
  apply obind_ok in E as (ver & _ & E).
  match type of E with (if ?b then _ else _) = _ => destruct b end;
    injection E as <-; known_step.
Qed.

Lemma diff_ok d r :
  VM.diff cm p n d = Ok r →
  same_immutables d (VM.dict r) ∧
  Forall (λ x, x ∈ known_differences) (VM.diffs r) ∧
  VM.diff_powerstate_change r = VM.diff_power_state p (VM.dict r) ∧
  VM.diff_changed r = match VM.diffs r, VM.diff_powerstate_change r with
                      | [], None => false
                      | _, _ => true
                      end.
Proof.
  unfold VM.diff. intros (acc & E1 & E)%obind_ok.
  apply diff_image_ok in E1.
  pose proof (diff_step_ok_trans _ _ _
                (diff_step_ok_trans _ _ _ (diff_network_interfaces_ok (d, []))
                   (diff_vm_size_ok _)) E1) as H1.
  pose proof (diff_step_ok_trans _ _ _
                (diff_step_ok_trans _ _ _ (diff_os_disk_caching_ok acc) (diff_tags_ok _))
                (diff_short_hostname_ok _)) as H2.
  pose proof (diff_step_ok_trans _ _ _ H1 H2) as [H K].
  destruct (VM.diff_short_hostname p _) as [d' l']. injection E as <-. simpl in *.
  repeat split; try apply H; auto.
Qed.

Lemma update_payload_carries d :
  carries (VM.d_osProfile d) (VM.d_osDisk d) (VM.update_payload d).
Proof. by repeat split. Qed.

Lemma carries_same d d' payload :
  same_immutables d d' →
  carries (VM.d_osProfile d') (VM.d_osDisk d') payload →
  carries (VM.d_osProfile d) (VM.d_osDisk d) payload.
Proof.
  unfold same_immutables, carries. intros (_ & -> & -> & ->). done.
Qed.

Lemma diff_ignores_immutables u pw account container blob uri d :
  VM.diff cm (with_immutables u pw account container blob p)
             (with_requested_vhd_uri uri blob n) d
  = VM.diff cm p n d.
Proof. reflexivity. Qed.

End DiffFacts.

Ltac weaken_reads :=
  eapply emits_mono; [| solve [auto with reads]]; solve [auto with mono].

Section Runs.
Context {W : Type} (cm : Common) (rm : Remote W).

Lemma emits_run {R A} P (m : M W R A) st st' r :
  emits P m → m st = (st', r) → ∃ t, trace st' = trace st ++ t ∧ Forall P t.
Proof.
  intros H E. destruct (H st) as (t & Et & F & _). rewrite E in Et. eauto.
Qed.

Lemma reads_run {R A} (m : M W R A) st st' r :
  emits read_only m → m st = (st', r) →
  world st' = world st ∧ ∃ t, trace st' = trace st ++ t ∧ Forall read_only t.
Proof.
  intros H E. apply extends_read_only. specialize (H st). by rewrite E in H.
Qed.

Lemma power_calls_app t1 t2 : power_calls (t1 ++ t2) = power_calls t1 ++ power_calls t2.
Proof. unfold power_calls. by rewrite filter_app, map_app. Qed.

Lemma power_calls_nil t : Forall no_power t → power_calls t = [].
Proof.
  unfold power_calls. induction 1 as [|e t He _ IH]; [done|].
  rewrite filter_cons_False; [done|]. unfold no_power in He. congruence.
Qed.

Lemma power_calls_reads t : Forall read_only t → power_calls t = [].
Proof.
  intros H. apply power_calls_nil. eapply Forall_impl; [exact H|].
  apply read_only_no_power.
Qed.

Lemma reads_get_vm p : emits read_only (VM.get_vm rm p).
Proof. steps. Qed.

Hint Resolve reads_get_vm : reads.

Lemma no_power_create_or_update_vm p params :
  emits no_power (VM.create_or_update_vm cm rm p params).
Proof. steps. Qed.

Lemma no_power_update_vm p d : emits no_power (VM.update_vm cm rm p d).
Proof. pose proof (no_power_create_or_update_vm p). unfold VM.update_vm. steps. Qed.

Lemma no_power_delete_vm p vm : emits no_power (VM.delete_vm cm rm p vm).
Proof. steps. Qed.

Lemma no_power_create_vm p n : emits no_power (VM.create_vm cm rm p n).
Proof. pose proof (no_power_create_or_update_vm p). steps. Qed.

Lemma no_update_delete_vm p vm : emits no_update (VM.delete_vm cm rm p vm).
Proof. steps. Qed.

Lemma no_update_power_step p psc : emits no_update (VM.power_step cm rm p psc).
Proof. unfold VM.power_step. steps; weaken_reads. Qed.

(** what the serialized machine has of the fetched one *)
Lemma serialize_vm_ok p vm st st' d :
  VM.serialize_vm cm rm p vm st = (st', Ok d) →
  VM.d_power_state d = VM.power_state_of (vm_statuses vm) ∧
  VM.d_osProfile d = vm_os_profile vm ∧
  VM.d_osDisk d = vm_os_disk vm.
Proof.
  unfold VM.serialize_vm. intros (st1 & l1 & _ & E)%bind_ok.
  apply bind_ok in E as (st2 & l2 & _ & E).
  destruct (_ && _); [discriminate|]. by injection E as _ <-.
Qed.

(** the comparison of a machine that exists *)
Lemma fetch_and_diff_found p n st st' f vm :
  virtual_machines_get rm (world st) (VM.resource_group p) (VM.name p) = Found vm →
  VM.fetch_and_diff cm rm p n st = (st', Ok f) →
  ∃ d0,
    VM.d_power_state d0 = VM.power_state_of (vm_statuses vm) ∧
    VM.d_osProfile d0 = vm_os_profile vm ∧
    VM.d_osDisk d0 = vm_os_disk vm ∧
    if VM.wants_vm (VM.state_ p) then
      ∃ r, VM.diff cm p n d0 = Ok r ∧
           f = {| VM.f_vm := Some (vm, VM.dict r); VM.f_results := Some (VM.dict r);
                  VM.f_changed := VM.diff_changed r;
                  VM.f_powerstate_change := VM.diff_powerstate_change r |} ∧
           VM.differences (res st') = Some (VM.diffs r)
    else
      f = {| VM.f_vm := Some (vm, d0); VM.f_results := None; VM.f_changed := true;
             VM.f_powerstate_change := None |}.
Proof.
  intros Hvm. unfold VM.fetch_and_diff. intros (st1 & r & E1 & E)%bind_ok.
  unfold query in E1. injection E1 as <- <-. rewrite Hvm in E.
  apply bind_ok in E as (st2 & [] & _ & E).
  apply bind_ok in E as (st3 & d0 & Es & E).
  destruct (serialize_vm_ok _ _ _ _ _ Es) as (H1 & H2 & H3).
  exists d0. repeat split; try done.
  destruct (VM.wants_vm _).
  - apply bind_ok in E as (st4 & r & Ed & E). unfold lift in Ed. injection Ed as <- Ed.
    apply bind_ok in E as (st5 & [] & Em & E). injection Em as <-. injection E as <- <-.
    by exists r.
  - by injection E as _ <-.
Qed.

Lemma power_calls_for_expected p d :
  power_calls_for p (VM.diff_power_state p d) (Some d)
  = expected_power_calls p (VM.d_power_state d).
Proof.
  unfold power_calls_for, expected_power_calls, VM.diff_power_state.
  destruct (VM.state_ p), (bool_decide (VM.d_power_state d = Some "running")); done.
Qed.

Lemma power_calls_for_cases p d cur :
  power_calls_for p (VM.diff_power_state p d) cur = [] ∨
  power_calls_for p (VM.diff_power_state p d) cur
  = expected_power_calls p (VM.d_power_state d).
Proof.
  unfold power_calls_for, expected_power_calls, VM.diff_power_state.
  destruct cur as [cur|]; [|by left].
  destruct (VM.state_ p), (bool_decide (VM.d_power_state d = Some "running")),
    (bool_decide (VM.d_power_state cur = Some "running")); simpl; auto.
Qed.

Lemma power_step_ok p psc st st' :
  VM.power_step cm rm p psc st = (st', Ok tt) →
  ∃ t, trace st' = trace st ++ t ∧ power_calls t = power_calls_for p psc (VM.results (res st)).
Proof.
  assert (Hreads : ∀ s s' u,
             (vm <- VM.get_vm rm p ;; r <- VM.serialize_vm cm rm p vm ;;
              modify_res (VM.set_results r))%exec s = (s', u) →
             ∃ t, trace s' = trace s ++ t ∧ power_calls t = []).
  { intros s s' u E. eapply emits_run in E as (t & Et & F); [|steps].
    exists t. split; [done|]. by apply power_calls_reads. }
  unfold VM.power_step, power_calls_for. rewrite bind_run. simpl.
  destruct (VM.results (res st)) as [cur|].
  - destruct (bool_decide (psc = Some "poweron") && _).
    + intros (st1 & [] & E1 & E)%bind_ok. apply Hreads in E as (t & Et & Ht).
      unfold VM.power_on_vm, VM.log_action in E1.
      apply bind_ok in E1 as (st0 & [] & E0 & E1). injection E0 as <-.
      apply bind_ok in E1 as (st2 & ok & Ec & E1). unfold command in Ec. simpl in Ec.
      destruct (virtual_machines_start rm _ _ _) as [w b]. injection Ec as <- <-.
      destruct b; [|discriminate]. injection E1 as <-.
      eexists (_ :: t). rewrite Et. simpl. rewrite <- app_assoc. split; [done|].
      unfold power_calls in *. rewrite filter_cons_True by done. simpl. by rewrite Ht.
    + destruct (bool_decide (psc = Some "poweroff") && _).
      * intros (st1 & [] & E1 & E)%bind_ok. apply Hreads in E as (t & Et & Ht).
        unfold VM.power_off_vm, VM.log_action in E1.
        apply bind_ok in E1 as (st0 & [] & E0 & E1). injection E0 as <-.
        apply bind_ok in E1 as (st2 & ok & Ec & E1). unfold command in Ec. simpl in Ec.
        destruct (virtual_machines_power_off rm _ _ _) as [w b]. injection Ec as <- <-.
        destruct b; [|discriminate]. injection E1 as <-.
        eexists (_ :: t). rewrite Et. simpl. rewrite <- app_assoc. split; [done|].
        unfold power_calls in *. rewrite filter_cons_True by done. simpl. by rewrite Ht.
      * intros [= <-]. exists []. by rewrite app_nil_r.
  - destruct (_ || _); [discriminate|]. intros [= <-]. exists []. by rewrite app_nil_r.
Qed.

End Runs.

Section PowerTheorem.
Context {W : Type} (cm : Common) (rm : Remote W).

Lemma bind_any {R A B} (m : M W R A) (f : A → M W R B) st st' r :
  bind m f st = (st', r) →
  (∃ e, m st = (st', Err e) ∧ r = Err e) ∨
  (∃ st1 a, m st = (st1, Ok a) ∧ f a st1 = (st', r)).
Proof.
  rewrite bind_run. destruct (m st) as [st1 [a|e]]; [eauto|].
  intros [= <- <-]. eauto.
Qed.

Lemma update_vm_event p d st st' r :
  VM.update_vm cm rm p d st = (st', r) →
  ∃ b t, trace st' = trace st
                     ++ Event (VirtualMachinesCreateOrUpdate (VM.resource_group p) (VM.name p)
                                 (VM.update_payload d)) b :: t.
Proof.
  unfold VM.update_vm, VM.log_action.
  intros [(e & E & _)|(st1 & [] & E1 & E)]%bind_any; [discriminate|].
  injection E1 as <-.
  assert (∃ s2 x, VM.create_or_update_vm cm rm p (VM.update_payload d)
                    (mkSt (world st) (trace st)
                       (VM.add_action ("Updated VM " +:+ VM.name p) (res st))) = (s2, x)
                  ∧ trace st' = trace s2) as (s2 & x & E2 & ->).
  { apply bind_any in E as [(e & E & _)|(s2 & a & E2 & E)]; [eauto|].
    injection E as <- _. eauto. }
  clear E. unfold VM.create_or_update_vm in E2.
  apply bind_any in E2 as [(e & E & _)|(s3 & ok & Ec & E)].
  { unfold command in E. destruct (virtual_machines_create_or_update _ _ _ _ _).
    discriminate. }
  unfold command in Ec. simpl in Ec.
  destruct (virtual_machines_create_or_update _ _ _ _ _) as [w b]. injection Ec as <- <-.
  assert (emits read_only (if b then (vm <- VM.get_vm rm p ;; VM.serialize_vm cm rm p vm)%exec
                           else throw (RemoteOperationError
                                         ("Error creating or updating virtual machine "
                                          +:+ VM.name p)))) as Hm by steps.
  eapply emits_run in E as (t & Et & _); [|exact Hm].
  exists b, t. rewrite Et. simpl. by rewrite <- app_assoc.
Qed.

Lemma expected_of_none p d :
  VM.diff_power_state p d = None → expected_power_calls p (VM.d_power_state d) = [].
Proof.
  intros H. rewrite <- power_calls_for_expected, H. unfold power_calls_for. simpl.
  done.
Qed.


End PowerTheorem.

Section ImmutableTheorem.
Context {W : Type} (cm : Common) (rm : Remote W).

Lemma no_update_carries vm e : no_update e → update_carries vm e.
Proof.
  unfold no_update, update_carries. intros H g nm payload E. rewrite E in H. destruct H.
Qed.

Lemma emits_update_vm p vm d :
  carries (vm_os_profile vm) (vm_os_disk vm) (VM.update_payload d) →
  emits (update_carries vm) (VM.update_vm cm rm p d).
Proof.
  intros Hc. unfold VM.update_vm, VM.create_or_update_vm.
  apply emits_bind; [steps|intros _].
  apply emits_bind; [|intros r; steps].
  apply emits_bind.
  - apply emits_command; [done|]. intros b g nm payload [= _ _ <-]. exact Hc.
  - intros [|]; [|steps].
    eapply emits_mono; [apply no_update_carries|].
    eapply emits_mono; [apply read_only_no_update|]. steps.
Qed.

Lemma emits_apply_found p n vm d psc c :
  carries (vm_os_profile vm) (vm_os_disk vm) (VM.update_payload d) →
  emits (update_carries vm)
    (VM.apply cm rm p n {| VM.f_vm := Some (vm, d); VM.f_results := c;
                           VM.f_changed := true; VM.f_powerstate_change := psc |}).
Proof.
  intros Hc. unfold VM.apply. simpl. destruct (VM.wants_vm _).
  - apply emits_bind.
    + apply emits_bind; [steps|intros o].
      destruct (VM.differences o) as [[|]|]; [steps | by apply emits_update_vm | steps].
    + intros _. eapply emits_mono; [apply no_update_carries|]. apply no_update_power_step.
  - eapply emits_mono; [apply no_update_carries|]. apply no_update_delete_vm.
Qed.

Lemma apply_ignores_immutables p n n' f u pw account container blob :
  is_Some (VM.f_vm f) →
  VM.apply cm rm (with_immutables u pw account container blob p) n' f
  = VM.apply cm rm p n f.
Proof. intros [[vm d] H]. unfold VM.apply. rewrite H. reflexivity. Qed.


End ImmutableTheorem.

(** * The modules on concrete inputs *)

Section Names.

Lemma contains_char_cons c d s :
  Py.contains_char c (String d s) = Ascii.eqb c d || Py.contains_char c s.
Proof. reflexivity. Qed.

Lemma hyphen_no_name_char c :
  VNet.name_char c = true ∨ VNet.name_last_char c = true ∨ c = Py.newline →
  Ascii.eqb "-" c = false.
Proof.
  intros H. destruct (Ascii.eqb_spec "-"%char c) as [<-|]; [|done].
  destruct H as [H|[H|H]]; by vm_compute in H.
Qed.

Lemma at_end_no_hyphen s : VNet.at_end s = true → Py.contains_char "-" s = false.
Proof.
  destruct s as [|c [|d s]]; [done| |done].
  intros H. change (Ascii.eqb c Py.newline = true) in H. apply Ascii.eqb_eq in H.
  rewrite contains_char_cons, hyphen_no_name_char by auto. done.
Qed.

Lemma match_last_no_hyphen s : VNet.match_last s = true → Py.contains_char "-" s = false.
Proof.
  destruct s as [|c rest]; [done|].
  intros H. change (VNet.name_last_char c && VNet.at_end rest = true) in H.
  apply andb_true_iff in H as [Hc Hr].
  rewrite contains_char_cons, (at_end_no_hyphen _ Hr), hyphen_no_name_char by auto. done.
Qed.

Lemma match_rest_step k s :
  VNet.match_rest (S k) s
  = VNet.match_last s ||
    match s with
    | String c rest => VNet.name_char c && VNet.match_rest k rest
    | EmptyString => false
    end.
Proof. by destruct s. Qed.

Lemma match_rest_no_hyphen k s :
  VNet.match_rest k s = true → Py.contains_char "-" s = false.
Proof.
  revert s. induction k as [|k IH]; intros s.
  - intros H. apply match_last_no_hyphen.
    assert (VNet.match_rest 0 s = VNet.match_last s || false) as E by (by destruct s).
    by rewrite E, orb_false_r in H.
  - rewrite match_rest_step. intros [H|H]%orb_true_iff; [by apply match_last_no_hyphen|].
    destruct s as [|c rest]; [done|]. apply andb_true_iff in H as [Hc Hr].
    rewrite contains_char_cons, (IH _ Hr), hyphen_no_name_char by auto. done.
Qed.

(** a name with a hyphen never passes [NAME_PATTERN] *)
Lemma hyphen_rejected s :
  Py.contains_char "-" s = true → VNet.NAME_PATTERN_match s = false.
Proof.
  intros H. destruct (VNet.NAME_PATTERN_match s) eqn:E; [|done].
  destruct s as [|c rest]; [done|].
  change (VNet.name_char c && VNet.match_rest 60 rest = true) in E.
  apply andb_true_iff in E as [Hc Hr]. apply match_rest_no_hyphen in Hr.
  rewrite contains_char_cons, Hr, hyphen_no_name_char in H by auto. done.
Qed.

End Names.

Section Concrete.
Import Reference Examples.

(** C1: idempotence fails on the code.  The network has the prefix
    10.0.0.0/16; the request names 10.0.0.0/16 and 10.1.0.0/16 with the
    purge flag set.  The first invocation completes, reports a change and
    sends an update that still has the one old prefix; the second
    invocation, against what the first one left, reports a change again. *)
Theorem purge_with_missing_prefix_never_settles :
  changed_of (vnet_run purge_with_missing (world_with one_prefix)).2 = Some true ∧
  sent_prefixes (trace (vnet_run purge_with_missing (world_with one_prefix)).1)
    = [VList ["10.0.0.0/16"]] ∧
  changed_of (vnet_rerun purge_with_missing (world_with one_prefix)).2 = Some true.
Proof. repeat split; vm_compute; reflexivity. Qed.

(** C2: a requested prefix that the network lacks is not added to the
    target when the purge flag is set and the network has no prefix to
    purge: the comparison sets [changed] and leaves the prefixes as they
    are.  The two cases that the specification lists come out as it
    says. *)
Theorem missing_prefix_not_added_under_purge :
  flagged purge_with_missing one_prefix = Ok true ∧
  target_prefixes purge_with_missing one_prefix = Ok (Some (VList ["10.0.0.0/16"])) ∧
  target_prefixes add_without_purge one_prefix
    = Ok (Some (VList ["10.0.0.0/16"; "10.1.0.0/16"])) ∧
  target_prefixes purge_extra two_prefixes = Ok (Some (VList ["10.1.0.0/16"])).
Proof. repeat split; vm_compute; reflexivity. Qed.

(** C8: [NAME_PATTERN] rejects names with a hyphen, such as the name
    [test-vnet] of the module's own interactive example and
    [my-network], although the failure message says that a name may
    contain hyphens; it also rejects a name that ends in an upper-case
    letter and a name of one character.  The two names of the
    specification come out as it says. *)
Theorem name_pattern_rejects_hyphens :
  VNet.NAME_PATTERN_match "test-vnet" = false ∧
  VNet.NAME_PATTERN_match "my-network" = false ∧
  VNet.NAME_PATTERN_match "NetworkA" = false ∧
  VNet.NAME_PATTERN_match "a" = false ∧
  VNet.NAME_PATTERN_match "My_Network1" = true ∧
  VNet.NAME_PATTERN_match "my-network-" = false ∧
  ∃ msg, VNet.validate common (named "test-vnet") = Err (ValidationError msg).
Proof. repeat split; try reflexivity. eexists. reflexivity. Qed.

(** C9: without the purge flag an address prefix is not checked: the
    prefix 10.0.0.0/33 passes the parameter checks and is sent to the
    service, when the network is created and when it is updated; with
    the purge flag the same prefix is a validation failure. *)
Theorem invalid_prefix_passes_without_purge :
  CIDR_PATTERN_match common "10.0.0.0/33" = false ∧
  VNet.validate common (bad_prefix false) = Ok tt ∧
  sent_prefixes (trace (vnet_run (bad_prefix false) empty_world).1)
    = [VList ["10.0.0.0/33"]] ∧
  sent_prefixes (trace (vnet_run (bad_prefix false) (world_with one_prefix)).1)
    = [VList ["10.0.0.0/16"; "10.0.0.0/33"]] ∧
  VNet.validate common (bad_prefix true)
    = Err (ValidationError "Parameter error: invalid address prefix value 10.0.0.0/33").
Proof. repeat split; vm_compute; reflexivity. Qed.

(** C10: building the update object raises [KeyError] for a network
    without DNS servers that is changed in its tags only: the serialized
    network has no [dns_servers] key, and line 380 subscripts it. *)
Theorem update_without_dns_servers_raises :
  VNet.virtual_network_to_dict no_dns !! "dns_servers" = None ∧
  flagged only_tags no_dns = Ok true ∧
  update_of only_tags no_dns = Err (PythonException "KeyError: dns_servers") ∧
  (vnet_run only_tags (world_with no_dns)).2 = Err (PythonException "KeyError: dns_servers") ∧
  mutations (trace (vnet_run only_tags (world_with no_dns)).1) = [].
Proof. repeat split; vm_compute; reflexivity. Qed.

(** C3, as stated, fails: a machine that is to be created without
    [admin_username] ends in a validation failure at a point where the
    outcome says [changed] and the action log holds an entry. *)
Lemma create_without_admin_username :
  (vm_run (vm_params VM.present false) empty_world).2
    = Err (ValidationError
             "Parameter error: admin_username required when creating a virtual machine.") ∧
  VM.changed (res (vm_run (vm_params VM.present false) empty_world).1) = true ∧
  VM.actions (res (vm_run (vm_params VM.present false) empty_world).1)
    = ["Created VM testvm"].
Proof. repeat split; vm_compute; reflexivity. Qed.


(** the same without check mode, when an update comes first and the
    service leaves the updated machine running *)
Lemma update_leaves_machine_running :
  is_ok (vm_run resize_and_start (world_of (testvm stopped_statuses) [])).2 = true ∧
  power_calls (trace (vm_run resize_and_start (world_of (testvm stopped_statuses) [])).1) = [] ∧
  expected_power_calls resize_and_start (Some "stopped")
    = [VirtualMachinesStart "Testing" "testvm"].
Proof. repeat split; vm_compute; reflexivity. Qed.

(** a cascade whose network interface cannot be deleted stops there *)
Lemma locked_interface_stops_cascade :
  mutations (trace (vm_run (vm_params VM.absent false)
                      (world_of (testvm stopped_statuses) ["testvm01"])).1)
    = [VirtualMachinesDelete "Testing" "testvm";
       DeleteBlob "testvm01" "vhds" "testvm.vhd";
       NetworkInterfacesDelete "Testing" "testvm01"] ∧
  is_ok (vm_run (vm_params VM.absent false)
           (world_of (testvm stopped_statuses) ["testvm01"])).2 = false.
Proof. repeat split; vm_compute; reflexivity. Qed.

(** ** Witnesses *)

Lemma validation_failures_precede_mutations_witness :
  (world (vm_run malformed_key empty_world).1 = empty_world ∧
   ∃ t, trace (vm_run malformed_key empty_world).1 = [] ++ t ∧ Forall read_only t) ∧
  (VM.initial_results = VM.initial_results →
   VM.ssh_keys_msg ∉ vm_create_messages →
   VM.changed (res (vm_run malformed_key empty_world).1) = false ∧
   VM.actions (res (vm_run malformed_key empty_world).1) = []).
Proof.
  apply (proj1 (validation_failures_precede_mutations common remote) malformed_key
           (start empty_world VM.initial_results)).
  vm_compute. reflexivity.
Defined.


Lemma check_mode_never_mutates_witness :
  let st := start (world_of (testvm stopped_statuses) []) VM.initial_results in
  let run := VM.exec_module_impl common remote (vm_params VM.started true) st in
  (world run.1 = world st ∧ ∃ t, trace run.1 = trace st ++ t ∧ Forall read_only t) ∧
  ∀ out, run.2 = Ok out →
    ∃ st1 n f,
      VM.diff_phase common remote (vm_params VM.started true) st = (st1, Ok (n, f)) ∧
      out = VM.set_outcome (VM.f_changed f) (VM.f_results f)
              (VM.f_powerstate_change f) (res st1) ∧
      run.1 = mkSt (world st1) (trace st1) out.
Proof.
  apply (proj1 (check_mode_never_mutates common remote) (vm_params VM.started true)).
  reflexivity.
Defined.



End Concrete.

(** * Further properties of the two modules *)

Lemma ok_value_of {A} (d : A) (o : outcome A) : is_ok o = true → o = Ok (value_of d o).
Proof. by destruct o. Qed.

Lemma ok_pair_value_of {A B} (d : A * B) (o : outcome (A * B)) :
  is_ok o = true → o = Ok ((value_of d o).1, (value_of d o).2).
Proof. by destruct o as [[]|]. Qed.

Lemma run_value_of {S A} (d : A) (run : S * outcome A) :
  is_ok run.2 = true → run = (run.1, Ok (value_of d run.2)).
Proof. by destruct run as [? []]. Qed.

Section NameLanguage.

Lemma append_String c s t : String c s +:+ t = String c (s +:+ t).
Proof. done. Qed.

Lemma match_last_language s :
  VNet.match_last s = true ↔ ∃ c, ends_with EmptyString c s ∧ VNet.name_last_char c = true.
Proof.
  unfold VNet.match_last, ends_with. split.
  - destruct s as [|c rest]; [done|]. intros [Hc He]%andb_true_iff. exists c.
    split; [|done]. destruct rest as [|d [|]]; simpl in *; try done; [by left|].
    apply Ascii.eqb_eq in He as ->. by right.
  - intros (c & [-> | ->] & Hc); simpl; rewrite Hc; done.
Qed.

Lemma match_rest_unfold k s :
  VNet.match_rest k s
  = VNet.match_last s ||
    match k, s with
    | S k', String c rest => VNet.name_char c && VNet.match_rest k' rest
    | _, _ => false
    end.
Proof. by destruct k. Qed.

Lemma match_rest_language k s :
  VNet.match_rest k s = true ↔
  ∃ body c, ends_with body c s ∧ (String.length body ≤ k)%nat ∧
            all_chars VNet.name_char body = true ∧ VNet.name_last_char c = true.
Proof.
  revert s. induction k as [|k IH]; intros s; rewrite match_rest_unfold.
  - rewrite orb_false_r, match_last_language. split.
    + intros (c & E & Hc). by exists EmptyString, c.
    + intros (body & c & E & Hl & _ & Hc). destruct body; [eauto | simpl in Hl; lia].
  - rewrite orb_true_iff, match_last_language. split.
    + intros [(c & E & Hc) | H].
      * exists EmptyString, c. simpl. repeat split; [done | lia | done].
      * destruct s as [|c0 rest]; [done|]. apply andb_true_iff in H as [H0 H].
        apply IH in H as (body & c & E & Hl & Hb & Hc).
        exists (String c0 body), c. simpl. rewrite H0, Hb. repeat split; [|lia|done].
        destruct E as [-> | ->]; [by left | by right].
    + intros (body & c & E & Hl & Hb & Hc). destruct body as [|c0 body].
      * left. eauto.
      * right. simpl in *. apply andb_true_iff in Hb as [H0 Hb].
        destruct E as [-> | ->]; simpl; rewrite H0; simpl; apply IH;
          exists body, c; (repeat split; [|lia|done|done]); [by left | by right].
Qed.

(** X1: the names that [NAME_PATTERN] accepts are exactly the strings of 1 to
    61 characters of [[a-zA-Z0-9_]] followed by one character of
    [[a-z0-9_]], alone or followed by one newline (Python's [$] also
    matches before a newline that ends the string). *)
Theorem name_pattern_language s :
  VNet.NAME_PATTERN_match s = true ↔
  ∃ body c, ends_with body c s ∧ (1 ≤ String.length body ≤ 61)%nat ∧
            all_chars VNet.name_char body = true ∧ VNet.name_last_char c = true.
Proof.
  unfold VNet.NAME_PATTERN_match. split.
  - destruct s as [|c0 rest]; [done|]. intros [H0 H]%andb_true_iff.
    apply match_rest_language in H as (body & c & E & Hl & Hb & Hc).
    exists (String c0 body), c. simpl. rewrite H0, Hb. repeat split; [|lia|lia|done].
    destruct E as [-> | ->]; [by left | by right].
  - intros (body & c & E & [Hl1 Hl2] & Hb & Hc). destruct body as [|c0 body]; [simpl in Hl1; lia|].
    simpl in Hb, Hl1, Hl2. apply andb_true_iff in Hb as [H0 Hb].
    destruct E as [-> | ->]; rewrite append_String, H0, andb_true_l;
      apply match_rest_language;
      exists body, c; (repeat split; [|lia|done|done]); [by left | by right].
Qed.

End NameLanguage.

Section Validate.
Context (cm : Common).

Lemma check_prefixes_ok l :
  ofold (λ (_ : unit) prefix,
           if CIDR_PATTERN_match cm prefix then Ok tt
           else Err (ValidationError
                  ("Parameter error: invalid address prefix value " +:+ prefix))) l tt = Ok tt
  ↔ Forall (λ prefix, CIDR_PATTERN_match cm prefix = true) l.
Proof.
  induction l as [|x l IH]; simpl.
  - split; [constructor | done].
  - destruct (CIDR_PATTERN_match cm x) eqn:E; simpl.
    + rewrite IH. split; [by constructor | by inversion 1].
    + split; [done | inversion 1; congruence].
Qed.

Lemma check_prefixes_first good bad rest :
  Forall (λ prefix, CIDR_PATTERN_match cm prefix = true) good →
  CIDR_PATTERN_match cm bad = false →
  ofold (λ (_ : unit) prefix,
           if CIDR_PATTERN_match cm prefix then Ok tt
           else Err (ValidationError
                  ("Parameter error: invalid address prefix value " +:+ prefix)))
        (good ++ bad :: rest) tt = Err (invalid_prefix bad).
Proof.
  intros Hg Hb. induction Hg as [|x l Hx _ IH]; simpl.
  - by rewrite Hb.
  - by rewrite Hx.
Qed.

(** X2: the parameter checks made before the fetch pass exactly when the
    name matches [NAME_PATTERN] and, for [state=present] with the purge
    flag of the address prefixes set, the prefixes are given, each of them
    matches [CIDR_PATTERN] and at most two DNS servers are named.  Without
    that flag, or for [state=absent], the name is all that is checked. *)
Theorem validate_checks p :
  VNet.validate cm p = Ok tt ↔
  VNet.NAME_PATTERN_match (VNet.name p) = true ∧
  (VNet.state_ p = VNet.present → VNet.purge_address_prefixes p = true →
   ∃ prefixes, VNet.address_prefixes_cidr p = Some prefixes ∧
     Forall (λ prefix, CIDR_PATTERN_match cm prefix = true) prefixes ∧
     (length (default [] (VNet.dns_servers p)) ≤ 2)%nat).
Proof.
  unfold VNet.validate. destruct (VNet.NAME_PATTERN_match _); simpl; [|split; [done | intros [? _]; done]].
  destruct (bool_decide _) eqn:Hs; simpl.
  - apply bool_decide_eq_true in Hs. destruct (VNet.purge_address_prefixes p); simpl.
    + destruct (VNet.address_prefixes_cidr p) as [prefixes|]; simpl;
        [|split; [done | intros [_ H]; destruct H as (? & ? & _); done]].
      pose proof (check_prefixes_ok prefixes) as Hp.
      destruct (ofold _ prefixes tt) as [[]|e]; simpl.
      * destruct (VNet.dns_servers p) as [[|s1 [|s2 [|s3 l]]]|]; simpl;
          split; try done; try (intros _; split; [done|]; intros _ _; eexists; split; [done|];
                                split; [by apply Hp | simpl; lia]).
        intros [_ H]. destruct H as (? & [= <-] & _ & Hl); [done..|]. simpl in Hl. lia.
      * split; [done|]. intros [_ H]. destruct H as (? & [= <-] & Hf & _); [done..|].
        apply Hp in Hf. done.
    + split; [|done]. intros _. split; [done|]. done.
  - apply bool_decide_eq_false in Hs. split; [|done]. intros _. split; [done|]. done.
Qed.

(** X3: with the purge flag set, the failure names the first prefix of the
    request that does not match [CIDR_PATTERN]. *)
Theorem validate_reports_first_invalid_prefix p good bad rest :
  VNet.NAME_PATTERN_match (VNet.name p) = true →
  VNet.state_ p = VNet.present →
  VNet.purge_address_prefixes p = true →
  VNet.address_prefixes_cidr p = Some (good ++ bad :: rest) →
  Forall (λ prefix, CIDR_PATTERN_match cm prefix = true) good →
  CIDR_PATTERN_match cm bad = false →
  VNet.validate cm p = Err (invalid_prefix bad).
Proof.
  intros Hn Hs Hp Ha Hg Hb. unfold VNet.validate. rewrite Hn, Hs, Hp, Ha. simpl.
  by rewrite (check_prefixes_first good bad rest Hg Hb).
Qed.

End Validate.

Section Prefixes.
Context (p : VNet.Params).

Lemma append_all (results : gmap string value) k l xs :
  results !! k = Some (VList l) →
  ofold (λ results x, VNet.append_at results k x) xs results
  = Ok (<[k := VList (l ++ xs)]> results).
Proof.
  revert results l. induction xs as [|x xs IH]; intros results l H; simpl.
  - by rewrite app_nil_r, insert_id.
  - unfold VNet.append_at at 1, subscript. rewrite H. simpl.
    rewrite (IH _ (l ++ [x])) by apply lookup_insert_eq.
    by rewrite insert_insert_eq, <- app_assoc.
Qed.

Lemma serialized_prefixes vnet existing :
  vnet_address_space vnet = Some existing → existing ≠ [] →
  VNet.virtual_network_to_dict vnet !! "address_prefixes" = Some (VList existing).
Proof.
  intros H Hne. unfold VNet.virtual_network_to_dict. rewrite H.
  destruct existing; [done|]. apply lookup_insert_eq.
Qed.

Lemma size_difference_pos (X Y : gset string) :
  bool_decide (0 < size (X ∖ Y)) = negb (bool_decide (X ⊆ Y)).
Proof.
  destruct (decide (X ⊆ Y)) as [H|H].
  - rewrite (bool_decide_eq_true_2 (X ⊆ Y)) by done. simpl.
    apply bool_decide_eq_false_2. replace (X ∖ Y) with (∅ : gset string); [rewrite size_empty; lia|].
    apply leibniz_equiv. intros x. rewrite elem_of_difference.
    split; [by intros ?%not_elem_of_empty | intros [? ?]; exfalso; auto].
  - rewrite (bool_decide_eq_false_2 (X ⊆ Y)) by done. simpl.
    apply bool_decide_eq_true_2. apply Nat.neq_0_lt_0. rewrite size_non_empty_iff.
    intros E. apply H. intros x Hx. destruct (decide (x ∈ Y)); [done|].
    assert (x ∈ X ∖ Y) as Hd by set_solver. rewrite E in Hd. set_solver.
Qed.

Lemma list_to_set_subseteq (l1 l2 : list string) :
  (list_to_set l1 : gset string) ⊆ list_to_set l2 ↔ l1 ⊆ l2.
Proof. set_solver. Qed.


(** X5: with the purge flag set the prefixes are replaced by the requested
    list, in the order of the request, exactly when the network has a
    prefix that the request does not name.  Otherwise they are left as they
    are, also when the request names prefixes that the network lacks, and
    the change flag is raised for those all the same. *)
Theorem purge_replaces_or_keeps_prefixes vnet changed results existing requested :
  VNet.purge_address_prefixes p = true →
  VNet.address_prefixes_cidr p = Some requested → requested ≠ [] →
  vnet_address_space vnet = Some existing →
  VNet.reconcile_address_prefixes p vnet changed results
  = if bool_decide (existing ⊆ requested)
    then Ok (changed || negb (bool_decide (requested ⊆ existing)), results)
    else Ok (true, <["address_prefixes" := VList requested]> results).
Proof.
  intros Hp Hr Hrn He. unfold VNet.reconcile_address_prefixes. rewrite Hr, He, Hp.
  destruct requested as [|r rs]; [done|]. cbv zeta. rewrite !size_difference_pos.
  rewrite (bool_decide_ext _ _ (list_to_set_subseteq (r :: rs) existing)).
  rewrite (bool_decide_ext _ _ (list_to_set_subseteq existing (r :: rs))).
  destruct (bool_decide (r :: rs ⊆ existing)), (bool_decide (existing ⊆ r :: rs)); simpl;
    by rewrite ?orb_false_r, ?orb_true_r.
Qed.

End Prefixes.

Section Existing.
Context (cm : Common) (p : VNet.Params).

Lemma serialized_tags vnet :
  VNet.virtual_network_to_dict vnet !! "tags" = Some (VNet.of_tags (vnet_tags vnet)).
Proof.
  unfold VNet.virtual_network_to_dict.
  by destruct (vnet_dhcp_options vnet) as [[|??]|], (vnet_address_space vnet) as [[|??]|].
Qed.

Lemma serialized_dns_servers vnet :
  VNet.virtual_network_to_dict vnet !! "dns_servers"
  = match vnet_dhcp_options vnet with
    | Some (server :: servers) => Some (VList (server :: servers))
    | _ => None
    end.
Proof.
  unfold VNet.virtual_network_to_dict.
  by destruct (vnet_dhcp_options vnet) as [[|??]|], (vnet_address_space vnet) as [[|??]|].
Qed.

Lemma matching_prefixes_kept vnet changed results :
  (∀ requested, VNet.address_prefixes_cidr p = Some requested → requested ≠ [] →
     ∃ existing, vnet_address_space vnet = Some existing ∧ ∀ x, x ∈ requested ↔ x ∈ existing) →
  VNet.reconcile_address_prefixes p vnet changed results = Ok (changed, results).
Proof.
  intros H. unfold VNet.reconcile_address_prefixes.
  destruct (VNet.address_prefixes_cidr p) as [[|r rs]|]; [done| |done].
  destruct (H (r :: rs)) as (existing & -> & Hx); [done..|]. cbv zeta.
  rewrite !size_difference_pos.
  rewrite !bool_decide_eq_true_2; [done|..]; apply list_to_set_subseteq; intros x; apply Hx.
Qed.

Lemma matching_dns_servers_kept vnet changed results :
  (∀ requested, VNet.dns_servers p = Some requested → requested ≠ [] →
     ∃ existing, vnet_dhcp_options vnet = Some existing ∧ ∀ x, x ∈ requested ↔ x ∈ existing) →
  (VNet.purge_dns_servers p = true → Py.truthy_list (vnet_dhcp_options vnet) = false) →
  VNet.reconcile_dns_servers p vnet changed results = Ok (changed, results).
Proof.
  intros H Hp. unfold VNet.reconcile_dns_servers.
  assert (match VNet.purge_dns_servers p, vnet_dhcp_options vnet with
          | true, Some (_ :: _) => Ok (true, <["dns_servers" := VList []]> results)
          | _, _ => Ok (changed, results)
          end = Ok (changed, results)) as Hpurge.
  { destruct (VNet.purge_dns_servers p); [|done].
    specialize (Hp eq_refl). by destruct (vnet_dhcp_options vnet) as [[|??]|]. }
  destruct (VNet.dns_servers p) as [[|s l]|]; [done| |done].
  destruct (H (s :: l)) as (existing & E & Hx); [done..|]. rewrite E in *. cbv zeta.
  rewrite bool_decide_eq_false_2; [done|]. intros Hne. apply Hne.
  apply leibniz_equiv. intros x. rewrite !elem_of_list_to_set. symmetry. apply Hx.
Qed.

(** X6: prefixes and DNS servers are compared as sets.  A request for an
    existing network whose prefixes and DNS servers are those of the
    network, in any order and with any repetition, that purges no DNS
    server and whose tags [update_tags] finds up to date, is no change. *)
Theorem matching_request_is_no_change vnet kept :
  VNet.state_ p = VNet.present →
  check_provisioning_state cm (vnet_provisioning_state vnet) (Some "present") = true →
  update_tags cm (VNet.tags p) (VNet.purge_tags p) (VNet.of_tags (vnet_tags vnet))
    = (false, kept) →
  (∀ requested, VNet.address_prefixes_cidr p = Some requested → requested ≠ [] →
     ∃ existing, vnet_address_space vnet = Some existing ∧ ∀ x, x ∈ requested ↔ x ∈ existing) →
  (∀ requested, VNet.dns_servers p = Some requested → requested ≠ [] →
     ∃ existing, vnet_dhcp_options vnet = Some existing ∧ ∀ x, x ∈ requested ↔ x ∈ existing) →
  (VNet.purge_dns_servers p = true → Py.truthy_list (vnet_dhcp_options vnet) = false) →
  VNet.diff_existing cm p vnet
  = Ok (false, <["tags" := kept]> (VNet.virtual_network_to_dict vnet)).
Proof.
  intros Hs Hc Ht Ha Hd Hp. unfold VNet.diff_existing. rewrite Hs. simpl VNet.state_name.
  rewrite Hc. cbv zeta. simpl. rewrite matching_prefixes_kept by done. simpl.
  unfold VNet.reconcile_tags, subscript. rewrite serialized_tags. simpl. rewrite Ht. simpl.
  by apply matching_dns_servers_kept.
Qed.

(** X7: purging the DNS servers of a network that has some raises the
    change flag and leaves an empty list in the serialized network; the
    update object built from it then carries no DHCP options at all. *)
Theorem purged_dns_servers_leave_no_dhcp_options vnet changed results :
  VNet.state_ p = VNet.present →
  VNet.purge_dns_servers p = true →
  Py.truthy_list (vnet_dhcp_options vnet) = true →
  VNet.diff_existing cm p vnet = Ok (changed, results) →
  changed = true ∧ results !! "dns_servers" = Some (VList []) ∧
  ∀ payload, VNet.update_payload results = Ok payload → np_dhcp_options payload = None.
Proof.
  intros Hs Hp Hd E. unfold VNet.diff_existing in E. rewrite Hs in E.
  apply obind_ok in E as (_ & _ & E).
  apply obind_ok in E as ([c1 r1] & _ & E).
  apply obind_ok in E as ([c2 r2] & _ & E).
  unfold VNet.reconcile_dns_servers in E. apply obind_ok in E as ([c3 r3] & _ & E).
  rewrite Hp in E. destruct (vnet_dhcp_options vnet) as [[|??]|]; try done.
  injection E as <- <-. split; [done|]. split; [apply lookup_insert_eq|].
  intros payload Hu. unfold VNet.update_payload in Hu.
  apply obind_ok in Hu as (v1 & _ & Hu). apply obind_ok in Hu as (v2 & _ & Hu).
  apply obind_ok in Hu as (v3 & _ & Hu). apply obind_ok in Hu as (v4 & H4 & Hu).
  apply subscript_ok in H4. rewrite lookup_insert_eq in H4. injection H4 as <-.
  by injection Hu as <-.
Qed.

End Existing.

Section Preserves.
Context {W R X : Type} (f : R → X).

Lemma preserves_keeps {A} (m : M W R A) : keeps m → preserves f m.
Proof. intros H st. by rewrite H. Qed.

Lemma preserves_ret {A} (a : A) : preserves f (ret a : M W R A).
Proof. done. Qed.

Lemma preserves_throw {A} e : preserves f (throw e : M W R A).
Proof. done. Qed.

Lemma preserves_lift {A} (x : outcome A) : preserves f (lift x : M W R A).
Proof. done. Qed.

Lemma preserves_get_res : preserves f (get_res : M W R R).
Proof. done. Qed.

Lemma preserves_modify_res g : (∀ r, f (g r) = f r) → preserves f (modify_res g : M W R unit).
Proof. intros H st. apply H. Qed.

Lemma preserves_query {A} c (ask : W → A) ok : preserves f (query c ask ok : M W R A).
Proof. done. Qed.

Lemma preserves_command {A} c (run : W → W * A) ok : preserves f (command c run ok : M W R A).
Proof. intros st. unfold command. by destruct (run (world st)). Qed.

Lemma preserves_bind {A B} (m : M W R A) (k : A → M W R B) :
  preserves f m → (∀ a, preserves f (k a)) → preserves f (bind m k).
Proof.
  intros Hm Hk st. rewrite bind_run. specialize (Hm st).
  destruct (m st) as [st1 [a|e]]; simpl in *; [|done].
  by rewrite Hk.
Qed.

Lemma preserves_when b (m : M W R unit) : preserves f m → preserves f (when b m).
Proof. by destruct b. Qed.

Lemma preserves_for_each {A} (l : list A) (body : A → M W R unit) :
  (∀ x, preserves f (body x)) → preserves f (for_each l body).
Proof.
  intros H. induction l as [|x l IH]; simpl; [done|]. apply preserves_bind; auto.
Qed.

Lemma preserves_collect {A B} (l : list A) (body : A → M W R B) :
  (∀ x, preserves f (body x)) → preserves f (collect l body).
Proof.
  intros H. induction l as [|x l IH]; simpl; [done|].
  apply preserves_bind; [auto|]. intros b. apply preserves_bind; [auto|]. done.
Qed.

Lemma preserves_run {A} (m : M W R A) st st' r :
  preserves f m → m st = (st', r) → f (res st') = f (res st).
Proof. intros H E. specialize (H st). by rewrite E in H. Qed.

End Preserves.

Ltac keep :=
  cbv beta;
  lazymatch goal with
  | |- preserves _ (bind _ _) => apply preserves_bind; [|intros ?]
  | |- preserves _ (ret _) => apply preserves_ret
  | |- preserves _ (throw _) => apply preserves_throw
  | |- preserves _ (lift _) => apply preserves_lift
  | |- preserves _ get_res => apply preserves_get_res
  | |- preserves _ (modify_res _) => apply preserves_modify_res; intros []; reflexivity
  | |- preserves _ (query _ _ _) => apply preserves_query
  | |- preserves _ (command _ _ _) => apply preserves_command
  | |- preserves _ (when _ _) => apply preserves_when
  | |- preserves _ (for_each _ _) => apply preserves_for_each; intros ?
  | |- preserves _ (collect _ _) => apply preserves_collect; intros ?
  | |- preserves _ (match ?x with _ => _ end) => destruct x
  | |- preserves _ ?m =>
      first [ solve [auto with preserves]
            | apply preserves_keeps; solve [auto with keeps]
            | let h := head_of m in unfold h ]
  end.

Ltac keeping := repeat keep.

Section VNetKeeps.
Context {W : Type} (cm : Common) (rm : Remote W) (p : VNet.Params).

Lemma vnet_apply_preserves_changed location results :
  preserves VNet.changed (VNet.apply rm p location results).
Proof. keeping. Qed.

End VNetKeeps.

Section VMKeeps.
Context {W : Type} (cm : Common) (rm : Remote W) (p : VM.Params).

Lemma preserves_expand_interfaces {X} (f : VM.Results → X) ids l :
  preserves f (VM.expand_interfaces cm rm p ids l).
Proof. revert l. induction ids as [|i ids IH]; intros l; simpl; keeping. Qed.

Hint Resolve preserves_expand_interfaces : preserves.

Lemma vm_apply_preserves_decided n f : preserves decided (VM.apply cm rm p n f).
Proof. keeping. Qed.

End VMKeeps.

Section VNetRuns.
Context {W : Type} (cm : Common) (rm : Remote W).

Lemma mutations_reads t : Forall read_only t → mutations t = [].
Proof.
  intros H. unfold mutations. induction H as [|e t He _ IH]; [done|].
  rewrite filter_cons. destruct (decide _) as [E|E]; [|done].
  unfold read_only in He. congruence.
Qed.

Lemma vnet_exec_run p st :
  VNet.exec_module_impl cm rm p st
  = match VNet.diff_phase cm rm p st with
    | (st1, Err e) => (st1, Err e)
    | (st1, Ok (location, changed, results)) =>
        let o := {| VNet.changed := changed; VNet.results := results |} in
        let st2 := mkSt (world st1) (trace st1) o in
        if VNet.check_mode p then (st2, Ok o)
        else if changed then
               match VNet.apply rm p location results st2 with
               | (st3, Ok _) => (st3, Ok (res st3))
               | (st3, Err e) => (st3, Err e)
               end
             else (st2, Ok o)
    end.
Proof.
  unfold VNet.exec_module_impl. rewrite bind_run.
  destruct (VNet.diff_phase cm rm p st) as [st1 [[[location changed] results]|e]]; [|done].
  rewrite bind_run. simpl. destruct (VNet.check_mode p); [done|].
  rewrite bind_run. destruct changed; simpl; [|done].
  by destruct (VNet.apply rm p location results _) as [st3 [[]|e]].
Qed.

Lemma vnet_create_or_update_run p payload st :
  let sent := virtual_networks_create_or_update rm (world st) (VNet.resource_group p)
                (VNet.name p) payload in
  VNet.create_or_update_vnet rm p payload st
  = (mkSt sent.1
          (trace st ++ [Event (VirtualNetworksCreateOrUpdate (VNet.resource_group p)
                                 (VNet.name p) payload) (answered sent.2)])
          (res st),
     match sent.2 with
     | Some new_vnet => Ok (VNet.virtual_network_to_dict new_vnet)
     | None => Err (RemoteOperationError
                 ("Error creating or updating virtual network " +:+ VNet.name p))
     end).
Proof.
  unfold VNet.create_or_update_vnet, bind, command. simpl.
  by destruct (virtual_networks_create_or_update rm _ _ _ _) as [w [v|]].
Qed.

Lemma vnet_delete_run p st :
  let answer := virtual_networks_delete rm (world st) (VNet.resource_group p) (VNet.name p) in
  VNet.delete_virtual_network rm p st
  = (mkSt answer.1
          (trace st ++ [Event (VirtualNetworksDelete (VNet.resource_group p) (VNet.name p))
                          answer.2])
          (if answer.2
           then {| VNet.changed := VNet.changed (res st);
                   VNet.results := <["status" := VStr "Deleted"]> (VNet.results (res st)) |}
           else res st),
     if answer.2 then Ok tt
     else Err (RemoteOperationError ("Error deleting virtual network " +:+ VNet.name p))).
Proof.
  unfold VNet.delete_virtual_network, bind, command. simpl.
  by destruct (virtual_networks_delete rm _ _ _) as [w []].
Qed.

(** what the apply phase adds to the trace: nothing and a failure, or the
    one mutating call of the requested state *)
Lemma vnet_apply_run p location results st :
  ∃ t, trace (VNet.apply rm p location results st).1 = trace st ++ t ∧
       ((t = [] ∧ world (VNet.apply rm p location results st).1 = world st
         ∧ ∃ e, (VNet.apply rm p location results st).2 = Err e) ∨
        ∃ c b, t = [Event c b] ∧ is_mutation c = true ∧ vnet_mutation_of p c).
Proof.
  unfold VNet.apply, vnet_mutation_of. destruct (VNet.state_ p).
  - destruct (bool_decide (results = ∅)).
    + destruct (VNet.address_prefixes_cidr p) as [[|a l]|].
      * exists []. rewrite app_nil_r. split; [done|]. left. eauto.
      * rewrite bind_run, vnet_create_or_update_run. cbv zeta.
        match goal with |- context [Event ?c ?b] => exists [Event c b] end. split.
        { by destruct (virtual_networks_create_or_update rm _ _ _ _).2. }
        right. eexists _, _. split; [reflexivity|]. split; [reflexivity | eauto].
      * exists []. rewrite app_nil_r. split; [done|]. left. eauto.
    + rewrite bind_run. unfold lift.
      destruct (VNet.update_payload results) as [payload|e].
      * rewrite bind_run, vnet_create_or_update_run. cbv zeta.
        match goal with |- context [Event ?c ?b] => exists [Event c b] end. split.
        { by destruct (virtual_networks_create_or_update rm _ _ _ _).2. }
        right. eexists _, _. split; [reflexivity|]. split; [reflexivity | eauto].
      * exists []. rewrite app_nil_r. split; [done|]. left. eauto.
  - rewrite vnet_delete_run. cbv zeta. eexists [_]. split; [reflexivity|]. right. eexists _, _. split; [reflexivity|]. split; [reflexivity | eauto].
Qed.

(** X8: an invocation issues at most one mutating call: a create-or-update
    of the named network for [state=present], its deletion for
    [state=absent]; without one the subscription is as before.  When the
    invocation completes, [changed] is true outside check mode exactly when
    that call was issued. *)
Theorem vnet_changed_tells_mutation p st :
  let run := VNet.exec_module_impl cm rm p st in
  ∃ t, trace run.1 = trace st ++ t ∧
    (mutations t = [] ∧ world run.1 = world st ∨
     ∃ c, mutations t = [c] ∧ vnet_mutation_of p c) ∧
    ∀ o, run.2 = Ok o →
      (VNet.changed o && negb (VNet.check_mode p) = true ↔ mutations t ≠ []).
Proof.
  cbv zeta. rewrite vnet_exec_run.
  destruct (reads_run _ st _ _ (reads_vnet_diff_phase cm rm p)
              (surjective_pairing (VNet.diff_phase cm rm p st))) as (Hw & t1 & E1 & F1).
  pose proof (mutations_reads t1 F1) as M1.
  destruct (VNet.diff_phase cm rm p st) as [st1 [[[location changed] results]|e]];
    simpl in Hw, E1.
  2: { exists t1. simpl. split; [done|]. split; [by left|]. done. }
  cbv zeta. destruct (VNet.check_mode p).
  { exists t1. simpl. split; [done|]. split; [by left|]. intros o _.
    rewrite andb_false_r, M1. done. }
  destruct changed.
  2: { exists t1. simpl. split; [done|]. split; [by left|]. intros o [= <-]. simpl.
       by rewrite M1. }
  set (st2 := mkSt (world st1) (trace st1) _).
  destruct (vnet_apply_run p location results st2) as (t2 & E2 & H2).
  pose proof (vnet_apply_preserves_changed rm p location results st2) as Hc.
  destruct (VNet.apply rm p location results st2) as [st3 [[]|e]]; simpl in *.
  - exists (t1 ++ t2). rewrite E2, E1, app_assoc. split; [done|].
    rewrite mutations_app, M1. simpl.
    destruct H2 as [(-> & _ & e & He) | (c & b & -> & Hm & Hk)]; [done|].
    unfold mutations. simpl. rewrite filter_cons, decide_True by done. simpl.
    split; [right; eauto|]. intros o [= <-]. by rewrite Hc.
  - exists (t1 ++ t2). rewrite E2, E1, app_assoc. split; [done|].
    rewrite mutations_app, M1. simpl. split; [|done].
    destruct H2 as [(-> & Hw2 & _) | (c & b & -> & Hm & Hk)].
    + left. split; [done|]. by rewrite Hw2.
    + right. unfold mutations. simpl. rewrite filter_cons, decide_True by done. eauto.
Qed.

Lemma vnet_diff_phase_dry p : VNet.diff_phase cm rm (vnet_dry_run p) = VNet.diff_phase cm rm p.
Proof. reflexivity. Qed.

(** X9: the dry run of a request predicts its change flag: when the
    invocation completes, the same request in check mode completes with the
    same [changed]; and when nothing is to change, the two invocations
    end in the same state with the same outcome. *)
Theorem vnet_check_mode_predicts_change p st st' o :
  VNet.exec_module_impl cm rm p st = (st', Ok o) →
  ∃ st_dry o_dry,
    VNet.exec_module_impl cm rm (vnet_dry_run p) st = (st_dry, Ok o_dry) ∧
    VNet.changed o_dry = VNet.changed o ∧
    (VNet.changed o = false → st_dry = st' ∧ o_dry = o).
Proof.
  rewrite !vnet_exec_run, vnet_diff_phase_dry.
  destruct (VNet.diff_phase cm rm p st) as [st1 [[[location changed] results]|e]]; [|done].
  cbv zeta. simpl VNet.check_mode at 2.
  destruct (VNet.check_mode p).
  { intros [= <- <-]. eexists _, _. split; [reflexivity|]. split; [reflexivity|]. done. }
  destruct changed.
  - set (st2 := mkSt (world st1) (trace st1) _).
    pose proof (vnet_apply_preserves_changed rm p location results st2) as Hc.
    destruct (VNet.apply rm p location results st2) as [st3 [[]|e]]; [|done].
    intros [= <- <-]. simpl in Hc. eexists _, _. split; [done|]. rewrite Hc. simpl.
    split; [done|]. done.
  - intros [= <- <-]. eexists _, _. split; [reflexivity|]. split; [reflexivity|]. done.
Qed.

End VNetRuns.

Section VNetPaths.
Context {W : Type} (cm : Common) (rm : Remote W).

Lemma vnet_diff_phase_run p st group_location :
  resource_groups_get rm (world st) (VNet.resource_group p) = Some group_location →
  VNet.validate cm p = Ok tt →
  let st1 := mkSt (world st) (trace st ++ vnet_reads rm p (world st)) (res st) in
  let location := location_or (VNet.location p) group_location in
  VNet.diff_phase cm rm p st
  = match virtual_networks_get rm (world st) (VNet.resource_group p) (VNet.name p) with
    | Found vnet =>
        match VNet.diff_existing cm p vnet with
        | Ok (changed, results) => (st1, Ok (location, changed, results))
        | Err e => (st1, Err e)
        end
    | CloudError => (st1, Ok (location, bool_decide (VNet.state_ p = VNet.present), ∅))
    | OtherError => (st1, Err (PythonException "Exception: virtual_networks.get"))
    end.
Proof.
  intros Hg Hv. unfold VNet.diff_phase, get_resource_group, VNet.fetch_and_diff, vnet_reads.
  unfold bind, query, lift, ret, throw. simpl. rewrite Hg, Hv. simpl.
  rewrite <- app_assoc. simpl.
  destruct (virtual_networks_get rm (world st) _ _) as [vnet| |]; simpl; [|done..].
  by destruct (VNet.diff_existing cm p vnet) as [[changed results]|e].
Qed.

(** X10: creating a network.  When the network does not exist and prefixes
    are requested, the invocation sends one create request, for the given
    location or else the location of the resource group, with the
    prefixes in the order of the request; what the service returns for it
    becomes the result, and its refusal fails the invocation with
    [changed] already set. *)
Theorem vnet_create_run p st group_location prefixes :
  resource_groups_get rm (world st) (VNet.resource_group p) = Some group_location →
  VNet.validate cm p = Ok tt →
  virtual_networks_get rm (world st) (VNet.resource_group p) (VNet.name p) = CloudError →
  VNet.state_ p = VNet.present →
  VNet.check_mode p = false →
  VNet.address_prefixes_cidr p = Some prefixes → prefixes ≠ [] →
  let payload :=
    VNet.create_payload p (location_or (VNet.location p) group_location) prefixes in
  let request := VirtualNetworksCreateOrUpdate (VNet.resource_group p) (VNet.name p) payload in
  let sent := virtual_networks_create_or_update rm (world st) (VNet.resource_group p)
                (VNet.name p) payload in
  VNet.exec_module_impl cm rm p st
  = match sent.2 with
    | Some new_vnet =>
        let o := {| VNet.changed := true;
                    VNet.results := VNet.virtual_network_to_dict new_vnet |} in
        (mkSt sent.1 (trace st ++ vnet_reads rm p (world st) ++ [Event request true]) o, Ok o)
    | None =>
        (mkSt sent.1 (trace st ++ vnet_reads rm p (world st) ++ [Event request false])
              {| VNet.changed := true; VNet.results := ∅ |},
         Err (RemoteOperationError
                ("Error creating or updating virtual network " +:+ VNet.name p)))
    end.
Proof.
  intros Hg Hv Hf Hs Hc Ha Hne. cbv zeta.
  rewrite vnet_exec_run, (vnet_diff_phase_run p st group_location Hg Hv). cbv zeta.
  rewrite Hf, Hc, Hs. rewrite bool_decide_eq_true_2 by done. cbv iota zeta.
  unfold VNet.apply. rewrite Hs, Ha. rewrite bool_decide_eq_true_2 by done.
  destruct prefixes as [|a l]; [done|].
  rewrite bind_run, vnet_create_or_update_run. cbv zeta. simpl world. simpl trace.
  destruct (virtual_networks_create_or_update rm (world st) _ _ _) as [w [v|]]; simpl.
  - by rewrite <- app_assoc.
  - by rewrite <- app_assoc.
Qed.

(** X11: [state=absent].  A network that does not exist is no change and no
    call beyond the two reads.  An existing one is deleted with one call;
    the result is then its serialized form with [status] set to
    [Deleted], and a refused deletion fails the invocation. *)
Theorem vnet_absent_run p st group_location :
  resource_groups_get rm (world st) (VNet.resource_group p) = Some group_location →
  VNet.NAME_PATTERN_match (VNet.name p) = true →
  VNet.state_ p = VNet.absent →
  VNet.check_mode p = false →
  let reads := vnet_reads rm p (world st) in
  let request := VirtualNetworksDelete (VNet.resource_group p) (VNet.name p) in
  let answer := virtual_networks_delete rm (world st) (VNet.resource_group p) (VNet.name p) in
  match virtual_networks_get rm (world st) (VNet.resource_group p) (VNet.name p) with
  | CloudError =>
      let o := {| VNet.changed := false; VNet.results := ∅ |} in
      VNet.exec_module_impl cm rm p st = (mkSt (world st) (trace st ++ reads) o, Ok o)
  | Found vnet =>
      check_provisioning_state cm (vnet_provisioning_state vnet) (Some "absent") = true →
      VNet.exec_module_impl cm rm p st
      = if answer.2
        then let o := {| VNet.changed := true;
                         VNet.results := <["status" := VStr "Deleted"]>
                                           (VNet.virtual_network_to_dict vnet) |} in
             (mkSt answer.1 (trace st ++ reads ++ [Event request true]) o, Ok o)
        else (mkSt answer.1 (trace st ++ reads ++ [Event request false])
                   {| VNet.changed := true;
                      VNet.results := VNet.virtual_network_to_dict vnet |},
              Err (RemoteOperationError ("Error deleting virtual network " +:+ VNet.name p)))
  | OtherError =>
      VNet.exec_module_impl cm rm p st
      = (mkSt (world st) (trace st ++ reads) (res st),
         Err (PythonException "Exception: virtual_networks.get"))
  end.
Proof.
  intros Hg Hn Hs Hc. cbv zeta.
  assert (VNet.validate cm p = Ok tt) as Hv.
  { unfold VNet.validate. by rewrite Hn, Hs. }
  rewrite vnet_exec_run, (vnet_diff_phase_run p st group_location Hg Hv). cbv zeta.
  destruct (virtual_networks_get rm (world st) _ _) as [vnet| |] eqn:Hf.
  - intros Hp. unfold VNet.diff_existing. rewrite Hs. simpl VNet.state_name. rewrite Hp.
    simpl. rewrite Hc. unfold VNet.apply. rewrite Hs, vnet_delete_run. cbv zeta.
    simpl world. simpl trace. simpl res.
    destruct (virtual_networks_delete rm (world st) _ _) as [w []]; simpl;
      by rewrite <- app_assoc.
  - rewrite Hc, Hs. by rewrite bool_decide_eq_false_2 by done.
  - done.
Qed.

Lemma append_all_other (results results' : gmap string value) k xs k' :
  k' ≠ k →
  ofold (λ results x, VNet.append_at results k x) xs results = Ok results' →
  results' !! k' = results !! k'.
Proof.
  intros Hk. revert results. induction xs as [|x xs IH]; intros results; simpl.
  - by intros [= <-].
  - intros E. apply obind_ok in E as (r1 & E1 & E). apply IH in E. rewrite E.
    unfold VNet.append_at in E1. apply obind_ok in E1 as (v & _ & E1).
    destruct v; try done. injection E1 as <-. by rewrite lookup_insert_ne.
Qed.

Lemma reconcile_address_prefixes_other p vnet changed results c r k :
  k ≠ "address_prefixes" →
  VNet.reconcile_address_prefixes p vnet changed results = Ok (c, r) →
  r !! k = results !! k.
Proof.
  intros Hk. unfold VNet.reconcile_address_prefixes.
  destruct (VNet.address_prefixes_cidr p) as [[|a l]|]; try by intros [= <- <-].
  destruct (vnet_address_space vnet) as [existing|]; [|done]. cbv zeta.
  intros E. apply obind_ok in E as ([c1 r1] & E1 & E).
  assert (r1 !! k = results !! k) as H1.
  { destruct (bool_decide (0 < size _)); [|by injection E1 as <- <-].
    destruct (negb _); [|by injection E1 as <- <-].
    apply obind_ok in E1 as (r2 & E1 & [= <- <-]). by eapply append_all_other. }
  destruct (_ && _); injection E as <- <-; [|done].
  by rewrite lookup_insert_ne.
Qed.

Lemma reconcile_tags_other p changed results c r k :
  k ≠ "tags" → VNet.reconcile_tags cm p changed results = Ok (c, r) → r !! k = results !! k.
Proof.
  intros Hk. unfold VNet.reconcile_tags. intros E.
  apply obind_ok in E as (v & _ & E). destruct (update_tags cm _ _ _) as [u t].
  injection E as <- <-. by rewrite lookup_insert_ne.
Qed.

Lemma reconcile_dns_servers_other p vnet changed results c r k :
  k ≠ "dns_servers" →
  VNet.reconcile_dns_servers p vnet changed results = Ok (c, r) → r !! k = results !! k.
Proof.
  intros Hk. unfold VNet.reconcile_dns_servers. intros E.
  apply obind_ok in E as ([c1 r1] & E1 & E).
  assert (r1 !! k = results !! k) as H1.
  { destruct (VNet.dns_servers p) as [[|s l]|]; try by injection E1 as <- <-.
    destruct (vnet_dhcp_options vnet); [|done].
    destruct (bool_decide _); injection E1 as <- <-; [|done]. by rewrite lookup_insert_ne. }
  destruct (VNet.purge_dns_servers p), (vnet_dhcp_options vnet) as [[|??]|];
    injection E as <- <-; try done.
  by rewrite lookup_insert_ne.
Qed.

Lemma reconcile_dns_servers_none p vnet changed results c r :
  Py.truthy_list (vnet_dhcp_options vnet) = false →
  Py.truthy_list (VNet.dns_servers p) = false →
  VNet.reconcile_dns_servers p vnet changed results = Ok (c, r) → r = results ∧ c = changed.
Proof.
  intros Hv Hp. unfold VNet.reconcile_dns_servers.
  destruct (VNet.dns_servers p) as [[|s l]|]; try done;
    destruct (VNet.purge_dns_servers p), (vnet_dhcp_options vnet) as [[|??]|]; try done;
    simpl; by intros [= <- <-].
Qed.

(** the serialized network after the comparison: the keys that the
    comparison does not touch, and the DNS servers when neither the
    network nor the request has any *)
Lemma diff_existing_keys p vnet changed results :
  VNet.diff_existing cm p vnet = Ok (changed, results) →
  results !! "location" = Some (VStr (vnet_location vnet)) ∧
  is_Some (results !! "tags") ∧
  (Py.truthy_list (vnet_dhcp_options vnet) = false →
   Py.truthy_list (VNet.dns_servers p) = false →
   results !! "dns_servers" = None).
Proof.
  intros E. unfold VNet.diff_existing in E. apply obind_ok in E as (_ & _ & E).
  assert (VNet.virtual_network_to_dict vnet !! "location" = Some (VStr (vnet_location vnet)))
    as Hloc.
  { unfold VNet.virtual_network_to_dict.
    by destruct (vnet_dhcp_options vnet) as [[|??]|], (vnet_address_space vnet) as [[|??]|]. }
  pose proof (serialized_dns_servers vnet) as Hdns.
  destruct (VNet.state_ p).
  - apply obind_ok in E as ([c1 r1] & E1 & E). apply obind_ok in E as ([c2 r2] & E2 & E).
    split; [|split].
    + erewrite reconcile_dns_servers_other by (done || exact E).
      erewrite reconcile_tags_other by (done || exact E2).
      erewrite reconcile_address_prefixes_other by (done || exact E1). done.
    + erewrite reconcile_dns_servers_other by (done || exact E).
      unfold VNet.reconcile_tags in E2. apply obind_ok in E2 as (v & _ & E2).
      destruct (update_tags cm _ _ _) as [u t]. injection E2 as _ <-.
      rewrite lookup_insert_eq. eauto.
    + intros Hv Hp. apply reconcile_dns_servers_none in E as [-> _]; [|done..].
      erewrite reconcile_tags_other by (done || exact E2).
      erewrite reconcile_address_prefixes_other by (done || exact E1).
      rewrite Hdns. by destruct (vnet_dhcp_options vnet) as [[|??]|].
  - injection E as <- <-. split; [done|]. split; [rewrite serialized_tags; eauto|].
    intros Hv _. rewrite Hdns.
    by destruct (vnet_dhcp_options vnet) as [[|??]|].
Qed.


End VNetPaths.

Section BlobUri.

Lemma strip_prefix_spec pre s r : Py.strip_prefix pre s = Some r ↔ s = pre +:+ r.
Proof.
  revert s. induction pre as [|a pre IH]; intros s; simpl.
  - split; [by intros [= ->] | by intros ->].
  - destruct s as [|b s]; [done|]. destruct (Ascii.eqb a b) eqn:E.
    + apply Ascii.eqb_eq in E as ->. rewrite IH. split; [by intros -> | by intros [= ->]].
    + apply Ascii.eqb_neq in E. split; [done | intros [= -> ?]; done].
Qed.

Lemma split_at_sound c s l r :
  Py.split_at c s = Some (l, r) → s = l +:+ String c r ∧ Py.contains_char c l = false.
Proof.
  revert l r. induction s as [|d s IH]; intros l r; simpl; [done|].
  destruct (Ascii.eqb c d) eqn:E.
  - apply Ascii.eqb_eq in E as ->. by intros [= <- <-].
  - destruct (Py.split_at c s) as [[l' r']|]; [|done].
    intros [= <- <-]. destruct (IH l' r' eq_refl) as [-> Hl]. simpl. by rewrite E.
Qed.

Lemma split_at_complete c l r :
  Py.contains_char c l = false → Py.split_at c (l +:+ String c r) = Some (l, r).
Proof.
  induction l as [|d l IH]; simpl.
  - by rewrite Ascii.eqb_refl.
  - intros [Hd Hl]%orb_false_iff. by rewrite Hd, IH.
Qed.

Lemma split_at_spec c s l r :
  Py.split_at c s = Some (l, r) ↔ s = l +:+ String c r ∧ Py.contains_char c l = false.
Proof.
  split; [apply split_at_sound|]. intros [-> H]. by apply split_at_complete.
Qed.

Lemma split_at_none c s : Py.split_at c s = None ↔ Py.contains_char c s = false.
Proof.
  induction s as [|d s IH]; simpl; [done|].
  destruct (Ascii.eqb c d); simpl; [done|].
  destruct (Py.split_at c s) as [[]|]; [|by rewrite <- IH].
  split; [done|]. intros H. by apply IH in H.
Qed.

Lemma truthy_spec s : Py.truthy s = true ↔ s ≠ EmptyString.
Proof. by destruct s. Qed.

Lemma blob_name_of_spec s b :
  VM.blob_name_of s = Some b ↔
  b ≠ EmptyString ∧ Py.contains_char Py.newline b = false ∧
  (s = b ∨ s = b +:+ String Py.newline EmptyString).
Proof.
  unfold VM.blob_name_of. destruct (Py.split_at Py.newline s) as [[body rest]|] eqn:E.
  - apply split_at_spec in E as [-> Hb]. destruct rest as [|d rest].
    + destruct (Py.truthy body) eqn:Ht.
      * apply truthy_spec in Ht. split.
        -- intros [= <-]. auto.
        -- intros (Hne & Hn & [H | H]).
           ++ exfalso. apply split_at_none in Hn. rewrite <- H in Hn.
              assert (Py.split_at Py.newline (body +:+ String Py.newline EmptyString)
                      = Some (body, EmptyString)) as Hs by (by apply split_at_spec).
              congruence.
           ++ assert (Py.split_at Py.newline (b +:+ String Py.newline EmptyString)
                      = Some (b, EmptyString)) as Hs by (by apply split_at_spec).
              assert (Py.split_at Py.newline (body +:+ String Py.newline EmptyString)
                      = Some (body, EmptyString)) as Hs' by (by apply split_at_spec).
              rewrite H in Hs'. congruence.
      * split; [done|]. intros (Hne & Hn & [H | H]).
        -- apply split_at_none in Hn. rewrite <- H in Hn.
           assert (Py.split_at Py.newline (body +:+ String Py.newline EmptyString)
                   = Some (body, EmptyString)) as Hs by (by apply split_at_spec).
           congruence.
        -- assert (Py.split_at Py.newline (b +:+ String Py.newline EmptyString)
                   = Some (b, EmptyString)) as Hs by (by apply split_at_spec).
           assert (Py.split_at Py.newline (body +:+ String Py.newline EmptyString)
                   = Some (body, EmptyString)) as Hs' by (by apply split_at_spec).
           rewrite H in Hs'. assert (b = body) as -> by congruence. by destruct body.
    + split; [done|]. intros (Hne & Hn & [H | H]).
      * apply split_at_none in Hn. rewrite <- H in Hn.
        assert (Py.split_at Py.newline (body +:+ String Py.newline (String d rest))
                = Some (body, String d rest)) as Hs by (by apply split_at_spec).
        congruence.
      * assert (Py.split_at Py.newline (b +:+ String Py.newline EmptyString)
                = Some (b, EmptyString)) as Hs by (by apply split_at_spec).
        assert (Py.split_at Py.newline (body +:+ String Py.newline (String d rest))
                = Some (body, String d rest)) as Hs' by (by apply split_at_spec).
        rewrite H in Hs'. congruence.
  - apply split_at_none in E. destruct (Py.truthy s) eqn:Ht.
    + apply truthy_spec in Ht. split.
      * intros [= <-]. auto.
      * intros (Hne & Hn & [-> | ->]); [done|]. exfalso.
        apply split_at_none in E.
        assert (Py.split_at Py.newline (b +:+ String Py.newline EmptyString)
                = Some (b, EmptyString)) as Hs by (by apply split_at_spec).
        congruence.
    + destruct s; [|done]. split; [done|]. intros (Hne & _ & [<- | H]); [done|].
      by destruct b.
Qed.

(** X13: [extract_names_from_blob_uri] inverts the way the module builds the
    URI of a VHD.  It answers the account, the container and the blob
    exactly for the URIs
    [https://<account>.blob.core.windows.net/<container>/<blob>] with a
    non-empty account without a dot, a non-empty container without a
    slash and a non-empty blob without a newline, one newline after the
    blob being ignored; every other string raises. *)
Theorem blob_uri_round_trip blob_uri account container blob :
  VM.extract_names_from_blob_uri blob_uri = Ok (account, container, blob) ↔
  account ≠ EmptyString ∧ Py.contains_char "." account = false ∧
  container ≠ EmptyString ∧ Py.contains_char "/" container = false ∧
  blob ≠ EmptyString ∧ Py.contains_char Py.newline blob = false ∧
  (blob_uri = VM.vhd_uri_of account (Some container) (Some blob) ∨
   blob_uri = VM.vhd_uri_of account (Some container)
                (Some (blob +:+ String Py.newline EmptyString))).
Proof.
  unfold VM.extract_names_from_blob_uri, VM.vhd_uri_of, VM.fmt. simpl default. split.
  - destruct (Py.strip_prefix "https://" blob_uri) as [r1|] eqn:E1; [|done].
    apply strip_prefix_spec in E1 as ->. cbn [mbind option_bind].
    destruct (Py.split_at "." r1) as [[a r2]|] eqn:E2; [|done].
    apply split_at_spec in E2 as [-> Ha]. cbn [mbind option_bind].
    destruct (Py.strip_prefix "blob.core.windows.net/" r2) as [r3|] eqn:E3; [|done].
    apply strip_prefix_spec in E3 as ->. cbn [mbind option_bind].
    destruct (Py.split_at "/" r3) as [[c r4]|] eqn:E4; [|done].
    apply split_at_spec in E4 as [-> Hc]. cbn [mbind option_bind].
    destruct (VM.blob_name_of r4) as [b|] eqn:E5; [|done].
    apply blob_name_of_spec in E5 as (Hb & Hn & Hr). cbn [mbind option_bind].
    destruct (Py.truthy a) eqn:Ta; [|done]. destruct (Py.truthy c) eqn:Tc; [|done].
    simpl. intros [= <- <- <-]. apply truthy_spec in Ta, Tc.
    repeat split; try done. destruct Hr as [-> | ->]; [by left | by right].
  - intros (Ha & Hd & Hc & Hs & Hb & Hn & Hu).
    assert (∀ tail, VM.blob_name_of tail = Some blob →
              blob_uri = "https://" +:+ account +:+ ".blob.core.windows.net/" +:+ container
                         +:+ "/" +:+ tail →
              match
                rest ← Py.strip_prefix "https://" blob_uri;
                '(accountname, rest) ← Py.split_at "." rest;
                rest ← Py.strip_prefix "blob.core.windows.net/" rest;
                '(containername, rest) ← Py.split_at "/" rest;
                blobname ← VM.blob_name_of rest;
                if Py.truthy accountname && Py.truthy containername
                then Some (accountname, containername, blobname) else None
              with
              | Some names => Ok names
              | None => Err (PythonException
                               ("Exception: unable to parse blob uri '" +:+ blob_uri +:+ "'"))
              end = Ok (account, container, blob)) as Hgo.
    { intros tail Ht ->.
      rewrite (proj2 (strip_prefix_spec "https://" _ _) eq_refl). cbn [mbind option_bind].
      change (account +:+ ".blob.core.windows.net/" +:+ container +:+ "/" +:+ tail)
        with (account +:+ String "." ("blob.core.windows.net/" +:+ container +:+ "/" +:+ tail)).
      rewrite (proj2 (split_at_spec "." _ account _) (conj eq_refl Hd)).
      cbn [mbind option_bind].
      rewrite (proj2 (strip_prefix_spec "blob.core.windows.net/" _ _) eq_refl).
      cbn [mbind option_bind].
      change (container +:+ "/" +:+ tail) with (container +:+ String "/" tail).
      rewrite (proj2 (split_at_spec "/" _ container _) (conj eq_refl Hs)).
      cbn [mbind option_bind]. rewrite Ht. cbn [mbind option_bind].
      apply truthy_spec in Ha, Hc. by rewrite Ha, Hc. }
    destruct Hu as [Hu | Hu].
    + apply (Hgo blob); [|done]. apply blob_name_of_spec. auto.
    + apply (Hgo (blob +:+ String Py.newline EmptyString)); [|done].
      apply blob_name_of_spec. auto.
Qed.

End BlobUri.

Section Same.
Context {W R : Type}.
Implicit Types st : St W R.

Lemma same_refl st : same st st.
Proof. done. Qed.

Lemma same_trans st1 st2 st3 : same st1 st2 → same st2 st3 → same st1 st3.
Proof. intros [? ?] [? ?]. split; congruence. Qed.

Lemma same_run {A} (m : M W R A) st st' r :
  emits read_only m → keeps m → m st = (st', r) → same st st'.
Proof.
  intros He Hk E. split.
  - by apply (reads_run _ _ _ _ He) in E as [? _].
  - by apply (keeps_run _ _ _ _ Hk) in E.
Qed.

Lemma collect_ok {A B} (body : A → M W R B) (Q : W → A → B → Prop) l st st' bs :
  (∀ x s s' b, body x s = (s', Ok b) → same s s' ∧ Q (world s) x b) →
  collect l body st = (st', Ok bs) → same st st' ∧ Forall2 (Q (world st)) l bs.
Proof.
  intros H. revert st bs. induction l as [|x l IH]; intros st bs; simpl.
  - intros [= <- <-]. split; [done | constructor].
  - intros E. apply bind_ok in E as (s1 & b & E1 & E).
    apply bind_ok in E as (s2 & bs' & E2 & E). injection E as <- <-.
    apply H in E1 as [S1 Q1]. apply IH in E2 as [S2 Q2].
    split; [by eapply same_trans|]. constructor; [done|].
    destruct S1 as [Hw _]. by rewrite Hw in Q2.
Qed.

End Same.

Section NormalizeFacts.
Context {W : Type} (rm : Remote W) (p : VM.Params).
Implicit Types st : St W VM.Results.

Lemma get_resource_group_ok rg st st' location :
  get_resource_group rm rg st = (st', Ok location) →
  same st st' ∧ resource_groups_get rm (world st) rg = Some location.
Proof.
  intros E. split; [by eapply same_run; [| |exact E]; steps|].
  unfold get_resource_group, bind, query in E. simpl in E.
  destruct (resource_groups_get rm (world st) rg); [|done]. by injection E as _ <-.
Qed.

Lemma get_network_interface_ok name st st' nic :
  VM.get_network_interface rm p name st = (st', Ok nic) →
  same st st' ∧ network_interfaces_get rm (world st) (VM.resource_group p) name = Found nic.
Proof.
  intros E. split; [by eapply same_run; [| |exact E]; steps|].
  unfold VM.get_network_interface, bind, query in E. simpl in E.
  destruct (network_interfaces_get rm (world st) _ name); [|done..]. by injection E as _ <-.
Qed.

Lemma get_storage_account_ok name st st' account :
  VM.get_storage_account rm p name st = (st', Ok account) →
  same st st' ∧
  storage_accounts_get_properties rm (world st) (VM.resource_group p) name = Found account.
Proof.
  intros E. split; [by eapply same_run; [| |exact E]; steps|].
  unfold VM.get_storage_account, bind, query in E. simpl in E.
  destruct (storage_accounts_get_properties rm (world st) _ name); [|done..].
  by injection E as _ <-.
Qed.

Lemma vm_size_is_valid_ok location size st st' valid :
  VM.vm_size_is_valid rm location size st = (st', Ok valid) →
  same st st' ∧
  ∃ sizes, virtual_machine_sizes_list rm (world st) location = Some sizes ∧
           valid = bool_decide (size ∈ sizes).
Proof.
  intros E. split; [by eapply same_run; [| |exact E]; steps|].
  unfold VM.vm_size_is_valid, bind, query in E. simpl in E.
  destruct (virtual_machine_sizes_list rm (world st) location) as [sizes|]; [|done].
  injection E as _ <-. exists sizes. split; [done|].
  induction sizes as [|x l IH]; [done|]. simpl. rewrite IH.
  destruct (String.eqb size x) eqn:Ex.
  - apply String.eqb_eq in Ex as ->. simpl. symmetry. apply bool_decide_eq_true_2. by left.
  - apply String.eqb_neq in Ex. simpl. apply bool_decide_ext. rewrite elem_of_cons.
    split; [auto | intros [?|?]; done].
Qed.

Lemma filter_eq_head (ver : string) versions v l :
  filter (λ v, v = ver) versions = v :: l → v = ver ∧ ver ∈ versions.
Proof.
  intros E. assert (v ∈ filter (λ v, v = ver) versions) as H by (rewrite E; set_solver).
  apply list_elem_of_filter in H as [-> ?]. done.
Qed.

Lemma get_image_version_ok location image st st' v :
  VM.get_image_version rm location image st = (st', Ok v) →
  same st st' ∧
  ∃ pub off sk ver versions,
    image !! "publisher" = Some pub ∧ image !! "offer" = Some off ∧
    image !! "sku" = Some sk ∧ image !! "version" = Some ver ∧
    virtual_machine_images_list rm (world st) location pub off sk = Some versions ∧
    resolves ver versions v.
Proof.
  intros E. split; [by eapply same_run; [| |exact E]; steps|].
  unfold VM.get_image_version in E.
  apply bind_ok in E as (s1 & pub & [= <- E1] & E). apply subscript_ok in E1.
  apply bind_ok in E as (s2 & off & [= <- E2] & E). apply subscript_ok in E2.
  apply bind_ok in E as (s3 & sk & [= <- E3] & E). apply subscript_ok in E3.
  unfold bind, query in E. simpl in E.
  destruct (virtual_machine_images_list rm (world st) location pub off sk) as [versions|] eqn:El;
    [|done].
  destruct (subscript image "version") as [ver|] eqn:E4; [|done].
  apply subscript_ok in E4. exists pub, off, sk, ver, versions.
  repeat (split; [done|]). unfold resolves.
  destruct versions as [|v0 vs]; [done|].
  destruct (String.eqb ver "latest").
  - destruct (last (v0 :: vs)) as [w|] eqn:Hl; [|done]. injection E as _ <-.
    split; [|done]. apply last_Some in Hl as (l' & ->). set_solver.
  - destruct (filter _ (v0 :: vs)) as [|w l] eqn:Hf; [done|]. injection E as _ <-.
    apply filter_eq_head in Hf as [-> ?]. done.
Qed.

Lemma lacks_false image k :
  VM.lacks image k = false → ∃ v, image !! k = Some v ∧ v ≠ EmptyString.
Proof.
  unfold VM.lacks. destruct (image !! k) as [[|c s]|]; try done. intros _. eauto.
Qed.

Lemma normalize_image_ok location st st' image' :
  VM.normalize_image rm p location st = (st', Ok image') →
  same st st' ∧
  if VM.truthy_dict (VM.image p) then
    ∃ image pub off sk ver versions v,
      VM.image p = Some image ∧ image_of image pub off sk ver ∧
      virtual_machine_images_list rm (world st) location pub off sk = Some versions ∧
      resolves ver versions v ∧
      image' = Some (<["version" := v]> image)
  else image' = VM.image p.
Proof.
  intros E. split; [by eapply same_run; [| |exact E]; steps|].
  unfold VM.normalize_image in E. destruct (VM.truthy_dict (VM.image p)) eqn:Ht.
  2: { by injection E as _ <-. }
  destruct (VM.image p) as [image|]; [|done]. simpl in E.
  apply bind_ok in E as (s1 & [] & E1 & E).
  destruct (VM.lacks image "publisher") eqn:L1; [done|].
  destruct (VM.lacks image "offer") eqn:L2; [done|].
  destruct (VM.lacks image "sku") eqn:L3; [done|].
  destruct (VM.lacks image "version") eqn:L4; [done|].
  simpl in E1. injection E1 as <-.
  apply lacks_false in L1 as (pub & H1 & N1), L2 as (off & H2 & N2),
    L3 as (sk & H3 & N3), L4 as (ver & H4 & N4).
  apply bind_ok in E as (s2 & v & E2 & E).
  apply get_image_version_ok in E2 as [_ (pub' & off' & sk' & ver' & versions & G1 & G2 & G3 & G4 & Gl & Gr)].
  rewrite H1 in G1. rewrite H2 in G2. rewrite H3 in G3. rewrite H4 in G4.
  injection G1 as <-. injection G2 as <-. injection G3 as <-. injection G4 as <-.
  unfold bind, lift, subscript in E. rewrite H4 in E. injection E as _ <-.
  exists image, pub, off, sk, ver, versions, v. split; [done|].
  split; [by repeat split|]. split; [done|]. split; [done|].
  pose proof Gr as [_ Gv]. destruct (String.eqb ver "latest"); [done|].
  subst v. by rewrite insert_id.
Qed.

Lemma check_ssh_keys_ok keys :
  ofold (λ (_ : unit) key, VM.check_ssh_key key) keys tt = Ok tt ↔
  ∃ pks, keys = map key_entry_of pks ∧ Forall usable_key pks.
Proof.
  induction keys as [|k keys IH]; simpl.
  - split; [by exists []|done].
  - destruct k as [|[[|c path]|] [[|d data]|]]; simpl;
      try (split; [done | intros ([|pk pks] & [= ] & ?); done]);
      try (split; [done | intros ([|pk pks] & H & Hu); [done|];
                          injection H as Hp Hd _; inversion Hu as [|?? [H1 H2]]; subst;
                          first [ by rewrite <- Hp in H1 | by rewrite <- Hd in H2 ]]).
    rewrite IH. split.
    + intros (pks & -> & Hu).
      exists ({| pk_path := String c path; pk_key_data := String d data |} :: pks).
      split; [done|]. constructor; [by split|done].
    + intros ([|pk pks] & H & Hu); [done|]. injection H as _ _ ->.
      exists pks. split; [done|]. by inversion Hu.
Qed.

Lemma convert_ssh_keys_ok pks acc :
  ofold (λ acc key, k ← VM.ssh_public_key_of key; Ok (acc ++ [k])) (map key_entry_of pks) acc
  = Ok (acc ++ pks).
Proof.
  revert acc. induction pks as [|pk pks IH]; intros acc; simpl.
  - by rewrite app_nil_r.
  - rewrite IH, <- app_assoc. by destruct pk.
Qed.

(** what the parameter checks establish when they pass *)
Lemma normalize_ok st st' n :
  VM.normalize rm p st = (st', Ok n) →
  same st st' ∧
  ∃ group_location,
    resource_groups_get rm (world st) (VM.resource_group p) = Some group_location ∧
    VM.n_location n = location_or (VM.location p) group_location ∧
    if VM.wants_vm (VM.state_ p) then
      (∀ size, VM.vm_size p = Some size → size ≠ EmptyString →
         ∃ sizes, virtual_machine_sizes_list rm (world st) (VM.n_location n) = Some sizes ∧
                  size ∈ sizes) ∧
      Forall2 (λ name id, ∃ nic,
                 network_interfaces_get rm (world st) (VM.resource_group p) name = Found nic ∧
                 id = nic_id nic)
              (default [] (VM.network_interface_names p)) (VM.n_network_interfaces n) ∧
      (∃ pks, default [] (VM.ssh_public_keys p) = map key_entry_of pks ∧ Forall usable_key pks) ∧
      (if VM.truthy_dict (VM.image p) then
         ∃ image pub off sk ver versions v,
           VM.image p = Some image ∧ image_of image pub off sk ver ∧
           virtual_machine_images_list rm (world st) (VM.n_location n) pub off sk
             = Some versions ∧
           resolves ver versions v ∧
           VM.n_image n = Some (<["version" := v]> image)
       else VM.n_image n = VM.image p) ∧
      VM.n_storage_blob_name n
        = (if Py.truthy_opt (VM.storage_blob_name p) then VM.storage_blob_name p
           else Some (VM.name p +:+ ".vhd")) ∧
      VM.n_requested_vhd_uri n
        = (if Py.truthy_opt (VM.storage_account_name p)
           then Some (VM.vhd_uri_of (default EmptyString (VM.storage_account_name p))
                        (VM.storage_container_name p) (VM.n_storage_blob_name n))
           else None) ∧
      (∀ account, VM.storage_account_name p = Some account → account ≠ EmptyString →
         found (storage_accounts_get_properties rm (world st) (VM.resource_group p) account)
         = true) ∧
      VM.n_disable_ssh_password n = Some (negb (VM.ssh_password p))
    else
      VM.n_network_interfaces n = [] ∧ VM.n_image n = VM.image p ∧
      VM.n_storage_blob_name n = VM.storage_blob_name p ∧
      VM.n_requested_vhd_uri n = None ∧ VM.n_disable_ssh_password n = None.
Proof.
  intros E. split; [by eapply same_run; [| |exact E]; steps|].
  unfold VM.normalize in E.
  apply bind_ok in E as (s1 & group_location & E1 & E).
  apply get_resource_group_ok in E1 as [[W1 _] G]. exists group_location. split; [done|].
  fold (location_or (VM.location p) group_location) in E.
  set (location := location_or (VM.location p) group_location) in *.
  destruct (VM.wants_vm (VM.state_ p)).
  2: { by injection E as _ <-. }
  apply bind_ok in E as (s2 & [] & E2 & E).
  assert (world s2 = world st ∧
          ∀ size, VM.vm_size p = Some size → size ≠ EmptyString →
            ∃ sizes, virtual_machine_sizes_list rm (world st) location = Some sizes ∧
                     size ∈ sizes) as [W2 Hsize].
  { destruct (VM.vm_size p) as [size|]; [|by injection E2 as <-].
    destruct (Py.truthy size) eqn:Ts; [|injection E2 as <-; split; [done|];
                                         intros ? [= <-]; by destruct size].
    apply bind_ok in E2 as (s' & valid & Ev & E2).
    apply vm_size_is_valid_ok in Ev as [[Wv _] (sizes & Hl & ->)].
    destruct (bool_decide (size ∈ sizes)) eqn:Hin; [|done]. injection E2 as <-.
    split; [congruence|]. intros ? [= <-] _. exists sizes. rewrite <- W1, Hl.
    split; [done|]. by apply bool_decide_eq_true in Hin. }
  apply bind_ok in E as (s3 & nics & E3 & E).
  assert (world s3 = world st ∧
          Forall2 (λ name id, ∃ nic,
                     network_interfaces_get rm (world st) (VM.resource_group p) name
                     = Found nic ∧ id = nic_id nic)
                  (default [] (VM.network_interface_names p)) nics) as [W3 Hnics].
  { destruct (VM.network_interface_names p) as [names|]; simpl.
    2: { injection E3 as <- <-. split; [done | constructor]. }
    apply (collect_ok _ (λ w name id, ∃ nic,
             network_interfaces_get rm w (VM.resource_group p) name = Found nic
             ∧ id = nic_id nic)) in E3 as [[Wc _] Hc].
    - split; [congruence|]. by rewrite W2 in Hc.
    - intros x s s' b Eb. apply bind_ok in Eb as (s'' & nic & En & Eb).
      injection Eb as <- <-. apply get_network_interface_ok in En as [? ?]. eauto. }
  apply bind_ok in E as (s4 & [] & E4 & E). unfold lift in E4.
  injection E4 as <- E4. apply check_ssh_keys_ok in E4.
  apply bind_ok in E as (s5 & image' & E5 & E).
  apply normalize_image_ok in E5 as [[W5 _] Himg]. rewrite W3 in Himg.
  apply bind_ok in E as (s6 & uri & E6 & E). injection E as _ <-. simpl.
  repeat (split; [done|]).
  assert (uri = (if Py.truthy_opt (VM.storage_account_name p)
                 then Some (VM.vhd_uri_of (default EmptyString (VM.storage_account_name p))
                              (VM.storage_container_name p)
                              (if Py.truthy_opt (VM.storage_blob_name p)
                               then VM.storage_blob_name p
                               else Some (VM.name p +:+ ".vhd")))
                 else None)
          ∧ ∀ account, VM.storage_account_name p = Some account → account ≠ EmptyString →
              found (storage_accounts_get_properties rm (world st) (VM.resource_group p) account)
              = true) as [-> Hacc].
  { destruct (VM.storage_account_name p) as [account|]; simpl.
    2: { by injection E6 as _ <-. }
    destruct (Py.truthy account) eqn:Ta.
    2: { injection E6 as _ <-. split; [done|]. intros ? [= <-]. by destruct account. }
    apply bind_ok in E6 as (s' & a & Ea & E6). injection E6 as _ <-. split; [done|].
    intros ? [= <-] _. apply get_storage_account_ok in Ea as [_ Ea].
    rewrite W5, W3 in Ea. by rewrite Ea. }
  done.
Qed.

End NormalizeFacts.

Section Normalize.
Context {W : Type} (cm : Common) (rm : Remote W).

(** X14: the defaults that the parameter checks resolve.  The location is
    the one given or else that of the resource group; for a machine that
    is to exist the blob defaults to [<name>.vhd], the VHD URI is requested
    only when a storage account is named and is then built from account,
    container and blob, each named interface is replaced by the id that
    the service holds for it, in order, and SSH password login is disabled
    exactly when [ssh_password] is off.  The checks only read. *)
Theorem parameter_defaults p st st' n :
  VM.normalize rm p st = (st', Ok n) →
  world st' = world st ∧ res st' = res st ∧
  (∃ group_location,
     resource_groups_get rm (world st) (VM.resource_group p) = Some group_location ∧
     VM.n_location n = location_or (VM.location p) group_location) ∧
  (VM.wants_vm (VM.state_ p) = true →
   VM.n_storage_blob_name n
     = (if Py.truthy_opt (VM.storage_blob_name p) then VM.storage_blob_name p
        else Some (VM.name p +:+ ".vhd")) ∧
   VM.n_requested_vhd_uri n
     = (if Py.truthy_opt (VM.storage_account_name p)
        then Some (VM.vhd_uri_of (default EmptyString (VM.storage_account_name p))
                     (VM.storage_container_name p) (VM.n_storage_blob_name n))
        else None) ∧
   VM.n_disable_ssh_password n = Some (negb (VM.ssh_password p)) ∧
   Forall2 (λ name id, ∃ nic,
              network_interfaces_get rm (world st) (VM.resource_group p) name = Found nic ∧
              id = nic_id nic)
           (default [] (VM.network_interface_names p)) (VM.n_network_interfaces n)).
Proof.
  intros E. apply normalize_ok in E as [[Hw Hr] (g & Hg & Hl & H)].
  split; [done|]. split; [done|]. split; [eauto|]. intros Hv. rewrite Hv in H.
  destruct H as (_ & Hn & _ & _ & Hb & Hu & _ & Hd). done.
Qed.

(** X15: what the parameter checks guarantee about the named resources of a
    machine that is to exist: a non-empty [vm_size] is among the sizes the
    service lists for the location, a non-empty storage account was
    found, and the version of a given image is one the service lists for
    its publisher, offer and sku, [latest] standing for the last one
    listed. *)
Theorem checked_parameters_exist p st st' n :
  VM.normalize rm p st = (st', Ok n) →
  VM.wants_vm (VM.state_ p) = true →
  (∀ size, VM.vm_size p = Some size → size ≠ EmptyString →
     ∃ sizes, virtual_machine_sizes_list rm (world st) (VM.n_location n) = Some sizes ∧
              size ∈ sizes) ∧
  (∀ account, VM.storage_account_name p = Some account → account ≠ EmptyString →
     found (storage_accounts_get_properties rm (world st) (VM.resource_group p) account)
     = true) ∧
  (VM.truthy_dict (VM.image p) = true →
   ∃ image pub off sk ver versions v,
     VM.image p = Some image ∧ image_of image pub off sk ver ∧
     virtual_machine_images_list rm (world st) (VM.n_location n) pub off sk = Some versions ∧
     resolves ver versions v ∧
     VM.n_image n = Some (<["version" := v]> image)).
Proof.
  intros E Hv. apply normalize_ok in E as [_ (g & Hg & Hl & H)]. rewrite Hv in H.
  destruct H as (Hs & _ & _ & Hi & _ & _ & Ha & _).
  split; [done|]. split; [done|]. intros Ht. by rewrite Ht in Hi.
Qed.

Lemma validate_create_ok p n :
  VM.validate_create p n = Ok tt →
  Py.truthy_opt (VM.admin_username p) = true ∧ VM.truthy_dict (VM.n_image n) = true.
Proof.
  unfold VM.validate_create. destruct (Py.truthy_opt (VM.admin_username p)); [|done].
  simpl. destruct (_ && _); [done|]. simpl.
  by destruct (VM.truthy_dict (VM.n_image n)).
Qed.

(** X16: once the parameter checks and the checks made for a create have
    passed, building the create request can fail in one way only: SSH
    keys are given for a machine whose [os_type] is not [Linux], which
    raises.  Otherwise the request is built: it carries the checked keys
    in their order, the computer name defaults to the name of the
    machine, and interfaces and VHD URI are the ones handed in. *)
Theorem create_request_after_checks p st st' n network_interfaces requested_vhd_uri :
  VM.wants_vm (VM.state_ p) = true →
  VM.normalize rm p st = (st', Ok n) →
  VM.validate_create p n = Ok tt →
  if bool_decide (VM.os_type p = Some "Linux") || negb (Py.truthy_list (VM.ssh_public_keys p))
  then ∃ payload pks,
         VM.create_payload p n network_interfaces requested_vhd_uri = Ok payload ∧
         default [] (VM.ssh_public_keys p) = map key_entry_of pks ∧
         vp_linux_configuration payload = linux_configuration_of p pks ∧
         vp_admin_username payload = VM.admin_username p ∧
         vp_computer_name payload
           = (if Py.truthy_opt (VM.short_hostname p) then VM.short_hostname p
              else Some (VM.name p)) ∧
         vp_network_interfaces payload = network_interfaces ∧
         vp_vhd_uri payload = requested_vhd_uri
  else VM.create_payload p n network_interfaces requested_vhd_uri
       = Err (PythonException "AttributeError: 'NoneType' object has no attribute 'ssh'").
Proof.
  intros Hv E Hc. apply normalize_ok in E as [_ (g & Hg & Hl & H)]. rewrite Hv in H.
  destruct H as (_ & _ & (pks & Hk & Hu) & Hi & _ & _ & _ & Hd).
  apply validate_create_ok in Hc as [Ha Ht].
  destruct (VM.truthy_dict (VM.image p)) eqn:Hti.
  2: { rewrite Hi in Ht. congruence. }
  destruct Hi as (image & pub & off & sk & ver & versions & v & Himg & Hof & _ & _ & Hn).
  destruct Hof as (H1 & H2 & H3 & H4 & _).
  assert (subscript (default ∅ (VM.n_image n)) "publisher" = Ok pub) as S1.
  { rewrite Hn. simpl default. unfold subscript. by rewrite lookup_insert_ne, H1. }
  assert (subscript (default ∅ (VM.n_image n)) "offer" = Ok off) as S2.
  { rewrite Hn. simpl default. unfold subscript. by rewrite lookup_insert_ne, H2. }
  assert (subscript (default ∅ (VM.n_image n)) "sku" = Ok sk) as S3.
  { rewrite Hn. simpl default. unfold subscript. by rewrite lookup_insert_ne, H3. }
  assert (subscript (default ∅ (VM.n_image n)) "version" = Ok v) as S4.
  { rewrite Hn. simpl default. unfold subscript. by rewrite lookup_insert_eq. }
  unfold linux_configuration_of.
  destruct (bool_decide (VM.os_type p = Some "Linux")) eqn:HL;
    destruct (Py.truthy_list (VM.ssh_public_keys p)) eqn:HK; simpl.
  - eexists _, pks. split.
    { unfold VM.create_payload. rewrite S1, S2, S3, S4, HL, HK, Hk. simpl.
      rewrite convert_ssh_keys_ok. simpl. reflexivity. }
    simpl. by rewrite Hd.
  - eexists _, pks. split.
    { unfold VM.create_payload. rewrite S1, S2, S3, S4, HL, HK. simpl. reflexivity. }
    simpl. by rewrite Hd.
  - unfold VM.create_payload. rewrite S1, S2, S3, S4, HL, HK, Hk. simpl.
    by rewrite convert_ssh_keys_ok.
  - eexists _, pks. split.
    { unfold VM.create_payload. rewrite S1, S2, S3, S4, HL, HK. simpl. reflexivity. }
    done.
Qed.

(** X17: a [vm_size] that the service does not list for the location ends
    the invocation after two reads, on the misspelt [foramt] of line 576
    and not with the parameter error that the line was to report. *)
Theorem unlisted_vm_size_raises p st group_location size sizes :
  resource_groups_get rm (world st) (VM.resource_group p) = Some group_location →
  VM.wants_vm (VM.state_ p) = true →
  VM.vm_size p = Some size → size ≠ EmptyString →
  virtual_machine_sizes_list rm (world st) (location_or (VM.location p) group_location)
    = Some sizes →
  size ∉ sizes →
  VM.exec_module_impl cm rm p st
  = (mkSt (world st)
          (trace st ++ [Event (ResourceGroupsGet (VM.resource_group p)) true;
                        Event (VirtualMachineSizesList
                                 (location_or (VM.location p) group_location)) true])
          (res st),
     Err (PythonException "AttributeError: 'str' object has no attribute 'foramt'")).
Proof.
  intros Hg Hv Hs Hne Hl Hin.
  assert (existsb (String.eqb size) sizes = false) as Hex.
  { apply not_true_iff_false. intros (x & Hx & Ex)%existsb_exists.
    apply String.eqb_eq in Ex as <-. apply Hin. by apply list_elem_of_In. }
  unfold VM.exec_module_impl, VM.diff_phase. rewrite !bind_run.
  assert (VM.normalize rm p st
          = (mkSt (world st)
               (trace st ++ [Event (ResourceGroupsGet (VM.resource_group p)) true;
                             Event (VirtualMachineSizesList
                                      (location_or (VM.location p) group_location)) true])
               (res st),
             Err (PythonException "AttributeError: 'str' object has no attribute 'foramt'")))
    as ->; [|done].
  unfold VM.normalize. rewrite bind_run.
  assert (get_resource_group rm (VM.resource_group p) st
          = (mkSt (world st) (trace st ++ [Event (ResourceGroupsGet (VM.resource_group p)) true])
                  (res st), Ok group_location)) as ->.
  { unfold get_resource_group, bind, query. simpl. by rewrite Hg. }
  fold (location_or (VM.location p) group_location). rewrite Hv, Hs.
  destruct size as [|c s]; [done|]. simpl Py.truthy. cbv iota.
  rewrite !bind_run. unfold VM.vm_size_is_valid. rewrite bind_run. unfold query.
  cbn [world trace res]. rewrite Hl. cbv beta iota. unfold ret. rewrite Hex. simpl.
  by rewrite <- app_assoc.
Qed.

End Normalize.

Section VMRuns.
Context {W : Type} (cm : Common) (rm : Remote W).

Lemma vm_exec_run p st :
  VM.exec_module_impl cm rm p st
  = match VM.diff_phase cm rm p st with
    | (st1, Err e) => (st1, Err e)
    | (st1, Ok (n, f)) =>
        let o := VM.set_outcome (VM.f_changed f) (VM.f_results f)
                   (VM.f_powerstate_change f) (res st1) in
        let st2 := mkSt (world st1) (trace st1) o in
        if VM.check_mode p then (st2, Ok o)
        else if VM.f_changed f then
               match VM.apply cm rm p n f st2 with
               | (st3, Ok _) => (st3, Ok (res st3))
               | (st3, Err e) => (st3, Err e)
               end
             else (st2, Ok o)
    end.
Proof.
  unfold VM.exec_module_impl. rewrite bind_run.
  destruct (VM.diff_phase cm rm p st) as [st1 [[n f]|e]]; [|done].
  rewrite bind_run. simpl. destruct (VM.check_mode p); [done|].
  rewrite bind_run. destruct (VM.f_changed f); simpl; [|done].
  by destruct (VM.apply cm rm p n f _) as [st3 [[]|e]].
Qed.

Lemma vm_diff_phase_dry p : VM.diff_phase cm rm (vm_dry_run p) = VM.diff_phase cm rm p.
Proof. reflexivity. Qed.

(** X18: the dry run of a request on a machine predicts what the comparison
    decides: when the invocation completes, the same request in check
    mode completes with the same [changed], the same list of differences
    and the same power change; when nothing is to change the two end in
    the same state with the same outcome. *)
Theorem vm_check_mode_predicts_change p st st' o :
  VM.exec_module_impl cm rm p st = (st', Ok o) →
  ∃ st_dry o_dry,
    VM.exec_module_impl cm rm (vm_dry_run p) st = (st_dry, Ok o_dry) ∧
    decided o_dry = decided o ∧
    (VM.changed o = false → st_dry = st' ∧ o_dry = o).
Proof.
  rewrite !vm_exec_run, vm_diff_phase_dry.
  destruct (VM.diff_phase cm rm p st) as [st1 [[n f]|e]]; [|done].
  cbv zeta. simpl VM.check_mode at 2.
  destruct (VM.check_mode p).
  { intros [= <- <-]. eexists _, _. split; [reflexivity|]. split; [reflexivity|]. done. }
  destruct (VM.f_changed f) eqn:Hf.
  - set (st2 := mkSt (world st1) (trace st1) _).
    pose proof (vm_apply_preserves_decided cm rm p n f st2) as Hc.
    destruct (VM.apply cm rm p n f st2) as [st3 [[]|e]]; [|done].
    intros [= <- <-]. simpl in Hc. eexists _, _. split; [done|]. rewrite Hc.
    split; [done|]. intros Hch. unfold decided in Hc. injection Hc as Hc _ _.
    rewrite Hch in Hc. done.
  - intros [= <- <-]. eexists _, _. split; [reflexivity|]. split; [reflexivity|]. done.
Qed.

Lemma mutations_cons_true c b t : is_mutation c = true → mutations (Event c b :: t) ≠ [].
Proof. intros H. unfold mutations. by rewrite filter_cons_True. Qed.

Lemma mutations_middle t1 c b t2 : is_mutation c = true → mutations (t1 ++ Event c b :: t2) ≠ [].
Proof.
  intros H. rewrite mutations_app. intros [_ E]%app_eq_nil.
  by apply (mutations_cons_true c b t2).
Qed.

Lemma power_calls_mutations t : power_calls t ≠ [] → mutations t ≠ [].
Proof.
  unfold power_calls, mutations. induction t as [|e t IH]; [done|].
  rewrite !filter_cons. destruct (decide (is_power _ = true)) as [Hp|Hp].
  - intros _. rewrite decide_True; [done|]. by destruct (ev_call e).
  - intros H. destruct (decide _); [done | auto].
Qed.

Lemma any_run {R A} (m : M W R A) st st' r :
  emits (λ _, True) m → m st = (st', r) → ∃ t, trace st' = trace st ++ t.
Proof. intros H E. apply (emits_run _ _ _ _ _ H) in E as (t & ? & _). eauto. Qed.

Lemma issues_bind_l {R A B} Q (m : M W R A) (k : A → M W R B) :
  issues Q m → (∀ a, emits (λ _, True) (k a)) → issues Q (bind m k).
Proof.
  intros Hm Hk st st' b E. apply bind_ok in E as (s1 & a & E1 & E).
  apply Hm in E1 as (t1 & Et1 & M1). eapply any_run in E as (t2 & Et2); [|apply Hk].
  exists (t1 ++ t2). rewrite Et2, Et1, app_assoc. split; [done|].
  rewrite mutations_app. apply Exists_app. by left.
Qed.

Lemma issues_bind_r {R A B} Q (m : M W R A) (k : A → M W R B) :
  emits (λ _, True) m → (∀ a, issues Q (k a)) → issues Q (bind m k).
Proof.
  intros Hm Hk st st' b E. apply bind_ok in E as (s1 & a & E1 & E).
  eapply any_run in E1 as (t1 & Et1); [|apply Hm]. apply Hk in E as (t2 & Et2 & M2).
  exists (t1 ++ t2). rewrite Et2, Et1, app_assoc. split; [done|].
  rewrite mutations_app. apply Exists_app. by right.
Qed.

Lemma issues_command {R A} (Q : call → Prop) c (run : W → W * A) ok :
  is_mutation c = true → Q c → issues Q (command c run ok : M W R A).
Proof.
  intros Hc HQ st st' a. unfold command. destruct (run (world st)) as [w x].
  intros [= <- _]. eexists [_]. split; [done|]. unfold mutations.
  rewrite filter_cons_True by done. by constructor.
Qed.

Lemma issues_some {R A} Q (m : M W R A) st st' a :
  issues Q m → m st = (st', Ok a) → ∃ t, trace st' = trace st ++ t ∧ mutations t ≠ [].
Proof.
  intros H E. apply H in E as (t & Et & Ht). exists t. split; [done|].
  intros Hn. rewrite Hn in Ht. by apply Exists_nil in Ht.
Qed.

Lemma events_of_reads {R A} (m : M W R A) : emits read_only m → emits (λ _, True) m.
Proof. apply emits_mono. done. Qed.

Lemma issues_create_or_update_vm p params :
  issues machine_request (VM.create_or_update_vm cm rm p params).
Proof.
  unfold VM.create_or_update_vm. apply issues_bind_l; [by apply issues_command|].
  intros []; apply events_of_reads; steps.
Qed.

Lemma issues_create_vm p n : issues machine_request (VM.create_vm cm rm p n).
Proof.
  unfold VM.create_vm.
  apply issues_bind_r; [steps|intros _].
  apply issues_bind_r; [steps|intros _].
  apply issues_bind_r; [steps|intros nis].
  apply issues_bind_r; [steps|intros uri].
  apply issues_bind_r; [steps|intros payload].
  apply issues_bind_l; [apply issues_create_or_update_vm|]. intros r. steps.
Qed.

Lemma issues_update_vm p d : issues machine_request (VM.update_vm cm rm p d).
Proof.
  unfold VM.update_vm. apply issues_bind_r; [steps|intros _].
  apply issues_bind_l; [apply issues_create_or_update_vm|]. intros r. steps.
Qed.

Lemma events_delete_vm_storage p vhd_uris :
  emits (λ _, True) (VM.delete_vm_storage rm p vhd_uris).
Proof. steps. Qed.

Lemma issues_delete_vm p vm : issues (λ _, True) (VM.delete_vm cm rm p vm).
Proof.
  pose proof (events_delete_vm_storage p).
  unfold VM.delete_vm.
  apply issues_bind_r; [apply events_of_reads, reads_delete_vm_collect|].
  intros [[vhd_uris nic_names] pip_names]. unfold VM.delete_vm_apply.
  apply issues_bind_r; [steps|intros _].
  apply issues_bind_l; [by apply issues_command|]. intros []; steps.
Qed.

Lemma events_power_step p psc : emits (λ _, True) (VM.power_step cm rm p psc).
Proof. eapply emits_mono; [|apply no_update_power_step]. done. Qed.

Lemma effective_power_step p psc st st' cur :
  VM.results (res st) = Some cur →
  power_calls_for p psc (Some cur) ≠ [] →
  VM.power_step cm rm p psc st = (st', Ok tt) →
  ∃ t, trace st' = trace st ++ t ∧ mutations t ≠ [].
Proof.
  intros Hr Hp E. apply power_step_ok in E as (t & Et & Ht). exists t. split; [done|].
  apply power_calls_mutations. by rewrite Ht, Hr.
Qed.

(** X19: the change flag of a completed invocation tells whether the
    subscription was touched: outside check mode [changed] is true exactly
    when a mutating call was issued, and without one the subscription is
    as it was found. *)
Theorem vm_changed_tells_mutation p st st' o :
  VM.exec_module_impl cm rm p st = (st', Ok o) →
  ∃ t, trace st' = trace st ++ t ∧
       (VM.changed o && negb (VM.check_mode p) = true ↔ mutations t ≠ []) ∧
       (mutations t = [] → world st' = world st).
Proof.
  rewrite vm_exec_run.
  destruct (reads_run _ st _ _ (reads_diff_phase cm rm p)
              (surjective_pairing (VM.diff_phase cm rm p st))) as (Hw & t1 & E1 & F1).
  pose proof (mutations_reads t1 F1) as M1.
  destruct (VM.diff_phase cm rm p st) as [st1 [[n f]|e]] eqn:Ed; [|done].
  simpl in Hw, E1. cbv zeta.
  destruct (VM.check_mode p).
  { intros [= <- <-]. exists t1. simpl. rewrite andb_false_r, M1. done. }
  destruct (VM.f_changed f) eqn:Hf.
  2: { intros [= <- <-]. exists t1. simpl. rewrite M1. done. }
  set (st2 := mkSt (world st1) (trace st1) _).
  pose proof (vm_apply_preserves_decided cm rm p n f st2) as Hc.
  destruct (VM.apply cm rm p n f st2) as [st3 [[]|e]] eqn:Ea; [|done].
  intros [= <- <-]. simpl in Hc. injection Hc as Hc _ _. rewrite Hc. simpl.
  assert (∃ t2, trace st3 = trace st2 ++ t2 ∧ mutations t2 ≠ []) as (t2 & E2 & M2).
  { unfold VM.diff_phase in Ed. apply bind_ok in Ed as (s0 & n' & En & Ed).
    apply bind_ok in Ed as (s1 & f' & Ef & Ed). injection Ed as -> -> ->.
    unfold VM.apply in Ea. destruct (VM.wants_vm (VM.state_ p)) eqn:Hv.
    2: { by apply (issues_some _ _ _ _ _ (issues_delete_vm p _)) in Ea. }
    apply bind_ok in Ea as (s3 & [] & Ea & Ep).
    destruct (VM.f_vm f) as [[vm d]|] eqn:Hfv.
    2: { apply (issues_some _ _ _ _ _ (issues_create_vm p n)) in Ea as (t & Et & Mt).
         eapply any_run in Ep as (t' & Et'); [|apply events_power_step].
         exists (t ++ t'). rewrite Et', Et, app_assoc. split; [done|].
         rewrite mutations_app. by intros [? _]%app_eq_nil. }
    destruct (virtual_machines_get rm (world s0) (VM.resource_group p) (VM.name p))
      as [vm'| |] eqn:Hg.
    2,3: unfold VM.fetch_and_diff, bind, query in Ef; simpl in Ef; rewrite Hg in Ef;
         simpl in Ef; try done; injection Ef as _ Ef; by rewrite <- Ef in Hfv.
    destruct (fetch_and_diff_found cm rm p n s0 st1 f vm' Hg Ef) as (d0 & _ & _ & _ & H).
    rewrite Hv in H. destruct H as (r & Hd & -> & Hdiffs). simpl in *.
    injection Hfv as <- <-.
    apply bind_ok in Ea as (s4 & o4 & [= <- <-] & Ea). simpl in Ea. rewrite Hdiffs in Ea.
    destruct (VM.diffs r) as [|x l] eqn:Hl.
    - injection Ea as <-.
      apply diff_ok in Hd as (_ & _ & Hps & Hch). rewrite Hl in Hch.
      eapply effective_power_step in Ep; [done|done|].
      rewrite Hps, power_calls_for_expected. rewrite Hps in Hch.
      unfold expected_power_calls. unfold VM.diff_power_state in Hch.
      destruct (VM.state_ p), (bool_decide (VM.d_power_state (VM.dict r) = Some "running"));
        simpl in *; congruence.
    - apply (issues_some _ _ _ _ _ (issues_update_vm p _)) in Ea as (t & Et & Mt).
      eapply any_run in Ep as (t' & Et'); [|apply events_power_step].
      exists (t ++ t'). rewrite Et', Et, app_assoc. split; [done|].
      rewrite mutations_app. by intros [? _]%app_eq_nil. }
  exists (t1 ++ t2). rewrite E2. simpl. rewrite E1, app_assoc. split; [done|].
  rewrite mutations_app, M1. simpl. split; [by split|done].
Qed.

End VMRuns.

Section Balanced.
Context {W : Type}.
Implicit Types st : St W VM.Results.

Lemma balanced_nothing {A} (m : M W VM.Results A) :
  (∀ st, (m st).1 = st) → balanced m.
Proof.
  intros H st. exists [], []. unfold added. rewrite H, !app_nil_r. done.
Qed.

Lemma balanced_ret {A} (a : A) : balanced (ret a : M W VM.Results A).
Proof. by apply balanced_nothing. Qed.

Lemma balanced_throw {A} e : balanced (throw e : M W VM.Results A).
Proof. by apply balanced_nothing. Qed.

Lemma balanced_lift {A} (x : outcome A) : balanced (lift x : M W VM.Results A).
Proof. by apply balanced_nothing. Qed.

Lemma balanced_get_res : balanced (get_res : M W VM.Results VM.Results).
Proof. by apply balanced_nothing. Qed.

Lemma balanced_modify_res g :
  (∀ r, VM.actions (g r) = VM.actions r) → balanced (modify_res g : M W VM.Results unit).
Proof.
  intros H st. exists [], []. unfold added. simpl. rewrite H, !app_nil_r. done.
Qed.

Lemma balanced_query {A} c (ask : W → A) ok :
  is_mutation c = false → balanced (query c ask ok : M W VM.Results A).
Proof.
  intros H st. eexists [_], []. unfold added. simpl. rewrite app_nil_r.
  split; [done|]. unfold mutations. by rewrite filter_cons_False by (simpl; congruence).
Qed.

Lemma balanced_bind {A B} (m : M W VM.Results A) (k : A → M W VM.Results B) :
  balanced m → (∀ a, balanced (k a)) → balanced (bind m k).
Proof.
  intros Hm Hk st. pose proof (bind_run m k st) as Hb.
  destruct (Hm st) as (t1 & a1 & [E1 A1] & L1).
  destruct (m st) as [s1 [x|e]]; simpl in *.
  2: { exists t1, a1. unfold added. by rewrite Hb. }
  destruct (Hk x s1) as (t2 & a2 & [E2 A2] & L2).
  exists (t1 ++ t2), (a1 ++ a2). unfold added. rewrite Hb, E2, A2, E1, A1, !app_assoc.
  split; [done|]. by rewrite mutations_app, !length_app, L1, L2.
Qed.

Lemma balanced_logged {A B} entry c (run : W → W * A) ok (k : A → M W VM.Results B) :
  is_mutation c = true → (∀ x, balanced (k x)) →
  balanced (bind (VM.log_action entry) (λ _, bind (command c run ok) k)).
Proof.
  intros Hc Hk st.
  assert (bind (VM.log_action entry) (λ _, bind (command c run ok) k) st
          = k (run (world st)).2
              (mkSt (run (world st)).1 (trace st ++ [Event c (ok (run (world st)).2)])
                 (VM.add_action entry (res st)))) as Hb.
  { rewrite bind_run. simpl. rewrite bind_run. unfold command. simpl.
    by destruct (run (world st)) as [w x]. }
  destruct (Hk (run (world st)).2
               (mkSt (run (world st)).1 (trace st ++ [Event c (ok (run (world st)).2)])
                  (VM.add_action entry (res st)))) as (t2 & a2 & [E2 A2] & L2).
  simpl in *. exists (Event c (ok (run (world st)).2) :: t2), (entry :: a2). unfold added.
  rewrite Hb, E2, A2, <- !app_assoc. split; [done|].
  unfold mutations in *. rewrite filter_cons_True by done. simpl. by rewrite L2.
Qed.

Lemma settles_command {A B} c (run : W → W * A) ok (k : A → M W VM.Results B) :
  is_mutation c = true → (∀ x, balanced (k x)) → settles (bind (command c run ok) k).
Proof.
  intros Hc Hk st.
  assert (bind (command c run ok) k st
          = k (run (world st)).2
              (mkSt (run (world st)).1 (trace st ++ [Event c (ok (run (world st)).2)])
                 (res st))) as Hb.
  { rewrite bind_run. unfold command. by destruct (run (world st)) as [w x]. }
  destruct (Hk (run (world st)).2
               (mkSt (run (world st)).1 (trace st ++ [Event c (ok (run (world st)).2)])
                  (res st))) as (t2 & a2 & [E2 A2] & L2).
  simpl in *. exists (Event c (ok (run (world st)).2) :: t2), a2. unfold added.
  rewrite Hb, E2, A2, <- !app_assoc. split; [done|].
  unfold mutations in *. rewrite filter_cons_True by done. simpl. by rewrite L2.
Qed.

Lemma settles_bind {A B} (m : M W VM.Results A) (k : A → M W VM.Results B) :
  settles m → (∀ a, balanced (k a)) → settles (bind m k).
Proof.
  intros Hm Hk st. pose proof (bind_run m k st) as Hb.
  destruct (Hm st) as (t1 & a1 & [E1 A1] & L1).
  destruct (m st) as [s1 [x|e]]; simpl in *.
  2: { exists t1, a1. unfold added. by rewrite Hb. }
  destruct (Hk x s1) as (t2 & a2 & [E2 A2] & L2).
  exists (t1 ++ t2), (a1 ++ a2). unfold added. rewrite Hb, E2, A2, E1, A1, !app_assoc.
  split; [done|]. rewrite mutations_app, !length_app, L1, L2. done.
Qed.

Lemma balanced_log_settles {A} entry (m : M W VM.Results A) :
  settles m → balanced (bind (VM.log_action entry) (λ _, m)).
Proof.
  intros Hm st.
  destruct (Hm (mkSt (world st) (trace st) (VM.add_action entry (res st))))
    as (t & a & [E A1] & L).
  exists t, (entry :: a). unfold added. rewrite bind_run. simpl in *.
  rewrite E, A1, <- app_assoc. split; [done|]. simpl. by rewrite L.
Qed.

Lemma owing_settles {A} (m : M W VM.Results A) : settles m → owing m.
Proof. intros H st. destruct (H st) as (t & a & ? & ?). exists t, a. auto. Qed.

Lemma owing_bind {A B} (m : M W VM.Results A) (k : A → M W VM.Results B) :
  balanced m → (∀ a, owing (k a)) → owing (bind m k).
Proof.
  intros Hm Hk st. pose proof (bind_run m k st) as Hb.
  destruct (Hm st) as (t1 & a1 & [E1 A1] & L1).
  destruct (m st) as [s1 [x|e]]; simpl in *.
  2: { exists t1, a1. unfold added. rewrite Hb. split; [done|]. right. simpl. eauto. }
  destruct (Hk x s1) as (t2 & a2 & [E2 A2] & L2).
  exists (t1 ++ t2), (a1 ++ a2). unfold added. rewrite Hb, E2, A2, E1, A1, !app_assoc.
  split; [done|]. rewrite mutations_app, !length_app, L1.
  destruct L2 as [L2 | [He L2]]; [left | right; split; [done|]]; lia.
Qed.

Lemma balanced_when b (m : M W VM.Results unit) : balanced m → balanced (when b m).
Proof. destruct b; [done|]. intros _. apply balanced_ret. Qed.

Lemma balanced_for_each {A} (l : list A) (body : A → M W VM.Results unit) :
  (∀ x, balanced (body x)) → balanced (for_each l body).
Proof.
  intros H. induction l as [|x l IH]; simpl; [apply balanced_ret|].
  apply balanced_bind; auto.
Qed.

Lemma balanced_collect {A B} (l : list A) (body : A → M W VM.Results B) :
  (∀ x, balanced (body x)) → balanced (collect l body).
Proof.
  intros H. induction l as [|x l IH]; simpl; [apply balanced_ret|].
  apply balanced_bind; [auto|]. intros b. apply balanced_bind; [auto|].
  intros bs. apply balanced_ret.
Qed.

Lemma balanced_reads {A} (m : M W VM.Results A) : emits read_only m → keeps m → balanced m.
Proof.
  intros He Hk st. destruct (He st) as (t & Et & Ft & _). exists t, [].
  unfold added. rewrite Hk, app_nil_r. split; [done|]. by rewrite mutations_reads.
Qed.

End Balanced.

Ltac bal :=
  cbv beta;
  lazymatch goal with
  | |- balanced (bind (VM.log_action _) (λ _, bind (command _ _ _) _)) =>
      apply balanced_logged; [reflexivity | intros ?]
  | |- balanced (bind _ _) => apply balanced_bind; [|intros ?]
  | |- balanced (ret _) => apply balanced_ret
  | |- balanced (throw _) => apply balanced_throw
  | |- balanced (lift _) => apply balanced_lift
  | |- balanced get_res => apply balanced_get_res
  | |- balanced (modify_res _) => apply balanced_modify_res; intros []; reflexivity
  | |- balanced (query _ _ _) => apply balanced_query; reflexivity
  | |- balanced (when _ _) => apply balanced_when
  | |- balanced (for_each _ _) => apply balanced_for_each; intros ?
  | |- balanced (collect _ _) => apply balanced_collect; intros ?
  | |- balanced (match ?x with _ => _ end) => destruct x
  | |- balanced ?m =>
      first [ solve [auto with balanced]
            | let h := head_of m in unfold h ]
  end.

Ltac balance := repeat bal.

Section ActionLog.
Context {W : Type} (cm : Common) (rm : Remote W) (p : VM.Params).
Implicit Types st : St W VM.Results.

Lemma balanced_expand_interfaces ids l : balanced (VM.expand_interfaces cm rm p ids l).
Proof. revert l. induction ids as [|i ids IH]; intros l; simpl; balance. Qed.

Hint Resolve balanced_expand_interfaces : balanced.

Lemma balanced_serialize_vm vm : balanced (VM.serialize_vm cm rm p vm).
Proof. balance. Qed.

Hint Resolve balanced_serialize_vm : balanced.

Lemma balanced_diff_phase : balanced (VM.diff_phase cm rm p).
Proof. balance. Qed.

Lemma balanced_power_step psc : balanced (VM.power_step cm rm p psc).
Proof. balance. Qed.

Lemma settles_create_or_update_vm params : settles (VM.create_or_update_vm cm rm p params).
Proof. unfold VM.create_or_update_vm. apply settles_command; [done|]. intros ?. balance. Qed.

Lemma balanced_update_vm d : balanced (VM.update_vm cm rm p d).
Proof.
  unfold VM.update_vm. apply balanced_log_settles, settles_bind.
  - apply settles_create_or_update_vm.
  - intros r. balance.
Qed.

Lemma balanced_delete_vm vm : balanced (VM.delete_vm cm rm p vm).
Proof. balance. Qed.

Lemma balanced_create_default_nic location : balanced (VM.create_default_nic cm rm p location).
Proof. balance. Qed.

Lemma balanced_create_default_storage_account location :
  balanced (VM.create_default_storage_account cm rm p location).
Proof. balance. Qed.

(** a create logs its action first: when it fails before the request for
    the machine is sent, that action stands for no call *)
Lemma owing_create_vm n :
  ∀ st, ∃ t a, added (VM.create_vm cm rm p n) st t a ∧
    (length a = length (mutations t) ∨
     (∃ e, (VM.create_vm cm rm p n st).2 = Err e) ∧
     ∃ a', a = ("Created VM " +:+ VM.name p) :: a' ∧ length a' = length (mutations t)).
Proof.
  intros st. unfold VM.create_vm.
  set (rest := bind (lift (VM.validate_create p n)) _).
  assert (owing rest) as Hrest.
  { subst rest. pose proof balanced_create_default_nic. 
    pose proof balanced_create_default_storage_account.
    apply owing_bind; [balance|intros _].
    apply owing_bind; [balance; auto|intros nis].
    apply owing_bind; [balance; auto|intros uri].
    apply owing_bind; [balance|intros payload].
    apply owing_settles, settles_bind; [apply settles_create_or_update_vm|].
    intros r. balance. }
  destruct (Hrest (mkSt (world st) (trace st)
                     (VM.add_action ("Created VM " +:+ VM.name p) (res st))))
    as (t & a & [E A1] & L).
  exists t, (("Created VM " +:+ VM.name p) :: a). unfold added. rewrite bind_run.
  simpl in *. rewrite E, A1, <- app_assoc. split; [done|].
  destruct L as [L | [He L]]; [left; simpl; lia|]. right. split; [done|]. eauto.
Qed.


End ActionLog.

Section Staged.
Context {W R : Type}.

Lemma staged_weaken ks ks' {A} (m : M W R A) : ks `sublist_of` ks' → staged ks m → staged ks' m.
Proof.
  intros Hs Hm st. destruct (Hm st) as (t & E & H). exists t. split; [done|].
  by etrans.
Qed.

Lemma staged_reads ks {A} (m : M W R A) : emits read_only m → staged ks m.
Proof.
  intros Hm st. destruct (Hm st) as (t & E & F & _). exists t. split; [done|].
  rewrite mutations_reads by done. apply sublist_nil_l.
Qed.

Lemma staged_bind ks1 ks2 {A B} (m : M W R A) (k : A → M W R B) :
  staged ks1 m → (∀ a, staged ks2 (k a)) → staged (ks1 ++ ks2) (bind m k).
Proof.
  intros Hm Hk st. pose proof (bind_run m k st) as Hb.
  destruct (Hm st) as (t1 & E1 & S1).
  destruct (m st) as [s1 [x|e]]; simpl in *.
  2: { exists t1. rewrite Hb. split; [done|]. etrans; [done|]. by apply sublist_inserts_r. }
  destruct (Hk x s1) as (t2 & E2 & S2). exists (t1 ++ t2).
  rewrite Hb, E2, E1, app_assoc. split; [done|].
  rewrite mutations_app, map_app. by apply sublist_app.
Qed.

Lemma staged_bind_reads ks {A B} (m : M W R A) (k : A → M W R B) :
  emits read_only m → (∀ a, staged ks (k a)) → staged ks (bind m k).
Proof. intros Hm Hk. apply (staged_bind [] ks); [by apply staged_reads | done]. Qed.

Lemma staged_command ks {A B} c (run : W → W * A) ok (k : A → M W R B) :
  is_mutation c = true → (∀ a, staged ks (k a)) →
  staged (creation_stage c :: ks) (bind (command c run ok) k).
Proof.
  intros Hc Hk. apply (staged_bind [creation_stage c] ks); [|done].
  intros st. unfold command. destruct (run (world st)) as [w x]. eexists [_].
  split; [done|]. unfold mutations. by rewrite filter_cons_True.
Qed.

End Staged.

Section Deletion.
Context {W : Type} (cm : Common) (rm : Remote W).

Lemma delete_vm_collect_without_interfaces p vm st :
  VM.delete_network_interfaces p = false →
  ∃ vhd_uris st1 r,
    VM.delete_vm_collect cm rm p vm st = (st1, r) ∧
    VM.delete_vm_collect cm rm (keeping_public_ips p) vm st = (st1, r) ∧
    trace st1 = trace st ∧ world st1 = world st ∧
    (r = Ok (vhd_uris, [], []) ∨ ∃ e, r = Err e) ∧
    (VM.delete_virtual_storage p = false → r = Ok ([], [], [])).
Proof.
  intros Hn. unfold VM.delete_vm_collect. simpl. rewrite Hn.
  destruct (VM.delete_virtual_storage p).
  - destruct vm as [vm|].
    + exists [disk_vhd_uri (vm_os_disk vm)]. eexists _, _. repeat split; try done. by left.
    + exists []. eexists _, _. repeat split; try done. right. eauto.
  - exists []. eexists _, _. repeat split; try done. by left.
Qed.

Lemma spares_delete_vm_storage p vhd_uris :
  emits spares_network (VM.delete_vm_storage rm p vhd_uris).
Proof. unfold VM.delete_vm_storage. steps; intros; split; done. Qed.

Lemma delete_vm_apply_without_interfaces p vhd_uris :
  VM.delete_network_interfaces p = false →
  VM.delete_vm_apply rm p vhd_uris [] []
  = VM.delete_vm_apply rm (keeping_public_ips p) vhd_uris [] [] ∧
  emits spares_network (VM.delete_vm_apply rm p vhd_uris [] []).
Proof.
  intros Hn. split.
  - unfold VM.delete_vm_apply. simpl for_each. by destruct (VM.delete_public_ips p).
  - pose proof (spares_delete_vm_storage p).
    unfold VM.delete_vm_apply. rewrite Hn. simpl for_each.
    apply emits_bind; [steps|intros _].
    apply emits_bind; [apply emits_command; [done|]; intros b g n; by split|].
    intros []; [|steps]. apply emits_bind; [by apply emits_when|intros _].
    apply emits_bind; [steps|intros _]. apply emits_when. steps.
Qed.

(** X21: [delete_public_ips] has no effect of its own.  When
    [delete_network_interfaces] is off the deletion runs as if
    [delete_public_ips] were off too: no interface and no public IP is
    deleted.  With [delete_virtual_storage] off as well, the deletion of
    the machine is the only call that is made. *)
Theorem public_ips_go_with_interfaces p vm st :
  VM.delete_network_interfaces p = false →
  let run := VM.delete_vm cm rm p vm st in
  run = VM.delete_vm cm rm (keeping_public_ips p) vm st ∧
  ∃ t, trace run.1 = trace st ++ t ∧ Forall spares_network t ∧
       (VM.delete_virtual_storage p = false →
        map ev_call t = [VirtualMachinesDelete (VM.resource_group p) (VM.name p)]).
Proof.
  intros Hn. cbv zeta.
  destruct (delete_vm_collect_without_interfaces p vm st Hn)
    as (vhd_uris & st1 & r & E1 & E2 & Et & Ew & Hr & Hs).
  unfold VM.delete_vm. rewrite !bind_run, E1, E2.
  destruct Hr as [-> | [e ->]].
  2: { split; [done|]. exists []. simpl. rewrite app_nil_r. split; [done|].
       split; [constructor|]. intros Hv. by specialize (Hs Hv). }
  cbv iota beta.
  destruct (delete_vm_apply_without_interfaces p vhd_uris Hn) as [<- Hsp].
  split; [done|].
  destruct (emits_run _ _ st1 _ _ Hsp
              (surjective_pairing (VM.delete_vm_apply rm p vhd_uris [] [] st1)))
    as (t & Ett & Ft).
  exists t. rewrite Ett, Et. split; [done|]. split; [done|].
  intros Hv. specialize (Hs Hv). injection Hs as ->.
  revert Ett. unfold VM.delete_vm_apply. rewrite Hv, Hn. simpl for_each.
  unfold VM.log_action. rewrite bind_run. simpl. rewrite bind_run. unfold command. simpl.
  destruct (virtual_machines_delete rm (world st1) _ _) as [w b]. simpl.
  destruct b; simpl.
  - destruct (VM.delete_public_ips p); simpl; intros Ett; apply app_inv_head in Ett;
      by subst t.
  - intros Ett. apply app_inv_head in Ett. by subst t.
Qed.

End Deletion.

Ltac stage :=
  cbv beta;
  lazymatch goal with
  | |- staged _ (bind (command _ _ _) _) => apply staged_command; [reflexivity | intros ?]
  | |- staged _ (bind _ _) => apply staged_bind_reads; [solve [steps] | intros ?]
  | |- staged _ (match ?x with _ => _ end) => destruct x
  | |- staged _ _ => apply staged_reads; solve [steps]
  end.

Section Creation.
Context {W : Type} (cm : Common) (rm : Remote W) (p : VM.Params).

Lemma staged_create_default_nic location :
  staged ["public ip"; "security group"; "network interface"]
         (VM.create_default_nic cm rm p location).
Proof.
  assert (emits read_only (VM.find_virtual_network rm p)) by (unfold VM.find_virtual_network; steps).
  assert (∀ v, emits read_only (VM.find_subnet rm p v)) by (intros; unfold VM.find_subnet; steps).
  unfold VM.create_default_nic. repeat stage.
Qed.

Lemma staged_create_default_storage_account location :
  staged ["storage account"] (VM.create_default_storage_account cm rm p location).
Proof. unfold VM.create_default_storage_account. repeat stage. Qed.

Lemma staged_create_or_update_vm params :
  staged ["virtual machine"] (VM.create_or_update_vm cm rm p params).
Proof. unfold VM.create_or_update_vm. repeat stage. Qed.

Lemma staged_create_vm n : staged (creation_stages p) (VM.create_vm cm rm p n).
Proof.
  unfold VM.create_vm, creation_stages.
  apply staged_bind_reads; [steps|intros _].
  apply staged_bind_reads; [steps|intros _].
  apply staged_bind.
  { destruct (Py.truthy_list _); [apply staged_reads; steps|].
    change ["public ip"; "security group"; "network interface"]
      with (["public ip"; "security group"; "network interface"] ++ []).
    apply staged_bind; [apply staged_create_default_nic|]. intros nic.
    apply staged_reads. steps. }
  intros nis. apply staged_bind.
  { destruct (Py.truthy_opt _); [apply staged_reads; steps|].
    change ["storage account"] with (["storage account"] ++ []).
    apply staged_bind; [apply staged_create_default_storage_account|]. intros account.
    apply staged_reads. steps. }
  intros uri. apply staged_bind_reads; [steps|intros payload].
  change ["virtual machine"] with (["virtual machine"] ++ []).
  apply staged_bind; [apply staged_create_or_update_vm|]. intros r.
  apply staged_reads. steps.
Qed.

Lemma sublist_last (l ks : list string) x :
  l `sublist_of` ks ++ [x] → x ∈ l → x ∉ ks → last l = Some x.
Proof.
  intros (l1 & l2 & -> & H1 & H2)%sublist_app_r Hin Hks.
  apply elem_of_app in Hin as [Hin | Hin].
  { exfalso. apply Hks. by eapply elem_of_sublist. }
  destruct l2 as [|y l2]; [by apply not_elem_of_nil in Hin|].
  apply sublist_cons_r in H2 as [H2 | (l' & [= -> ->] & H2)].
  { apply sublist_nil_r in H2. done. }
  apply sublist_nil_r in H2 as ->. by rewrite last_snoc.
Qed.

Lemma stage_not_before :
  "virtual machine" ∉ (if Py.truthy_list (VM.network_interface_names p) then []
                       else ["public ip"; "security group"; "network interface"])
                      ++ (if Py.truthy_opt (VM.storage_account_name p) then []
                          else ["storage account"]).
Proof.
  destruct (Py.truthy_list _), (Py.truthy_opt _); simpl;
    rewrite ?elem_of_cons, ?elem_of_nil; intros H; repeat destruct H as [H|H]; done.
Qed.

(** X22: the order of a create.  An invocation for a machine that does not
    exist only creates: the public IP, the security group and the
    interface of the default interface unless interfaces are named, then
    the default storage account unless one is named, then the machine;
    each at most once, in that order, a stage being skipped when its
    resource exists.  When the invocation completes outside check mode the
    request for the machine is the last mutating call. *)
Theorem creation_order st :
  virtual_machines_get rm (world st) (VM.resource_group p) (VM.name p) = CloudError →
  VM.wants_vm (VM.state_ p) = true →
  let run := VM.exec_module_impl cm rm p st in
  ∃ t, trace run.1 = trace st ++ t ∧
       map creation_stage (mutations t) `sublist_of` creation_stages p ∧
       (is_ok run.2 = true → VM.check_mode p = false →
        last (map creation_stage (mutations t)) = Some "virtual machine").
Proof.
  intros Hg Hv. cbv zeta. rewrite vm_exec_run.
  destruct (reads_run _ st _ _ (reads_diff_phase cm rm p)
              (surjective_pairing (VM.diff_phase cm rm p st))) as (Hw & t1 & E1 & F1).
  pose proof (mutations_reads t1 F1) as M1.
  destruct (VM.diff_phase cm rm p st) as [st1 [[n f]|e]] eqn:Ed; simpl in Hw, E1.
  2: { exists t1. simpl. rewrite M1. split; [done|]. split; [apply sublist_nil_l|done]. }
  assert (f = {| VM.f_vm := None; VM.f_results := None; VM.f_changed := true;
                 VM.f_powerstate_change := None |}) as ->.
  { unfold VM.diff_phase in Ed. apply bind_ok in Ed as (s0 & n' & En & Ed).
    apply bind_ok in Ed as (s1 & f' & Ef & Ed). injection Ed as -> -> ->.
    apply (reads_run _ _ _ _ (reads_normalize rm p)) in En as [Hw0 _].
    unfold VM.fetch_and_diff, bind, query in Ef. simpl in Ef. rewrite Hw0, Hg in Ef.
    simpl in Ef. rewrite Hv in Ef. by injection Ef as _ <-. }
  cbv zeta. simpl VM.f_changed. destruct (VM.check_mode p).
  { exists t1. simpl. rewrite M1. split; [done|]. split; [apply sublist_nil_l|done]. }
  set (st2 := mkSt (world st1) (trace st1) _).
  assert (∀ s, VM.power_step cm rm p None s = (s, Ok tt)) as Hps.
  { intros s. unfold VM.power_step. rewrite bind_run. simpl. by destruct (VM.results (res s)). }
  assert (staged (creation_stages p)
            (VM.apply cm rm p n {| VM.f_vm := None; VM.f_results := None; VM.f_changed := true;
                                   VM.f_powerstate_change := None |})) as Hst.
  { unfold VM.apply. rewrite Hv. simpl.
    rewrite <- (app_nil_r (creation_stages p)). apply staged_bind; [apply staged_create_vm|].
    intros _. apply staged_reads. intros s. rewrite Hps. apply extends_refl. }
  assert (VM.apply cm rm p n {| VM.f_vm := None; VM.f_results := None; VM.f_changed := true;
                                VM.f_powerstate_change := None |} st2
          = match VM.create_vm cm rm p n st2 with
            | (s3, Ok _) => (s3, Ok tt)
            | (s3, Err e) => (s3, Err e)
            end) as Happ.
  { unfold VM.apply. rewrite Hv. simpl. rewrite bind_run.
    destruct (VM.create_vm cm rm p n st2) as [s3 [[]|e]]; [apply Hps|done]. }
  destruct (Hst st2) as (t2 & E2 & S2). rewrite Happ in E2 |- *.
  pose proof (issues_create_vm cm rm p n st2) as Heff.
  destruct (VM.create_vm cm rm p n st2) as [s3 [[]|e]] eqn:Ec; simpl in E2 |- *.
  2: { exists (t1 ++ t2). rewrite E2, E1, app_assoc.
       split; [done|]. rewrite mutations_app, M1. simpl. done. }
  destruct (Heff _ _ eq_refl) as (tc & Etc & Mc).
  exists (t1 ++ t2). rewrite E2, E1, app_assoc. split; [done|].
  rewrite mutations_app, M1. simpl. split; [done|]. intros _ _.
  assert (t2 = tc) as -> by (rewrite E2 in Etc; by apply app_inv_head in Etc).
  unfold creation_stages in S2. rewrite app_assoc in S2.
  apply (sublist_last _ _ _ S2); [|apply stage_not_before].
  apply Exists_exists in Mc as (c & Hc & Hq). rewrite <- Hq.
  by apply list_elem_of_fmap_2.
Qed.

End Creation.

Section Adjust.
Context (cm : Common) (p : VM.Params) (n : VM.Normalized).

Lemma eqb_false_eq (a b : string) : negb (String.eqb a b) = false → a = b.
Proof. intros H. apply negb_false_iff in H. by apply String.eqb_eq. Qed.

Lemma adjust_network_interfaces acc :
  let acc' := VM.diff_network_interfaces p n acc in
  a_size (adjustable_of acc'.1) = a_size (adjustable_of acc.1) ∧
  a_image (adjustable_of acc'.1) = a_image (adjustable_of acc.1) ∧
  a_caching (adjustable_of acc'.1) = a_caching (adjustable_of acc.1) ∧
  a_hostname (adjustable_of acc'.1) = a_hostname (adjustable_of acc.1) ∧
  if Py.truthy_list (VM.network_interface_names p)
  then (list_to_set (a_interfaces (adjustable_of acc'.1)) : gset string)
       = list_to_set (VM.n_network_interfaces n)
  else a_interfaces (adjustable_of acc'.1) = a_interfaces (adjustable_of acc.1).
Proof.
  destruct acc as [d l]. unfold VM.diff_network_interfaces. cbv zeta.
  destruct (Py.truthy_list _); [|done].
  destruct (bool_decide _) eqn:E; simpl.
  - repeat split. by rewrite map_map, map_id.
  - repeat split. apply bool_decide_eq_false in E. by apply dec_stable in E.
Qed.

Lemma adjust_vm_size acc :
  let acc' := VM.diff_vm_size p acc in
  a_interfaces (adjustable_of acc'.1) = a_interfaces (adjustable_of acc.1) ∧
  a_image (adjustable_of acc'.1) = a_image (adjustable_of acc.1) ∧
  a_caching (adjustable_of acc'.1) = a_caching (adjustable_of acc.1) ∧
  a_hostname (adjustable_of acc'.1) = a_hostname (adjustable_of acc.1) ∧
  a_size (adjustable_of acc'.1) = requested_or (VM.vm_size p) (a_size (adjustable_of acc.1)).
Proof.
  destruct acc as [d l]. unfold VM.diff_vm_size, requested_or. cbv zeta.
  destruct (VM.vm_size p) as [size|]; [|done]. simpl.
  destruct (Py.truthy size); [|done]. simpl.
  destruct (negb _) eqn:E; simpl; [done|]. repeat split. symmetry. by apply eqb_false_eq.
Qed.

Lemma adjust_os_disk_caching acc :
  let acc' := VM.diff_os_disk_caching p acc in
  a_interfaces (adjustable_of acc'.1) = a_interfaces (adjustable_of acc.1) ∧
  a_size (adjustable_of acc'.1) = a_size (adjustable_of acc.1) ∧
  a_image (adjustable_of acc'.1) = a_image (adjustable_of acc.1) ∧
  a_hostname (adjustable_of acc'.1) = a_hostname (adjustable_of acc.1) ∧
  a_caching (adjustable_of acc'.1)
    = requested_or (VM.os_disk_caching p) (a_caching (adjustable_of acc.1)).
Proof.
  destruct acc as [d l]. unfold VM.diff_os_disk_caching, requested_or. cbv zeta.
  destruct (VM.os_disk_caching p) as [c|]; [|done]. simpl.
  destruct (Py.truthy c); [|done]. simpl.
  destruct (negb _) eqn:E; simpl; [done|]. repeat split. symmetry. by apply eqb_false_eq.
Qed.

Lemma adjust_short_hostname acc :
  let acc' := VM.diff_short_hostname p acc in
  a_interfaces (adjustable_of acc'.1) = a_interfaces (adjustable_of acc.1) ∧
  a_size (adjustable_of acc'.1) = a_size (adjustable_of acc.1) ∧
  a_image (adjustable_of acc'.1) = a_image (adjustable_of acc.1) ∧
  a_caching (adjustable_of acc'.1) = a_caching (adjustable_of acc.1) ∧
  a_hostname (adjustable_of acc'.1)
    = requested_or (VM.short_hostname p) (a_hostname (adjustable_of acc.1)).
Proof.
  destruct acc as [d l]. unfold VM.diff_short_hostname, requested_or. cbv zeta.
  destruct (VM.short_hostname p) as [h|]; [|done]. simpl.
  destruct (Py.truthy h); [|done]. simpl.
  destruct (negb _) eqn:E; simpl; [done|]. repeat split. symmetry. by apply eqb_false_eq.
Qed.

Lemma adjust_tags acc :
  adjustable_of (VM.diff_tags cm p acc).1 = adjustable_of acc.1.
Proof.
  destruct acc as [d l]. unfold VM.diff_tags. by destruct (update_tags cm _ _ _).
Qed.

Lemma adjust_image acc acc' :
  VM.diff_image n acc = Ok acc' →
  a_interfaces (adjustable_of acc'.1) = a_interfaces (adjustable_of acc.1) ∧
  a_size (adjustable_of acc'.1) = a_size (adjustable_of acc.1) ∧
  a_caching (adjustable_of acc'.1) = a_caching (adjustable_of acc.1) ∧
  a_hostname (adjustable_of acc'.1) = a_hostname (adjustable_of acc.1) ∧
  if VM.truthy_dict (VM.n_image n)
  then ∃ image, VM.n_image n = Some image ∧ names_image image (a_image (adjustable_of acc'.1))
  else a_image (adjustable_of acc'.1) = a_image (adjustable_of acc.1).
Proof.
  destruct acc as [d l]. unfold VM.diff_image.
  destruct (VM.truthy_dict (VM.n_image n)) eqn:Ht; [|by intros [= <-]].
  destruct (VM.n_image n) as [image|]; [|done]. simpl default. intros E.
  apply obind_ok in E as (pub & E1 & E). apply subscript_ok in E1.
  apply obind_ok in E as ([d1 l1] & E2 & E).
  apply obind_ok in E as (ver & E4 & E). apply subscript_ok in E4.
  assert (a_interfaces (adjustable_of d1) = a_interfaces (adjustable_of d) ∧
          a_size (adjustable_of d1) = a_size (adjustable_of d) ∧
          a_caching (adjustable_of d1) = a_caching (adjustable_of d) ∧
          a_hostname (adjustable_of d1) = a_hostname (adjustable_of d) ∧
          image !! "publisher" = Some (img_publisher (VM.d_imageReference d1)) ∧
          image !! "offer" = Some (img_offer (VM.d_imageReference d1)) ∧
          image !! "sku" = Some (img_sku (VM.d_imageReference d1))) as (H1 & H2 & H3 & H4 & P1 & P2 & P3).
  { destruct (negb (String.eqb pub _)) eqn:Ep.
    - apply obind_ok in E2 as (off & Eo & E2). apply subscript_ok in Eo.
      apply obind_ok in E2 as (sk & Es & E2). apply subscript_ok in Es.
      by injection E2 as <- <-.
    - apply eqb_false_eq in Ep.
      apply obind_ok in E2 as (off & Eo & E2). apply subscript_ok in Eo.
      destruct (negb (String.eqb off _)) eqn:Eof.
      + apply obind_ok in E2 as (sk & Es & E2). apply subscript_ok in Es.
        by injection E2 as <- <-.
      + apply eqb_false_eq in Eof.
        apply obind_ok in E2 as (sk & Es & E2). apply subscript_ok in Es.
        destruct (negb (String.eqb sk _)) eqn:Esk.
        * by injection E2 as <- <-.
        * apply eqb_false_eq in Esk. injection E2 as <- <-. by subst. }
  destruct (negb (String.eqb ver _)) eqn:Ev.
  - injection E as <-. simpl. repeat (split; [done|]). exists image. by repeat split.
  - apply eqb_false_eq in Ev. injection E as <-. simpl. repeat (split; [done|]).
    exists image. repeat split; try done. by rewrite <- Ev.
Qed.

Lemma update_payload_adjustable d :
  let payload := VM.update_payload d in
  vp_vm_size payload = Some (a_size (adjustable_of d)) ∧
  vp_caching payload = Some (a_caching (adjustable_of d)) ∧
  vp_computer_name payload = Some (a_hostname (adjustable_of d)) ∧
  vp_network_interfaces payload = a_interfaces (adjustable_of d) ∧
  vp_image payload = a_image (adjustable_of d).
Proof. done. Qed.

(** X23: what an update asks for.  Whatever the existing machine, the update
    object built after the comparison has, for the size, the caching of the
    OS disk and the short host name, the requested value when one is given
    and the value of the machine otherwise; the interfaces of the request
    (as a set) when interfaces are named, and those of the machine
    otherwise; the image of the request when an image is given, and that of
    the machine otherwise. *)
Theorem update_request_carries_requested_values d r :
  VM.diff cm p n d = Ok r →
  let payload := VM.update_payload (VM.dict r) in
  vp_vm_size payload = Some (requested_or (VM.vm_size p) (VM.d_vmSize d)) ∧
  vp_caching payload
    = Some (requested_or (VM.os_disk_caching p) (disk_caching (VM.d_osDisk d))) ∧
  vp_computer_name payload
    = Some (requested_or (VM.short_hostname p) (os_computer_name (VM.d_osProfile d))) ∧
  (if Py.truthy_list (VM.network_interface_names p)
   then (list_to_set (vp_network_interfaces payload) : gset string)
        = list_to_set (VM.n_network_interfaces n)
   else vp_network_interfaces payload = map VM.if_id (VM.d_networkInterfaces d)) ∧
  (if VM.truthy_dict (VM.n_image n)
   then ∃ image, VM.n_image n = Some image ∧ names_image image (vp_image payload)
   else vp_image payload = VM.d_imageReference d).
Proof.
  unfold VM.diff. intros E. apply obind_ok in E as (a3 & E3 & E).
  pose proof (adjust_network_interfaces (d, [])) as (N1 & N2 & N3 & N4 & N5).
  set (a1 := VM.diff_network_interfaces p n (d, [])) in *.
  pose proof (adjust_vm_size a1) as (S1 & S2 & S3 & S4 & S5).
  set (a2 := VM.diff_vm_size p a1) in *.
  apply adjust_image in E3 as (I1 & I2 & I3 & I4 & I5).
  pose proof (adjust_os_disk_caching a3) as (C1 & C2 & C3 & C4 & C5).
  set (a4 := VM.diff_os_disk_caching p a3) in *.
  pose proof (adjust_tags a4) as T.
  set (a5 := VM.diff_tags cm p a4) in *.
  pose proof (adjust_short_hostname a5) as (H1 & H2 & H3 & H4 & H5).
  destruct (VM.diff_short_hostname p a5) as [d6 l6]. injection E as <-.
  cbv zeta in *. simpl VM.dict.
  destruct (update_payload_adjustable d6) as (-> & -> & -> & -> & ->).
  simpl fst in *. rewrite T in H1, H2, H3, H4, H5.
  rewrite H2, C2, I2, S5, N1. rewrite H4, C5, I3, S3, N3. rewrite H5, C4, I4, S4, N4.
  rewrite H1, C1, I1, S1. rewrite H3, C3.
  split; [done|]. split; [done|]. split; [done|]. split; [done|].
  destruct (VM.truthy_dict (VM.n_image n)); [done|]. by rewrite I5, S2, N2.
Qed.

End Adjust.

Lemma Forall2_compose {A B C} (R : A → B → Prop) (S : B → C → Prop) (T : A → C → Prop)
    l k m :
  (∀ x y z, R x y → S y z → T x z) → Forall2 R l k → Forall2 S k m → Forall2 T l m.
Proof.
  intros H HR. revert m. induction HR; intros m HS; inversion HS; subst; constructor; eauto.
Qed.

Lemma Forall2_map_l {A A' B} (f : A → A') (R : A' → B → Prop) l k :
  Forall2 R (map f l) k ↔ Forall2 (λ x, R (f x)) l k.
Proof. apply (Forall2_fmap_l f R l k). Qed.

Lemma Forall2_elem_of {A B} (R : A → B → Prop) l k :
  Forall2 R l k → Forall2 (λ x y, x ∈ l ∧ R x y) l k.
Proof.
  assert (∀ l0, Forall2 R l k → l ⊆ l0 → Forall2 (λ x y, x ∈ l0 ∧ R x y) l k) as H.
  { intros l0 HR. induction HR as [|x y l k Hxy HR IH]; intros Hs; constructor.
    - split; [|done]. apply Hs. by left.
    - apply IH. intros z Hz. apply Hs. by right. }
  intros HR. by apply H.
Qed.

Section Serialize.
Context {W : Type} (cm : Common) (rm : Remote W) (p : VM.Params).
Implicit Types st : St W VM.Results.

Lemma expand_interfaces_ok ids l st st' l' :
  VM.expand_interfaces cm rm p ids l st = (st', Ok l') →
  same st st' ∧
  Forall2 (pending cm rm p (world st) ids) l l'.
Proof.
  revert l st. induction ids as [|id ids IH]; intros l st; simpl.
  - intros [= <- <-]. split; [done|]. apply Forall_Forall2_diag, Forall_forall.
    intros i _. unfold pending. rewrite bool_decide_eq_false_2; [done|]. apply not_elem_of_nil.
  - intros E. apply bind_ok in E as (s1 & name & E1 & E).
    assert (s1 = st ∧ subscript (azure_id_to_dict cm id) "networkInterfaces" = Ok name)
      as [-> Hname].
    { unfold lift in E1. destruct (subscript _ _); [|done]. by injection E1 as <- <-. }
    apply bind_ok in E as (s2 & nic & E2 & E).
    apply get_network_interface_ok in E2 as [S2 Hnic].
    apply IH in E as [S3 HF]. split; [by eapply same_trans|].
    unfold VM.expand_interface in HF. apply (proj1 (Forall2_map_l _ _ _ _)) in HF.
    destruct S2 as [Hw _]. eapply Forall2_impl; [exact HF|]. clear HF.
    intros i i' H. unfold pending in *. simpl in H. rewrite Hw in H.
    destruct (String.eqb (VM.if_id i) id) eqn:Eid.
    + apply String.eqb_eq in Eid. simpl in H.
      rewrite bool_decide_eq_true_2 by (rewrite Eid; by left).
      destruct (bool_decide (VM.if_id i ∈ ids)); [done|]. subst i'. rewrite Eid.
      by exists name, nic.
    + apply String.eqb_neq in Eid.
      rewrite (bool_decide_ext (VM.if_id i ∈ id :: ids) (VM.if_id i ∈ ids)); [done|].
      rewrite elem_of_cons. tauto.
Qed.

Lemma expand_public_ip_ok config st st' config' :
  VM.expand_public_ip cm rm p config st = (st', Ok config') →
  same st st' ∧
  expanded_config cm rm p (world st) (option_map VM.pd_id (VM.ipc_public_ip config)) config'.
Proof.
  unfold VM.expand_public_ip. destruct config as [[pip|]]; simpl.
  - intros E. apply bind_ok in E as (s1 & name & E1 & E).
    assert (s1 = st ∧ subscript (azure_id_to_dict cm (VM.pd_id pip)) "publicIPAddresses"
                      = Ok name) as [-> Hname].
    { unfold lift in E1. destruct (subscript _ _); [|done]. by injection E1 as <- <-. }
    split; [eapply same_run; [| |exact E]; steps|].
    unfold bind, query in E. simpl in E.
    destruct (public_ip_addresses_get rm (world st) _ name) as [fetched|] eqn:Ef; [|done].
    injection E as _ <-. by exists name, fetched.
  - intros [= <- <-]. done.
Qed.

Lemma expand_public_ips_ok l st st' l' :
  VM.expand_public_ips cm rm p l st = (st', Ok l') →
  same st st' ∧
  Forall2 (λ i i', VM.if_id i' = VM.if_id i ∧ VM.if_name i' = VM.if_name i ∧
                   ∃ configs configs',
                     VM.if_properties i = Some configs ∧ VM.if_properties i' = Some configs' ∧
                     Forall2 (λ c c', expanded_config cm rm p (world st)
                                        (option_map VM.pd_id (VM.ipc_public_ip c)) c')
                             configs configs') l l'.
Proof.
  unfold VM.expand_public_ips. intros E.
  eapply (collect_ok _ (λ w i i', VM.if_id i' = VM.if_id i ∧ VM.if_name i' = VM.if_name i ∧
                   ∃ configs configs',
                     VM.if_properties i = Some configs ∧ VM.if_properties i' = Some configs' ∧
                     Forall2 (λ c c', expanded_config cm rm p w
                                        (option_map VM.pd_id (VM.ipc_public_ip c)) c')
                             configs configs')) in E; [exact E|].
  clear. intros i s s' i' E. destruct (VM.if_properties i) as [configs|] eqn:Ep; [|done].
  apply bind_ok in E as (s1 & configs' & E1 & E). injection E as <- <-.
  eapply (collect_ok _ (λ w c c', expanded_config cm rm p w
                                    (option_map VM.pd_id (VM.ipc_public_ip c)) c')) in E1.
  - destruct E1 as [S1 HF]. split; [done|]. simpl. eauto 10.
  - intros c t t' c' Ec. by apply expand_public_ip_ok.
Qed.

(** X24: what [serialize_vm] returns.  It only reads.  The dict is the
    machine as [serialize_obj] gives it, with the power state of the first
    [PowerState] status and with one entry for each interface of the
    machine, in their order: the id, the name taken from the id, and the IP
    configurations of the interface that the service holds under that name,
    each public IP with its name and address.  Unless the machine is to be
    absent it has a power state. *)
Theorem serialized_machine vm st st' d :
  VM.serialize_vm cm rm p vm st = (st', Ok d) →
  same st st' ∧
  d = VM.set_networkInterfaces (VM.d_networkInterfaces d)
        (VM.set_power_state (VM.power_state_of (vm_statuses vm)) (VM.serialize_obj vm)) ∧
  Forall2 (expanded_interface cm rm p (world st))
          (vm_network_interfaces vm) (VM.d_networkInterfaces d) ∧
  (VM.state_ p ≠ VM.absent → Py.truthy_opt (VM.d_power_state d) = true).
Proof.
  unfold VM.serialize_vm. intros E.
  apply bind_ok in E as (s1 & l1 & E1 & E). apply bind_ok in E as (s2 & l2 & E2 & E).
  apply expand_interfaces_ok in E1 as [S1 F1]. apply expand_public_ips_ok in E2 as [S2 F2].
  destruct (negb (bool_decide (VM.state_ p = VM.absent)) && _) eqn:Hps; [done|].
  injection E as <- <-. split; [by eapply same_trans|]. split; [done|]. split.
  - simpl. simpl in F1. apply (proj1 (Forall2_map_l _ _ _ _)), Forall2_elem_of in F1.
    destruct S1 as [Hw _]. rewrite Hw in F2.
    eapply Forall2_compose; [|exact F1|exact F2]. clear.
    intros id i i' [Hin H] (Hid & Hnm & configs & configs' & Hc & Hc' & HF).
    unfold pending in H. simpl in H. rewrite bool_decide_eq_true_2 in H by done.
    destruct H as (name & nic & Hname & Hnic & ->). simpl in *. injection Hc as <-.
    split; [done|]. exists name, nic, configs'. repeat (split; [done|]).
    apply (proj1 (Forall2_map_l _ _ _ _)) in HF. eapply Forall2_impl; [exact HF|].
    intros pip c H. simpl in H. by destruct pip.
  - intros Hs. simpl. apply andb_false_iff in Hps as [Hps|Hps].
    + apply negb_false_iff, bool_decide_eq_true in Hps. done.
    + by apply negb_false_iff in Hps.
Qed.

End Serialize.

Section DefaultNic.
Context {W : Type} (cm : Common) (rm : Remote W) (p : VM.Params).
Implicit Types st : St W VM.Results.

Lemma find_virtual_network_ok st st' vnet :
  VM.find_virtual_network rm p st = (st', Ok vnet) →
  same st st' ∧
  if Py.truthy_opt (VM.virtual_network_name p)
  then VM.virtual_network_name p = Some vnet ∧
       found (virtual_networks_list rm (world st) (VM.resource_group p)
                (VM.virtual_network_name p)) = true
  else ∃ vnets, virtual_networks_list rm (world st) (VM.resource_group p) None
                = Found (vnet :: vnets) ∧ vnet ≠ EmptyString.
Proof.
  intros E. split; [eapply same_run; [| |exact E]; unfold VM.find_virtual_network; steps|].
  unfold VM.find_virtual_network in E.
  destruct (Py.truthy_opt (VM.virtual_network_name p)) eqn:Ht.
  - unfold bind, query in E. simpl in E.
    destruct (virtual_networks_list rm (world st) _ _) as [l| |]; [|done..].
    injection E as _ <-. destruct (VM.virtual_network_name p); [done|discriminate].
  - unfold bind, query in E. simpl in E.
    destruct (virtual_networks_list rm (world st) _ _) as [[|v l]| |]; [done| |done..].
    destruct (Py.truthy v) eqn:Hv; [|done]. injection E as _ <-.
    exists l. split; [done|]. by destruct v.
Qed.

Lemma find_subnet_ok vnet st st' subnet :
  VM.find_subnet rm p vnet st = (st', Ok subnet) →
  same st st' ∧
  if Py.truthy_opt (VM.subnet_name p)
  then subnets_get rm (world st) (VM.resource_group p) vnet = Some subnet
  else ∃ subnets, subnets_list rm (world st) (VM.resource_group p) vnet
                  = Found (subnet :: subnets) ∧ subnet ≠ EmptyString.
Proof.
  intros E. split; [eapply same_run; [| |exact E]; unfold VM.find_subnet; steps|].
  unfold VM.find_subnet in E.
  destruct (Py.truthy_opt (VM.subnet_name p)) eqn:Ht.
  - unfold bind, query in E. simpl in E.
    destruct (subnets_get rm (world st) _ _) as [s|]; [|done]. by injection E as _ <-.
  - unfold bind, query in E. simpl in E.
    destruct (subnets_list rm (world st) _ _) as [[|s l]| |]; [done| |done..].
    destruct (Py.truthy s) eqn:Hs; [|done]. injection E as _ <-.
    exists l. split; [done|]. by destruct s.
Qed.


End DefaultNic.

Section PrefixWitnesses.
Import Reference Examples.

Lemma validate_reports_first_invalid_prefix_witness :
  VNet.validate common (vnet_params (Some ["10.0.0.0/16"; "10.0.0.0/33"; "bad"]) true)
  = Err (invalid_prefix "10.0.0.0/33").
Proof.
  apply (validate_reports_first_invalid_prefix common
           (vnet_params (Some ["10.0.0.0/16"; "10.0.0.0/33"; "bad"]) true)
           ["10.0.0.0/16"] "10.0.0.0/33" ["bad"]).
  - reflexivity.
  - reflexivity.
  - reflexivity.
  - reflexivity.
  - repeat constructor.
  - reflexivity.
Defined.


Lemma purge_replaces_or_keeps_prefixes_witness :
  VNet.reconcile_address_prefixes purge_extra two_prefixes false
    (VNet.virtual_network_to_dict two_prefixes)
  = if bool_decide (["10.0.0.0/16"; "10.1.0.0/16"] ⊆ ["10.1.0.0/16"])
    then Ok (false || negb (bool_decide (["10.1.0.0/16"] ⊆ ["10.0.0.0/16"; "10.1.0.0/16"])),
             VNet.virtual_network_to_dict two_prefixes)
    else Ok (true, <["address_prefixes" := VList ["10.1.0.0/16"] ]>
                     (VNet.virtual_network_to_dict two_prefixes)).
Proof.
  apply (purge_replaces_or_keeps_prefixes purge_extra two_prefixes false
           (VNet.virtual_network_to_dict two_prefixes)
           ["10.0.0.0/16"; "10.1.0.0/16"] ["10.1.0.0/16"]).
  - reflexivity.
  - reflexivity.
  - discriminate.
  - reflexivity.
Defined.

End PrefixWitnesses.

Section VNetWitnesses.
Import Reference Examples VNetSamples.

Lemma matching_request_is_no_change_witness :
  VNet.diff_existing common reordered two_prefixes
  = Ok (false, <["tags" := VNone]> (VNet.virtual_network_to_dict two_prefixes)).
Proof.
  apply (matching_request_is_no_change common reordered two_prefixes VNone).
  - reflexivity.
  - reflexivity.
  - reflexivity.
  - intros requested [= <-] _. exists ["10.0.0.0/16"; "10.1.0.0/16"].
    split; [reflexivity|]. intros x. rewrite !elem_of_cons. tauto.
  - intros requested [= <-] _. exists ["10.0.0.4"].
    split; [reflexivity|]. intros x. rewrite !elem_of_cons. tauto.
  - discriminate.
Defined.

Lemma purged_dns_servers_leave_no_dhcp_options_witness :
  let d := value_of (false, ∅) (VNet.diff_existing common purge_dns one_prefix) in
  d.1 = true ∧ d.2 !! "dns_servers" = Some (VList []) ∧
  ∀ payload, VNet.update_payload d.2 = Ok payload → np_dhcp_options payload = None.
Proof.
  apply (purged_dns_servers_leave_no_dhcp_options common purge_dns one_prefix).
  - reflexivity.
  - reflexivity.
  - reflexivity.
  - apply ok_pair_value_of. vm_compute. reflexivity.
Defined.

Lemma vnet_check_mode_predicts_change_witness :
  let run := vnet_run add_without_purge (world_with one_prefix) in
  let o := value_of VNet.initial_results run.2 in
  ∃ st_dry o_dry,
    VNet.exec_module_impl common remote (vnet_dry_run add_without_purge)
      (vnet_start (world_with one_prefix)) = (st_dry, Ok o_dry) ∧
    VNet.changed o_dry = VNet.changed o ∧
    (VNet.changed o = false → st_dry = run.1 ∧ o_dry = o).
Proof.
  apply (vnet_check_mode_predicts_change common remote add_without_purge
           (vnet_start (world_with one_prefix))).
  apply run_value_of. vm_compute. reflexivity.
Defined.

Lemma vnet_create_run_witness :
  let p := add_without_purge in
  let st := vnet_start empty_world in
  let payload := VNet.create_payload p "eastus" ["10.0.0.0/16"; "10.1.0.0/16"] in
  let request := VirtualNetworksCreateOrUpdate "Testing" "foobar" payload in
  let sent := virtual_networks_create_or_update remote empty_world "Testing" "foobar" payload in
  VNet.exec_module_impl common remote p st
  = match sent.2 with
    | Some new_vnet =>
        let o := {| VNet.changed := true;
                    VNet.results := VNet.virtual_network_to_dict new_vnet |} in
        (mkSt sent.1 (trace st ++ vnet_reads remote p (world st) ++ [Event request true]) o, Ok o)
    | None =>
        (mkSt sent.1 (trace st ++ vnet_reads remote p (world st) ++ [Event request false])
              {| VNet.changed := true; VNet.results := ∅ |},
         Err (RemoteOperationError
                ("Error creating or updating virtual network " +:+ VNet.name p)))
    end.
Proof.
  apply (vnet_create_run common remote add_without_purge (vnet_start empty_world) "eastus"
           ["10.0.0.0/16"; "10.1.0.0/16"]).
  - reflexivity.
  - reflexivity.
  - reflexivity.
  - reflexivity.
  - reflexivity.
  - reflexivity.
  - discriminate.
Defined.

Lemma vnet_absent_run_witness :
  let p := remove_network in
  let st := vnet_start (world_with one_prefix) in
  let reads := vnet_reads remote p (world st) in
  let request := VirtualNetworksDelete "Testing" "foobar" in
  let o := {| VNet.changed := true;
              VNet.results := <["status" := VStr "Deleted"]>
                                (VNet.virtual_network_to_dict one_prefix) |} in
  VNet.exec_module_impl common remote p st
  = (mkSt empty_world (trace st ++ reads ++ [Event request true]) o, Ok o).
Proof.
  refine (vnet_absent_run common remote remove_network (vnet_start (world_with one_prefix))
            "eastus" _ _ _ _ _).
  - reflexivity.
  - reflexivity.
  - reflexivity.
  - reflexivity.
  - reflexivity.
Defined.


End VNetWitnesses.

Section VMWitnesses.
Import Reference Examples Samples VMSamples.

Lemma parameter_defaults_witness :
  let p := create_with_existing in
  let st := vm_start prepared in
  let st' := (VM.normalize remote p st).1 in
  let n := checked p prepared in
  world st' = world st ∧ res st' = res st ∧
  (∃ group_location,
     resource_groups_get remote (world st) (VM.resource_group p) = Some group_location ∧
     VM.n_location n = location_or (VM.location p) group_location) ∧
  (VM.wants_vm (VM.state_ p) = true →
   VM.n_storage_blob_name n
     = (if Py.truthy_opt (VM.storage_blob_name p) then VM.storage_blob_name p
        else Some (VM.name p +:+ ".vhd")) ∧
   VM.n_requested_vhd_uri n
     = (if Py.truthy_opt (VM.storage_account_name p)
        then Some (VM.vhd_uri_of (default EmptyString (VM.storage_account_name p))
                     (VM.storage_container_name p) (VM.n_storage_blob_name n))
        else None) ∧
   VM.n_disable_ssh_password n = Some (negb (VM.ssh_password p)) ∧
   Forall2 (λ name id, ∃ nic,
              network_interfaces_get remote (world st) (VM.resource_group p) name = Found nic ∧
              id = nic_id nic)
           (default [] (VM.network_interface_names p)) (VM.n_network_interfaces n)).
Proof.
  apply (parameter_defaults remote create_with_existing (vm_start prepared)).
  apply run_value_of. vm_compute. reflexivity.
Defined.

Lemma checked_parameters_exist_witness :
  let p := create_with_existing in
  let st := vm_start prepared in
  let n := checked p prepared in
  (∀ size, VM.vm_size p = Some size → size ≠ EmptyString →
     ∃ sizes, virtual_machine_sizes_list remote (world st) (VM.n_location n) = Some sizes ∧
              size ∈ sizes) ∧
  (∀ account, VM.storage_account_name p = Some account → account ≠ EmptyString →
     found (storage_accounts_get_properties remote (world st) (VM.resource_group p) account)
     = true) ∧
  (VM.truthy_dict (VM.image p) = true →
   ∃ image pub off sk ver versions v,
     VM.image p = Some image ∧ image_of image pub off sk ver ∧
     virtual_machine_images_list remote (world st) (VM.n_location n) pub off sk
       = Some versions ∧
     resolves ver versions v ∧
     VM.n_image n = Some (<["version" := v]> image)).
Proof.
  apply (checked_parameters_exist remote create_with_existing (vm_start prepared)
           (VM.normalize remote create_with_existing (vm_start prepared)).1).
  - apply run_value_of. vm_compute. reflexivity.
  - reflexivity.
Defined.

Lemma create_request_after_checks_witness :
  let p := create_with_existing in
  let n := checked p prepared in
  ∃ payload pks,
    VM.create_payload p n (VM.n_network_interfaces n) (VM.n_requested_vhd_uri n)
      = Ok payload ∧
    default [] (VM.ssh_public_keys p) = map key_entry_of pks ∧
    vp_linux_configuration payload = linux_configuration_of p pks ∧
    vp_admin_username payload = VM.admin_username p ∧
    vp_computer_name payload
      = (if Py.truthy_opt (VM.short_hostname p) then VM.short_hostname p
         else Some (VM.name p)) ∧
    vp_network_interfaces payload = VM.n_network_interfaces n ∧
    vp_vhd_uri payload = VM.n_requested_vhd_uri n.
Proof.
  refine (create_request_after_checks remote create_with_existing (vm_start prepared)
            (VM.normalize remote create_with_existing (vm_start prepared)).1
            (checked create_with_existing prepared) _ _ _ _ _).
  - reflexivity.
  - apply run_value_of. vm_compute. reflexivity.
  - vm_compute. reflexivity.
Defined.

Lemma unlisted_vm_size_raises_witness :
  let p := with_vm_size "Standard_Z9" create_with_defaults in
  VM.exec_module_impl common remote p (vm_start prepared)
  = (mkSt prepared
          ([] ++ [Event (ResourceGroupsGet "Testing") true;
                  Event (VirtualMachineSizesList "eastus") true])
          VM.initial_results,
     Err (PythonException "AttributeError: 'str' object has no attribute 'foramt'")).
Proof.
  apply (unlisted_vm_size_raises common remote
           (with_vm_size "Standard_Z9" create_with_defaults) (vm_start prepared)
           "eastus" "Standard_Z9" ["Standard_A1"; "Standard_D1"; "Standard_D4"]).
  - reflexivity.
  - reflexivity.
  - reflexivity.
  - discriminate.
  - reflexivity.
  - apply (bool_decide_unpack _). vm_compute. exact I.
Defined.

Lemma vm_check_mode_predicts_change_witness :
  let p := resize_and_start in
  let st := vm_start (world_of (testvm stopped_statuses) []) in
  let run := VM.exec_module_impl common remote p st in
  let o := value_of VM.initial_results run.2 in
  ∃ st_dry o_dry,
    VM.exec_module_impl common remote (vm_dry_run p) st = (st_dry, Ok o_dry) ∧
    decided o_dry = decided o ∧
    (VM.changed o = false → st_dry = run.1 ∧ o_dry = o).
Proof.
  apply (vm_check_mode_predicts_change common remote resize_and_start
           (vm_start (world_of (testvm stopped_statuses) []))).
  apply run_value_of. vm_compute. reflexivity.
Defined.

Lemma vm_changed_tells_mutation_witness :
  let p := create_with_existing in
  let st := vm_start prepared in
  let run := VM.exec_module_impl common remote p st in
  let o := value_of VM.initial_results run.2 in
  ∃ t, trace run.1 = trace st ++ t ∧
       (VM.changed o && negb (VM.check_mode p) = true ↔ mutations t ≠ []) ∧
       (mutations t = [] → world run.1 = world st).
Proof.
  apply (vm_changed_tells_mutation common remote create_with_existing (vm_start prepared)).
  apply run_value_of. vm_compute. reflexivity.
Defined.

Lemma public_ips_go_with_interfaces_witness :
  let p := remove_keeping_interfaces in
  let vm := Some (testvm running_statuses) in
  let st := vm_start (world_of (testvm running_statuses) []) in
  let run := VM.delete_vm common remote p vm st in
  run = VM.delete_vm common remote (keeping_public_ips p) vm st ∧
  ∃ t, trace run.1 = trace st ++ t ∧ Forall spares_network t ∧
       (VM.delete_virtual_storage p = false →
        map ev_call t = [VirtualMachinesDelete (VM.resource_group p) (VM.name p)]).
Proof.
  apply (public_ips_go_with_interfaces common remote remove_keeping_interfaces
           (Some (testvm running_statuses))
           (vm_start (world_of (testvm running_statuses) []))).
  reflexivity.
Defined.

Lemma creation_order_witness :
  let p := create_with_defaults in
  let st := vm_start prepared in
  let run := VM.exec_module_impl common remote p st in
  ∃ t, trace run.1 = trace st ++ t ∧
       map creation_stage (mutations t) `sublist_of` creation_stages p ∧
       (is_ok run.2 = true → VM.check_mode p = false →
        last (map creation_stage (mutations t)) = Some "virtual machine").
Proof.
  apply (creation_order common remote create_with_defaults (vm_start prepared)).
  - reflexivity.
  - reflexivity.
Defined.

Lemma update_request_carries_requested_values_witness :
  let p := resize_and_start in
  let n := checked p (world_of (testvm stopped_statuses) []) in
  let d := serialized_testvm in
  let r := value_of no_difference (VM.diff common p n d) in
  let payload := VM.update_payload (VM.dict r) in
  vp_vm_size payload = Some (requested_or (VM.vm_size p) (VM.d_vmSize d)) ∧
  vp_caching payload
    = Some (requested_or (VM.os_disk_caching p) (disk_caching (VM.d_osDisk d))) ∧
  vp_computer_name payload
    = Some (requested_or (VM.short_hostname p) (os_computer_name (VM.d_osProfile d))) ∧
  (if Py.truthy_list (VM.network_interface_names p)
   then (list_to_set (vp_network_interfaces payload) : gset string)
        = list_to_set (VM.n_network_interfaces n)
   else vp_network_interfaces payload = map VM.if_id (VM.d_networkInterfaces d)) ∧
  (if VM.truthy_dict (VM.n_image n)
   then ∃ image, VM.n_image n = Some image ∧ names_image image (vp_image payload)
   else vp_image payload = VM.d_imageReference d).
Proof.
  apply (update_request_carries_requested_values common resize_and_start
           (checked resize_and_start (world_of (testvm stopped_statuses) []))
           serialized_testvm).
  apply ok_value_of. vm_compute. reflexivity.
Defined.

End VMWitnesses.

Section SerializeWitness.
Import Reference Examples Samples VMSamples.

Lemma serialized_machine_witness :
  let p := vm_params VM.started false in
  let vm := testvm stopped_statuses in
  let st := vm_start (world_of vm []) in
  let run := VM.serialize_vm common remote p vm st in
  let d := value_of serialized_testvm run.2 in
  same st run.1 ∧
  d = VM.set_networkInterfaces (VM.d_networkInterfaces d)
        (VM.set_power_state (VM.power_state_of (vm_statuses vm)) (VM.serialize_obj vm)) ∧
  Forall2 (expanded_interface common remote p (world st))
          (vm_network_interfaces vm) (VM.d_networkInterfaces d) ∧
  (VM.state_ p ≠ VM.absent → Py.truthy_opt (VM.d_power_state d) = true).
Proof.
  apply (serialized_machine common remote (vm_params VM.started false)
           (testvm stopped_statuses) (vm_start (world_of (testvm stopped_statuses) []))).
  apply run_value_of. vm_compute. reflexivity.
Defined.

End SerializeWitness.

Section DefaultNicWitness.
Import Reference Examples Samples VMSamples.


End DefaultNicWitness.
